(** * ETL of the Brazilian federal lotteries: cleaning, features, persistence

    A shallow embedding of [src/commons/data_cleaning.py],
    [src/commons/feature_engineering.py],
    [src/commons/transform_to_sqlite.py], [src/commons/utils.py] and
    [run_etl.py], and the properties of the specification that are checked
    against it.

    A pandas [DataFrame] is a list of named columns over a list of index
    labels; a cell is a Python object.  A Python exception is a [Raise]
    result.  The grammars of the Python runtime that the code calls
    ([ast.literal_eval], [int] on a string, the date and number parsers of
    pandas, [repr] of a float, the JSON escaping of a string) are the fields
    of the class [PyRuntime]; everything else is computed. *)

From Stdlib Require Import ZArith List String Ascii Bool Lia SpecFloat.
From stdpp Require Import base option list strings pretty gmap.
Import ListNotations.

Local Set Warnings "-register-all".
Local Open Scope string_scope.
Local Open Scope Z_scope.

(** ** Binary64 floating point (Python [float], NumPy [float64]) *)

Module F64.

Definition prec : Z := 53.
Definition emax : Z := 1024.

Definition nan : spec_float := S754_nan.
Definition zero : spec_float := S754_zero false.

Definition add : spec_float -> spec_float -> spec_float := SFadd prec emax.
Definition div : spec_float -> spec_float -> spec_float := SFdiv prec emax.

(** Correctly rounded conversion of an integer; infinite when too large. *)
Definition of_Z (z : Z) : spec_float := binary_normalize prec emax z 0 false.

Definition is_nan (f : spec_float) : bool :=
  match f with S754_nan => true | _ => false end.

Definition is_zero (f : spec_float) : bool :=
  match f with S754_zero _ => true | _ => false end.

Definition is_inf (f : spec_float) : bool :=
  match f with S754_infinity _ => true | _ => false end.


(** [int(f)]: truncation toward zero; [None] for NaN and the infinities. *)
Definition trunc (f : spec_float) : option Z :=
  match f with
  | S754_zero _ => Some 0
  | S754_finite s m e =>
      let a := if 0 <=? e then Z.pos m * 2 ^ e else Z.pos m / 2 ^ (- e) in
      Some (if s then - a else a)
  | _ => None
  end.

(** The integer a float denotes, when it denotes one. *)
Definition to_integer (f : spec_float) : option Z :=
  match f with
  | S754_zero _ => Some 0
  | S754_finite s m e =>
      if 0 <=? e then Some (if s then - (Z.pos m * 2 ^ e) else Z.pos m * 2 ^ e)
      else if Z.pos m mod 2 ^ (- e) =? 0
           then Some (if s then - (Z.pos m / 2 ^ (- e)) else Z.pos m / 2 ^ (- e))
           else None
  | _ => None
  end.

(** [==] of IEEE 754: NaN differs from everything, the two zeros are equal. *)
Definition eqb : spec_float -> spec_float -> bool := SFeqb.

End F64.

(** ** Python objects and exceptions *)

Inductive exn :=
| KeyError | IndexError | TypeError | ValueError | AttributeError
| OverflowError | ZeroDivisionError | OperationalError | InterfaceError
| NotModelled.

Inductive result (A : Type) :=
| Ok (a : A)
| Raise (e : exn).
Arguments Ok {A} a.
Arguments Raise {A} e.

#[global] Instance result_ret : MRet result := fun _ a => Ok a.
#[global] Instance result_bind : MBind result := fun _ _ f m =>
  match m with Ok a => f a | Raise e => Raise e end.
#[global] Instance result_fmap : FMap result := fun _ _ f m =>
  match m with Ok a => Ok (f a) | Raise e => Raise e end.

Definition is_ok {A} (r : result A) : bool :=
  match r with Ok _ => true | Raise _ => false end.

(** Monadic map over a list, left to right, stopping at the first exception. *)
Fixpoint mapR {A B} (f : A -> result B) (l : list A) : result (list B) :=
  match l with
  | [] => Ok []
  | x :: r => y ← f x; ys ← mapR f r; Ok (y :: ys)
  end.

(** A calendar date and time of day, as [pandas.Timestamp] shows it. *)
Record timestamp := mkTs {
  ts_year : Z; ts_month : Z; ts_day : Z; ts_nanos : Z
}.

(** Days from 1970-01-01 to a date of the proleptic Gregorian calendar. *)
Definition days_from_civil (y m d : Z) : Z :=
  let y' := if m <=? 2 then y - 1 else y in
  let era := y' / 400 in
  let yoe := y' - era * 400 in
  let doy := (153 * (if 2 <? m then m - 3 else m + 9) + 2) / 5 + d - 1 in
  let doe := yoe * 365 + yoe / 4 - yoe / 100 + doy in
  era * 146097 + doe - 719468.

(** [Timestamp.weekday()]: Monday is 0. *)
Definition weekday (t : timestamp) : Z :=
  (days_from_civil (ts_year t) (ts_month t) (ts_day t) + 3) mod 7.

Definition weeks_in_year (y : Z) : Z :=
  let p := fun y => (y + y / 4 - y / 100 + y / 400) mod 7 in
  if (p y =? 4) || (p (y - 1) =? 3) then 53 else 52.

(** [Timestamp.isocalendar().week] *)
Definition iso_week (t : timestamp) : Z :=
  let y := ts_year t in
  let doy := days_from_civil y (ts_month t) (ts_day t) - days_from_civil y 1 1 + 1 in
  let w := (doy - (weekday t + 1) + 10) / 7 in
  if w <? 1 then weeks_in_year (y - 1)
  else if weeks_in_year y <? w then 1
  else w.

(** The cells of a table: the Python objects that JSON input, the parsers
    and pandas put there.  [VNaT] and [VNA] are [pandas.NaT] and
    [pandas.NA]; a float NaN is [VFloat S754_nan]. *)
Inductive pyval :=
| VNone
| VBool (b : bool)
| VInt (z : Z)
| VFloat (f : spec_float)
| VStr (s : string)
| VList (l : list pyval)
| VTuple (l : list pyval)
| VDict (d : list (pyval * pyval))
| VTimestamp (t : timestamp)
| VNaT
| VNA.

Definition VNaN : pyval := VFloat S754_nan.

Definition is_list (v : pyval) : bool :=
  match v with VList _ => true | _ => false end.

Definition is_str (v : pyval) : bool :=
  match v with VStr _ => true | _ => false end.

(** [pandas.isna] on a scalar. *)
Definition isna (v : pyval) : bool :=
  match v with
  | VNone | VNaT | VNA => true
  | VFloat f => F64.is_nan f
  | _ => false
  end.

(** [hash(v)] succeeds: lists and dicts are unhashable, a tuple is hashable
    when its elements are. *)
Fixpoint hashable (v : pyval) : bool :=
  match v with
  | VList _ | VDict _ => false
  | VTuple l => forallb hashable l
  | _ => true
  end.

(** The number a numeric scalar denotes: an integer, or a float. *)
Inductive number := NInt (z : Z) | NFloat (f : spec_float).

Definition as_number (v : pyval) : option number :=
  match v with
  | VBool b => Some (NInt (if b then 1 else 0))
  | VInt z => Some (NInt z)
  | VFloat f => Some (NFloat f)
  | _ => None
  end.

Definition number_eqb (a b : number) : bool :=
  match a, b with
  | NInt x, NInt y => x =? y
  | NFloat f, NFloat g => F64.eqb f g
  | NInt x, NFloat f | NFloat f, NInt x =>
      match F64.to_integer f with Some y => x =? y | None => false end
  end.

Definition timestamp_eqb (a b : timestamp) : bool :=
  (ts_year a =? ts_year b) && (ts_month a =? ts_month b) &&
  (ts_day a =? ts_day b) && (ts_nanos a =? ts_nanos b).

(** [a == b] on scalars and tuples (the only objects the code compares or
    uses as keys). *)
Fixpoint py_eq (a b : pyval) : bool :=
  match a, b with
  | VNone, VNone => true
  | VStr s, VStr t => String.eqb s t
  | VTimestamp s, VTimestamp t => timestamp_eqb s t
  | VTuple l, VTuple m =>
      (fix go (l m : list pyval) : bool :=
         match l, m with
         | [], [] => true
         | x :: l', y :: m' => py_eq x y && go l' m'
         | _, _ => false
         end) l m
  | _, _ =>
      match as_number a, as_number b with
      | Some x, Some y => number_eqb x y
      | _, _ => false
      end
  end.

(** [len(v)]: the number of elements of a container, of code points of a
    string (held as UTF-8 bytes); a [TypeError] for the other objects. *)
Definition is_utf8_continuation (c : ascii) : bool :=
  let n := Z.of_N (N_of_ascii c) in (128 <=? n) && (n <? 192).

Fixpoint str_len (s : string) : nat :=
  match s with
  | EmptyString => 0%nat
  | String c r => if is_utf8_continuation c then str_len r else S (str_len r)
  end.

Definition py_len (v : pyval) : result nat :=
  match v with
  | VList l | VTuple l => Ok (length l)
  | VDict d => Ok (length d)
  | VStr s => Ok (str_len s)
  | _ => Raise TypeError
  end.

(** [str.lower] on the ASCII letters.  Python also lowers letters outside
    ASCII; none of them becomes a letter of the five lottery names. *)
Definition lower_ascii (c : ascii) : ascii :=
  let n := N_of_ascii c in
  if ((65 <=? n) && (n <=? 90))%N then ascii_of_N (n + 32) else c.

Fixpoint lower (s : string) : string :=
  match s with
  | EmptyString => EmptyString
  | String c r => String (lower_ascii c) (lower r)
  end.

(** ** The Python runtime taken as given *)

Class PyRuntime := {
  (** [ast.literal_eval(s)]; [None] when it raises. *)
  literal_eval : string -> option pyval;
  (** [int(s)] on a string; [None] when it raises [ValueError]. *)
  int_of_str : string -> option Z;
  (** the number a string denotes for [pandas.to_numeric]; [None] when it
      denotes none. *)
  parse_number : string -> option number;
  (** the instant [pandas.to_datetime(..., dayfirst=True, format="mixed")]
      reads in a value that is neither null nor a timestamp; [None] when
      the value cannot be parsed. *)
  parse_datetime : pyval -> option timestamp;
  (** [str(v)] of an object that is not a string, an integer, a boolean
      or [None]. *)
  str_of_object : pyval -> string;
  (** [repr] of a finite float. *)
  float_repr : spec_float -> string;
  (** the JSON string literal of a string, quotes included. *)
  json_string : string -> string;
  (** [s.strip().upper()] *)
  strip_upper : string -> string
}.

(** ** Tables *)

Record DataFrame := mkDF {
  index : list Z;
  cols : list (string * list pyval)
}.

Definition column_names (df : DataFrame) : list string := map fst (cols df).

Definition n_rows (df : DataFrame) : nat := length (index df).

(** [c in df.columns] *)
Definition has_col (c : string) (df : DataFrame) : bool :=
  existsb (String.eqb c) (column_names df).

Fixpoint assoc {A} (c : string) (l : list (string * A)) : option A :=
  match l with
  | [] => None
  | (k, v) :: r => if String.eqb c k then Some v else assoc c r
  end.

(** [df[c]] *)
Definition get_col (c : string) (df : DataFrame) : result (list pyval) :=
  match assoc c (cols df) with
  | Some vs => Ok vs
  | None => Raise KeyError
  end.

Fixpoint assoc_set {A} (c : string) (v : A) (l : list (string * A))
  : list (string * A) :=
  match l with
  | [] => [(c, v)]
  | (k, w) :: r => if String.eqb c k then (k, v) :: r else (k, w) :: assoc_set c v r
  end.

(** [df[c] = vs]: replaces the column, or appends it after the others. *)
Definition set_col (c : string) (vs : list pyval) (df : DataFrame) : DataFrame :=
  mkDF (index df) (assoc_set c vs (cols df)).

(** [if c in df.columns: df[c] = f(df[c])] *)
Definition update_col (f : list pyval -> list pyval) (c : string)
  (df : DataFrame) : DataFrame :=
  match assoc c (cols df) with
  | Some vs => set_col c (f vs) df
  | None => df
  end.

(** [df.drop(columns=names)] for names that are all present. *)
Definition drop_cols (names : list string) (df : DataFrame) : DataFrame :=
  mkDF (index df)
       (List.filter (fun kv => negb (existsb (String.eqb (fst kv)) names)) (cols df)).

(** The elements of [l] at the positions where [mask] is true. *)
Fixpoint filter_by {A} (mask : list bool) (l : list A) : list A :=
  match mask, l with
  | b :: m, x :: r => if b then x :: filter_by m r else filter_by m r
  | _, _ => []
  end.

(** [df[mask]] for a boolean mask: the rows kept keep their labels. *)
Definition select_rows (mask : list bool) (df : DataFrame) : DataFrame :=
  mkDF (filter_by mask (index df))
       (map (fun kv => (fst kv, filter_by mask (snd kv))) (cols df)).

Fixpoint range_from (start : Z) (n : nat) : list Z :=
  match n with
  | O => []
  | S k => start :: range_from (start + 1) k
  end.

(** [df.reset_index(drop=True)] *)
Definition reset_index (df : DataFrame) : DataFrame :=
  mkDF (range_from 0 (n_rows df)) (cols df).

(** [series.iloc[0]] *)
Definition iloc0 (vs : list pyval) : result pyval :=
  match vs with
  | v :: _ => Ok v
  | [] => Raise IndexError
  end.

(** The row at position [i], as the mapping from column name to cell that
    [df.apply(f, axis=1)] hands to [f]. *)
Definition row := list (string * pyval).

Definition row_at (df : DataFrame) (i : nat) : row :=
  map (fun kv => (fst kv, nth i (snd kv) VNone)) (cols df).

Definition rows_of (df : DataFrame) : list row :=
  map (row_at df) (seq 0 (n_rows df)).

(** [row[c]] *)
Definition row_get (c : string) (r : row) : result pyval :=
  match assoc c r with
  | Some v => Ok v
  | None => Raise KeyError
  end.

(** ** Pandas conversions used by the cleaning stage *)

Section Conversions.
Context `{PyRuntime}.

(** [str(v)] *)
Definition py_str (v : pyval) : string :=
  match v with
  | VStr s => s
  | VInt z => pretty z
  | VBool b => if b then "True" else "False"
  | VNone => "None"
  | _ => str_of_object v
  end.

(** [int(v)]; [None] when it raises. *)
Definition py_int (v : pyval) : option Z :=
  match v with
  | VInt z => Some z
  | VBool b => Some (if b then 1 else 0)
  | VFloat f => F64.trunc f
  | VStr s => int_of_str s
  | _ => None
  end.

Definition number_to_float (n : number) : spec_float :=
  match n with NInt z => F64.of_Z z | NFloat f => f end.

(** The number [pandas.to_numeric(..., errors="coerce")] reads in a cell;
    what is not a number is coerced to NaN. *)
Definition coerce_number (v : pyval) : number :=
  match v with
  | VStr s => match parse_number s with Some n => n | None => NFloat F64.nan end
  | _ => match as_number v with Some n => n | None => NFloat F64.nan end
  end.

Definition is_bool (v : pyval) : bool :=
  match v with VBool _ => true | _ => false end.

Definition is_NInt (n : number) : bool :=
  match n with NInt _ => true | NFloat _ => false end.

Definition is_int_or_NA (v : pyval) : bool :=
  match v with VInt _ | VNA => true | _ => false end.

(** [pandas.to_numeric(series, errors="coerce")]: a column of booleans or
    of nullable integers is returned as it is, a column that reads as
    integers is an integer column, and any other column is a float
    column. *)
Definition to_numeric_coerce (vs : list pyval) : list pyval :=
  if forallb is_bool vs || forallb is_int_or_NA vs then vs
  else
    let ns := map coerce_number vs in
    if forallb is_NInt ns
    then map (fun n => match n with NInt z => VInt z | NFloat f => VFloat f end) ns
    else map (fun n => VFloat (number_to_float n)) ns.

(** [series.astype("Int64")] on a numeric column: NaN becomes [pandas.NA],
    a float that is not an integer raises. *)
Definition astype_Int64_cell (v : pyval) : result pyval :=
  match v with
  | VInt z => Ok (VInt z)
  | VBool b => Ok (VInt (if b then 1 else 0))
  | VNA => Ok VNA
  | VFloat f =>
      if F64.is_nan f then Ok VNA
      else match F64.to_integer f with
           | Some z => Ok (VInt z)
           | None => Raise TypeError
           end
  | _ => Raise TypeError
  end.

Definition astype_Int64 (vs : list pyval) : result (list pyval) :=
  mapR astype_Int64_cell vs.

(** [series.astype("boolean")]: nulls become [pandas.NA], 0 and 1 become
    booleans, anything else raises. *)
Definition astype_boolean_cell (v : pyval) : result pyval :=
  if isna v then Ok VNA
  else match v with
       | VBool b => Ok (VBool b)
       | _ => match as_number v with
              | Some n =>
                  if number_eqb n (NInt 0) then Ok (VBool false)
                  else if number_eqb n (NInt 1) then Ok (VBool true)
                  else Raise TypeError
              | None => Raise TypeError
              end
       end.

Definition astype_boolean (vs : list pyval) : result (list pyval) :=
  mapR astype_boolean_cell vs.

(** [pandas.to_datetime(series, dayfirst=True, format="mixed")], with the
    default [errors="raise"]: nulls become [NaT], a value that cannot be
    parsed raises. *)
Definition to_datetime_cell (v : pyval) : result pyval :=
  if isna v then Ok VNaT
  else match v with
       | VTimestamp t => Ok (VTimestamp t)
       | _ => match parse_datetime v with
              | Some t => Ok (VTimestamp t)
              | None => Raise (if is_str v then ValueError else TypeError)
              end
       end.

Definition to_datetime (vs : list pyval) : result (list pyval) :=
  mapR to_datetime_cell vs.

(** Equality of keys in [duplicated] and [drop_duplicates]: [==], and each
    of NaN, [NaT] and [NA] equal to itself. *)
Definition key_eqb (a b : pyval) : bool :=
  py_eq a b ||
  match a, b with
  | VFloat f, VFloat g => F64.is_nan f && F64.is_nan g
  | VNaT, VNaT | VNA, VNA => true
  | _, _ => false
  end.

(** [~df.duplicated(subset=[c], keep="last")]: a row is kept when no later
    row has the same key. *)
Fixpoint keep_last_mask (keys : list pyval) : list bool :=
  match keys with
  | [] => []
  | k :: r => negb (existsb (key_eqb k) r) :: keep_last_mask r
  end.

(** [df.duplicated(subset=[c])] (keep="first"): a row is marked when an
    earlier row has the same key. *)
Fixpoint duplicated_from (seen keys : list pyval) : list bool :=
  match keys with
  | [] => []
  | k :: r => existsb (key_eqb k) seen :: duplicated_from (seen ++ [k]) r
  end.

Definition duplicated (keys : list pyval) : list bool := duplicated_from [] keys.

(** [series.sum()] of a boolean column. *)
Definition count_true (m : list bool) : nat := length (List.filter id m).

End Conversions.

(** ** Stage 1: cleaning ([data_cleaning.py]) *)

Section Cleaning.
Context `{PyRuntime}.

(** The columns that do not apply to a lottery. *)
Definition colunas_drop (loteria : string) : list string :=
  if String.eqb loteria "megasena" || String.eqb loteria "lotofacil"
  then ["timeCoracao"; "mesSorte"; "trevos"]
  else if String.eqb loteria "maismilionaria" then ["timeCoracao"; "mesSorte"]
  else if String.eqb loteria "timemania" then ["mesSorte"; "trevos"]
  else if String.eqb loteria "diadesorte" then ["timeCoracao"; "trevos"]
  else [].

(** [str(df["loteria"].iloc[0]).lower()] *)
Definition first_loteria (df : DataFrame) : result string :=
  col ← get_col "loteria" df;
  v ← iloc0 col;
  Ok (lower (py_str v)).

Definition drop_colunas_por_loteria (df : DataFrame) : result DataFrame :=
  loteria ← first_loteria df;
  let colunas_existentes :=
    List.filter (fun c => has_col c df) (colunas_drop loteria) in
  Ok (drop_cols colunas_existentes df).

Definition cols_monetarias : list string :=
  ["valorArrecadado"; "valorAcumuladoConcurso_0_5";
   "valorAcumuladoConcursoEspecial"; "valorAcumuladoProximoConcurso";
   "valorEstimadoProximoConcurso"].

(** [df.duplicated(subset=["concurso"])]: hashes the keys, so an unhashable
    key raises. *)
Definition concurso_keys (df : DataFrame) : result (list pyval) :=
  keys ← get_col "concurso" df;
  if forallb hashable keys then Ok keys else Raise TypeError.

(** The first two lines of [tratar_tipos_e_colunas]. *)
Definition remover_duplicatas (df : DataFrame) : result DataFrame :=
  keys ← concurso_keys df;
  if (0 <? count_true (duplicated keys))%nat
  then Ok (select_rows (keep_last_mask keys) df)
  else Ok df.

(** The statements of [tratar_tipos_e_colunas] after the removal of
    duplicates: each assigns a column of [df]. *)
Definition converter_tipos (df : DataFrame) : result DataFrame :=
  concurso ← get_col "concurso" df;
  concurso ← astype_Int64 (to_numeric_coerce concurso);
  let df := set_col "concurso" concurso df in
  data ← get_col "data" df;
  data ← to_datetime data;
  let df := set_col "data" data df in
  proximo ← get_col "proximoConcurso" df;
  proximo ← to_datetime proximo;
  let df := set_col "proximoConcurso" proximo df in
  let df := fold_left (fun df c => update_col to_numeric_coerce c df)
                      cols_monetarias df in
  match assoc "acumulou" (cols df) with
  | Some vs => vs ← astype_boolean vs; Ok (set_col "acumulou" vs df)
  | None => Ok df
  end.

Definition tratar_tipos_e_colunas (df : DataFrame) : result DataFrame :=
  df ← remover_duplicatas df;
  converter_tipos df.

Definition normalizar_lista (valor : pyval) : pyval :=
  match valor with
  | VList l => VList l
  | VStr s => match literal_eval s with Some v => v | None => VNone end
  | _ => VNone
  end.

Definition colunas_listas : list string :=
  ["dezenas"; "dezenasOrdemSorteio"; "premiacoes"; "localGanhadores"].

Definition aplicar_normalizacao_listas (df : DataFrame) : DataFrame :=
  fold_left (fun df col => update_col (map normalizar_lista) col df)
            colunas_listas df.

Definition intervalos (loteria : string) : option (Z * Z) :=
  if String.eqb loteria "megasena" then Some (1, 60)
  else if String.eqb loteria "lotofacil" then Some (1, 25)
  else if String.eqb loteria "timemania" then Some (1, 80)
  else if String.eqb loteria "diadesorte" then Some (1, 31)
  else if String.eqb loteria "maismilionaria" then Some (1, 50)
  else None.

(** [all(lo <= int(n) <= hi for n in lista)] inside [try]: an element that
    [int] rejects, like an element out of the range, gives [False]. *)
Fixpoint all_in_range (lo hi : Z) (lista : list pyval) : bool :=
  match lista with
  | [] => true
  | n :: r =>
      match py_int n with
      | Some k => if (lo <=? k) && (k <=? hi) then all_in_range lo hi r else false
      | None => false
      end
  end.

(** [loteria not in intervalos] hashes [loteria]; only a string can equal
    one of the keys. *)
Definition dezenas_validas (lista loteria : pyval) : result bool :=
  if negb (hashable loteria) then Raise TypeError
  else
    match match loteria with VStr s => intervalos s | _ => None end with
    | None => Ok true
    | Some (lo, hi) =>
        match lista with
        | VList l => Ok (all_in_range lo hi l)
        | _ => Ok false
        end
    end.

(** [len(df.loc[0, "dezenas"])]: the label 0, not the position; with
    several rows labelled 0 the lookup is a Series of them. *)
Definition expected_count_of (df : DataFrame) : result nat :=
  col ← get_col "dezenas" df;
  match filter_by (map (Z.eqb 0) (index df)) col with
  | [] => Raise KeyError
  | [v] => py_len v
  | vs => Ok (length vs)
  end.

Definition has_expected_count (expected_count : nat) (x : pyval) : bool :=
  match x with
  | VList l => Nat.eqb (length l) expected_count
  | _ => false
  end.

(** [lambda row: dezenas_validas(row["dezenas"], row["loteria"])] *)
Definition linha_valida (r : row) : result bool :=
  dezenas ← row_get "dezenas" r;
  loteria ← row_get "loteria" r;
  dezenas_validas dezenas loteria.

(** [df[df.apply(linha_valida, axis=1)]].  On a table without rows [DataFrame.apply] does not call the
    function row by row: it probes it once on a row of NaN, which
    [dezenas_validas] accepts, and returns an empty Series of floats;
    indexing with it selects the empty list of columns.  When the probe
    raises (no [loteria] column) it returns a copy of the table, and
    indexing with that leaves the table as it is. *)
Definition filtrar_intervalo (df : DataFrame) : result DataFrame :=
  match index df with
  | [] => if has_col "loteria" df then Ok (mkDF [] []) else Ok df
  | _ => mask ← mapR linha_valida (rows_of df); Ok (select_rows mask df)
  end.

Definition validar_dezenas (df : DataFrame) : result DataFrame :=
  expected_count ← expected_count_of df;
  dezenas ← get_col "dezenas" df;
  let df := select_rows (map (has_expected_count expected_count) dezenas) df in
  df ← filtrar_intervalo df;
  Ok (reset_index df).

Definition data_cleaning_etapa1 (df : DataFrame) : result DataFrame :=
  df ← drop_colunas_por_loteria df;
  df ← tratar_tipos_e_colunas df;
  let df := aplicar_normalizacao_listas df in
  df ← validar_dezenas df;
  Ok df.

End Cleaning.

(** ** Stage 2: feature engineering ([feature_engineering.py]) *)

Section Features.
Context `{PyRuntime}.

(** The column [Series.apply] and the [DataFrame] constructor build from
    Python objects: integers stay integers; integers, floats and [None]
    together become floats, [None] becoming NaN; any other mix is kept as
    objects. *)
Definition infer_objects (vs : list pyval) : list pyval :=
  let is_int v := match v with VInt _ => true | _ => false end in
  let is_num v := match v with VInt _ | VFloat _ => true | _ => false end in
  let is_num_or_none v :=
    match v with VInt _ | VFloat _ | VNone => true | _ => false end in
  if forallb is_int vs then vs
  else if forallb is_num_or_none vs && existsb is_num vs
  then map (fun v => match v with
                     | VInt z => VFloat (F64.of_Z z)
                     | VNone => VNaN
                     | _ => v
                     end) vs
  else vs.

(** [series.dt]: only on a column of timestamps and [NaT]. *)
Definition dt_values (vs : list pyval) : result (list (option timestamp)) :=
  mapR (fun v => match v with
                 | VTimestamp t => Ok (Some t)
                 | VNaT => Ok None
                 | _ => Raise AttributeError
                 end) vs.

(** A field of [series.dt]: integers, or floats with NaN when a [NaT] is
    there. *)
Definition dt_field (f : timestamp -> Z) (ts : list (option timestamp))
  : list pyval :=
  if forallb (fun t => match t with Some _ => true | None => false end) ts
  then map (fun t => match t with Some t => VInt (f t) | None => VNaN end) ts
  else map (fun t => match t with
                     | Some t => VFloat (F64.of_Z (f t))
                     | None => VNaN
                     end) ts.

(** [series.dt.isocalendar().week]: nullable integers. *)
Definition dt_iso_week (ts : list (option timestamp)) : list pyval :=
  map (fun t => match t with Some t => VInt (iso_week t) | None => VNA end) ts.

Definition criar_features_datas (df : DataFrame) : result DataFrame :=
  data ← get_col "data" df;
  data ← dt_values data;
  let df := set_col "data_dia" (dt_field ts_day data) df in
  let df := set_col "data_mes" (dt_field ts_month data) df in
  let df := set_col "data_ano" (dt_field ts_year data) df in
  let df := set_col "semana_ano_concurso" (dt_iso_week data) df in
  let df := set_col "dia_semana_concurso" (dt_field weekday data) df in
  proximo ← get_col "proximoConcurso" df;
  proximo ← dt_values proximo;
  let df := set_col "proximoConcurso_dia" (dt_field ts_day proximo) df in
  let df := set_col "proximoConcurso_mes" (dt_field ts_month proximo) df in
  let df := set_col "proximoConcurso_ano" (dt_field ts_year proximo) df in
  Ok df.

(** [x[i] if isinstance(x, list) and len(x) > i else None] *)
Definition item_or_none (i : nat) (x : pyval) : pyval :=
  match x with
  | VList l => nth i l VNone
  | _ => VNone
  end.

(** [max()] of the empty column is NaN, which [range] rejects. *)
Definition expandir_dezenas (df : DataFrame) : result DataFrame :=
  dezenas ← get_col "dezenas" df;
  let qtd := map (fun x => match x with VList l => length l | _ => 0%nat end)
                 dezenas in
  let df := set_col "qtd_dezenas" (map (fun n => VInt (Z.of_nat n)) qtd) df in
  match qtd with
  | [] => Raise TypeError
  | _ =>
      let max_dezenas := list_max qtd in
      let df :=
        fold_left
          (fun df i =>
             set_col ("dezena_" +:+ pretty (S i))
                     (infer_objects (map (item_or_none i) dezenas)) df)
          (seq 0 max_dezenas) df in
      Ok (drop_cols ["qtd_dezenas"] df)
  end.

Definition drop_prefix (n : nat) (s : string) : string :=
  String.substring n (String.length s - n) s.

(** [s.split(sep, 1)] when [sep] occurs in [s]. *)
Fixpoint split_first (sep s : string) : option (string * string) :=
  if String.prefix sep s then Some (EmptyString, drop_prefix (String.length sep) s)
  else match s with
       | EmptyString => None
       | String c r =>
           match split_first sep r with
           | Some (a, b) => Some (String c a, b)
           | None => None
           end
       end.

(** [s.rsplit(sep, 1)] when [sep] occurs in [s]. *)
Fixpoint split_last (sep s : string) : option (string * string) :=
  match s with
  | EmptyString => None
  | String c r =>
      match split_last sep r with
      | Some (a, b) => Some (String c a, b)
      | None =>
          if String.prefix sep s
          then Some (EmptyString, drop_prefix (String.length sep) s)
          else None
      end
  end.

(** [series.str]: only on a column of objects. *)
Definition is_object_column (vs : list pyval) : bool :=
  match vs with
  | [] => true
  | _ => existsb (fun v => match v with
                           | VInt _ | VFloat _ | VBool _ | VTimestamp _
                           | VNaT | VNA => false
                           | _ => true
                           end) vs
  end.

(** [series.str.split(sep, n=1, expand=True)] assigned to two columns: the
    expansion has two columns only when some cell splits; a string without
    the separator gets [None] in the second column, a cell that is not a
    string gets NaN in both. *)
Definition split_expand (split : string -> option (string * string))
  (vs : list pyval) : result (list pyval * list pyval) :=
  if negb (is_object_column vs) then Raise AttributeError
  else
    let parts v :=
      match v with
      | VStr s => match split s with
                  | Some (a, b) => (VStr a, VStr b)
                  | None => (VStr s, VNone)
                  end
      | _ => (VNaN, VNaN)
      end in
    let splits v :=
      match v with
      | VStr s => match split s with Some _ => true | None => false end
      | _ => false
      end in
    if existsb splits vs then Ok (map (fun v => fst (parts v)) vs,
                                  map (fun v => snd (parts v)) vs)
    else Raise ValueError.

Definition separar_local (df : DataFrame) : result DataFrame :=
  if negb (has_col "local" df) then Ok df
  else
    local ← get_col "local" df;
    '(nome_local, resto) ← split_expand (split_first " em ") local;
    let df := set_col "resto" resto (set_col "nome_local" nome_local df) in
    resto ← get_col "resto" df;
    '(cidade, estado) ← split_expand (split_last ", ") resto;
    let df := set_col "estado" estado (set_col "cidade" cidade df) in
    Ok (drop_cols ["resto"] df).

(** A Python [dict] with string keys, in insertion order. *)
Definition dict_set (k : string) (v : pyval) (d : list (string * pyval))
  : list (string * pyval) := assoc_set k v d.

(** [item.get(key)] on a [dict]; the other objects have no [get]. *)
Definition dict_get (key : string) (item : pyval) : result pyval :=
  match item with
  | VDict d =>
      Ok (match find (fun kv => py_eq (fst kv) (VStr key)) d with
          | Some kv => snd kv
          | None => VNone
          end)
  | _ => Raise AttributeError
  end.

Definition expandir_premiacoes_loteria (prem_list : pyval)
  : result (list (string * pyval)) :=
  match prem_list with
  | VList l =>
      foldl
        (fun acc item =>
           resultado ← acc;
           faixa ← dict_get "faixa" item;
           match faixa with
           | VNone => Ok resultado
           | _ =>
               ganhadores ← dict_get "ganhadores" item;
               valor ← dict_get "valorPremio" item;
               Ok (dict_set ("valor_faixa_" +:+ py_str faixa) valor
                     (dict_set ("ganhadores_faixa_" +:+ py_str faixa)
                               ganhadores resultado))
           end)
        (Ok []) l
  | _ => Ok []
  end.

(** The first statement of [aplicar_expansao_premiacoes]:
    [ast.literal_eval] is not guarded here (its [SyntaxError] is not told
    from its [ValueError]). *)
Definition reparse_premiacoes (df : DataFrame) : result DataFrame :=
  premiacoes ← get_col "premiacoes" df;
  premiacoes ← mapR (fun x => match x with
                              | VStr s => match literal_eval s with
                                          | Some v => Ok v
                                          | None => Raise ValueError
                                          end
                              | VList l => Ok (VList l)
                              | _ => Ok VNone
                              end) premiacoes;
  Ok (set_col "premiacoes" (infer_objects premiacoes) df).

(** The keys of a list of dicts, each once, in the order they first appear. *)
Definition union_keys (ds : list (list (string * pyval))) : list string :=
  fold_left
    (fun acc d =>
       fold_left (fun acc k => if existsb (String.eqb k) acc then acc
                               else (acc ++ [k])%list) (map fst d) acc)
    ds [].

(** [pd.DataFrame(list_of_dicts)]: one column per key, NaN where a dict
    lacks the key. *)
Definition frame_of_dicts (ds : list (list (string * pyval))) : DataFrame :=
  mkDF (range_from 0 (length ds))
       (map (fun k => (k, infer_objects
                            (map (fun d => match assoc k d with
                                           | Some v => v
                                           | None => VNaN
                                           end) ds)))
            (union_keys ds)).

(** [pd.concat([df, other], axis=1)] of two tables over the same index.
    On different indexes pandas joins them; that case is outside the
    model. *)
Definition concat_columns (df other : DataFrame) : result DataFrame :=
  if forallb id (zip_with Z.eqb (index df) (index other))
     && Nat.eqb (length (index df)) (length (index other))
  then Ok (mkDF (index df) (cols df ++ cols other)%list)
  else Raise NotModelled.

(** [int / int] of Python: the correctly rounded quotient. *)
Definition int_true_div (x y : Z) : spec_float :=
  match x, y with
  | Z0, _ => S754_zero false
  | _, Z0 => S754_nan
  | _, _ =>
      F64.div (S754_finite (x <? 0) (Z.to_pos (Z.abs x)) 0)
              (S754_finite (y <? 0) (Z.to_pos (Z.abs y)) 0)
  end.

Definition number_is_zero (n : number) : bool :=
  match n with NInt z => z =? 0 | NFloat f => F64.is_zero f end.

(** [a / b] of Python on two numbers: a zero divisor raises, an integer too
    large for a float raises. *)
Definition py_truediv (a b : number) : result spec_float :=
  if number_is_zero b then Raise ZeroDivisionError
  else
    let finite_or_overflow f :=
      if F64.is_inf f then Raise OverflowError else Ok f in
    match a, b with
    | NInt x, NInt y => finite_or_overflow (int_true_div x y)
    | NInt x, NFloat g => f ← finite_or_overflow (F64.of_Z x); Ok (F64.div f g)
    | NFloat f, NInt y => g ← finite_or_overflow (F64.of_Z y); Ok (F64.div f g)
    | NFloat f, NFloat g => Ok (F64.div f g)
    end.

(** [a / b] of NumPy on two numeric columns, cell by cell: integers are
    converted to floats, and nothing raises: a zero divisor gives an
    infinity, or NaN when the dividend is zero or NaN too. *)
Definition np_truediv (a b : number) : spec_float :=
  F64.div (number_to_float a) (number_to_float b).

(** The dtype of a row-wise sum over some columns. *)
Inductive sum_dtype := SumInt | SumFloat | SumObject.

Definition column_is_int (vs : list pyval) : bool :=
  forallb (fun v => match v with VInt _ => true | _ => false end) vs.

Definition column_is_numeric (vs : list pyval) : bool :=
  forallb (fun v => match v with VInt _ | VFloat _ => true | _ => false end) vs.

Definition sum_dtype_of (columns : list (list pyval)) : sum_dtype :=
  match columns with
  | [] => SumFloat
  | _ => if forallb column_is_int columns then SumInt
         else if forallb column_is_numeric columns then SumFloat
         else SumObject
  end.

Definition number_add (a b : number) : number :=
  match a, b with
  | NInt x, NInt y => NInt (x + y)
  | _, _ => NFloat (F64.add (number_to_float a) (number_to_float b))
  end.

(** The sum of one row with [skipna=True]: nulls count as zero; an object
    that is not a number cannot be added. *)
Definition sum_row (dt : sum_dtype) (cells : list pyval) : result number :=
  let start := match dt with SumFloat => NFloat F64.zero | _ => NInt 0 end in
  foldl (fun acc v =>
           acc ← acc;
           if isna v then Ok acc
           else match as_number v with
                | Some n => Ok (number_add acc n)
                | None => Raise TypeError
                end)
        (Ok start) cells.

(** [df[names].sum(axis=1)] *)
Definition sum_axis1 (names : list string) (df : DataFrame)
  : result (sum_dtype * list number) :=
  columns ← mapR (fun c => get_col c df) names;
  let dt := sum_dtype_of columns in
  sums ← mapR (fun i => sum_row dt (map (fun vs => nth i vs VNone) columns))
              (seq 0 (n_rows df));
  Ok (dt, sums).

Definition number_to_pyval (n : number) : pyval :=
  match n with NInt z => VInt z | NFloat f => VFloat f end.

(** [total_pago_premios / total_ganhadores] on two columns: the division
    of NumPy when both are numeric, that of Python cell by cell when one of
    them holds objects. *)
Definition series_truediv (a b : sum_dtype * list number)
  : result (list pyval) :=
  match fst a, fst b with
  | SumObject, _ | _, SumObject =>
      mapR (fun xy => f ← py_truediv (fst xy) (snd xy); Ok (VFloat f))
           (combine (snd a) (snd b))
  | _, _ => Ok (map VFloat (zip_with np_truediv (snd a) (snd b)))
  end.

(** [aplicar_expansao_premiacoes] after its first statement: the expansion
    is appended to a new table, which then receives the totals. *)
Definition expandir_e_totalizar (df : DataFrame)
  : result (DataFrame * (sum_dtype * list number) * (sum_dtype * list number)) :=
  premiacoes ← get_col "premiacoes" df;
  premios_expandido ← mapR expandir_premiacoes_loteria premiacoes;
  let premios_df := frame_of_dicts premios_expandido in
  df ← concat_columns df premios_df;
  let cols_ganhadores :=
    List.filter (String.prefix "ganhadores_faixa_") (column_names df) in
  let cols_valores :=
    List.filter (String.prefix "valor_faixa_") (column_names df) in
  total_ganhadores ← sum_axis1 cols_ganhadores df;
  let df := set_col "total_ganhadores"
                    (map number_to_pyval (snd total_ganhadores)) df in
  total_pago ← sum_axis1 cols_valores df;
  let df := set_col "total_pago_premios"
                    (map number_to_pyval (snd total_pago)) df in
  Ok (df, total_pago, total_ganhadores).

Definition media_premio_real (df : DataFrame)
  (total_pago total_ganhadores : sum_dtype * list number) : result DataFrame :=
  media ← series_truediv total_pago total_ganhadores;
  Ok (set_col "media_premio_real" media df).

Definition aplicar_expansao_premiacoes (df : DataFrame) : result DataFrame :=
  df ← reparse_premiacoes df;
  '(df, total_pago, total_ganhadores) ← expandir_e_totalizar df;
  media_premio_real df total_pago total_ganhadores.

(** [registro.get(key, default).strip().upper()] with the empty string as
    default. *)
Definition get_strip_upper (key : string) (registro : pyval) : result string :=
  match registro with
  | VDict d =>
      match find (fun kv => py_eq (fst kv) (VStr key)) d with
      | Some kv => match snd kv with
                   | VStr s => Ok (strip_upper s)
                   | _ => Raise AttributeError
                   end
      | None => Ok (strip_upper EmptyString)
      end
  | _ => Raise AttributeError
  end.

Definition is_ticket_online (x : list pyval) : result pyval :=
  match x with
  | [] => Ok (VBool false)
  | registro :: _ =>
      municipio ← get_strip_upper "municipio" registro;
      uf ← get_strip_upper "uf" registro;
      Ok (VBool (String.eqb municipio "CANAL ELETRONICO" || String.eqb uf "BR"))
  end.

Definition first_get (key : string) (x : list pyval) : result pyval :=
  match x with
  | [] => Ok VNone
  | registro :: _ => dict_get key registro
  end.

Definition as_list (v : pyval) : list pyval :=
  match v with VList l => l | _ => [] end.

Definition processar_local_ganhadores (df : DataFrame) : result DataFrame :=
  locais ← get_col "localGanhadores" df;
  let locais := map as_list locais in
  let df := set_col "localGanhadores" (map VList locais) df in
  municipio ← mapR (first_get "municipio") locais;
  let df := set_col "municipioGanhador" (infer_objects municipio) df in
  uf ← mapR (first_get "uf") locais;
  let df := set_col "ufGanhador" (infer_objects uf) df in
  online ← mapR is_ticket_online locais;
  Ok (set_col "ticketGanhadorOnline" online df).

Definition normalizar_dezenas (lista : pyval) : pyval :=
  match lista with
  | VList l =>
      match foldr (fun item acc =>
                     match py_int item, acc with
                     | Some n, Some nova => Some (VInt n :: nova)
                     | _, _ => None
                     end) (Some []) l with
      | Some nova => VList nova
      | None => VNone
      end
  | _ => VNone
  end.

(** [pd.isna(v)] used as a condition: on a list it is an array, whose truth
    value is defined only for a single element. *)
Definition isna_truth (v : pyval) : result bool :=
  match v with
  | VList [x] => Ok (isna x)
  | VList _ => Raise ValueError
  | _ => Ok (isna v)
  end.

(** [v in [None, 0]]: [v is None], or [v == 0]; the comparison of
    [pandas.NA] has no truth value. *)
Definition in_none_zero (v : pyval) : result bool :=
  match v with
  | VNone => Ok true
  | VNA => Raise TypeError
  | _ => Ok (py_eq v (VInt 0))
  end.

Definition calcular_razao (r : row) : result pyval :=
  acumulado ← row_get "valorAcumuladoProximoConcurso" r;
  estimado ← row_get "valorEstimadoProximoConcurso" r;
  is_zero ← in_none_zero acumulado;
  sem_acumulado ← (if is_zero : bool then Ok true else isna_truth acumulado);
  if sem_acumulado : bool then Ok VNone
  else
    sem_estimado ← match estimado with
                    | VNone => Ok true
                    | _ => isna_truth estimado
                    end;
    if sem_estimado : bool then Ok VNone
    else match as_number estimado, as_number acumulado with
         | Some e, Some a => f ← py_truediv e a; Ok (VFloat f)
         | _, _ => Raise TypeError
         end.

(** [series.replace(0, None)] *)
Definition replace_zero_none (v : pyval) : pyval :=
  match v with
  | VInt 0 => VNone
  | VFloat (S754_zero _) => VNone
  | _ => v
  end.

Definition count_parity (even : bool) (x : pyval) : result pyval :=
  match x with
  | VList l =>
      n ← foldl (fun acc v =>
                   acc ← acc;
                   match v with
                   | VInt z => Ok (if Bool.eqb (z mod 2 =? 0) even
                                   then (acc + 1) else acc)
                   | _ => Raise TypeError
                   end) (Ok 0) l;
      Ok (VInt n)
  | _ => Ok VNone
  end.

Definition range_dezenas (x : pyval) : result pyval :=
  match x with
  | VList ((_ :: _ :: _) as l) =>
      zs ← mapR (fun v => match v with
                          | VInt z => Ok z
                          | _ => Raise TypeError
                          end) l;
      Ok (VInt (fold_right Z.max (hd 0 zs) zs - fold_right Z.min (hd 0 zs) zs))
  | _ => Ok VNone
  end.

(** [df.apply(calcular_razao, axis=1)]: row by row on a table with rows;
    on a table without rows the function is probed once on a row of NaN. *)
Definition apply_calcular_razao (df : DataFrame) : result (list pyval) :=
  match index df with
  | [] =>
      if has_col "valorAcumuladoProximoConcurso" df
         && has_col "valorEstimadoProximoConcurso" df
      then Ok [] else Raise ValueError
  | _ => razao ← mapR calcular_razao (rows_of df); Ok (infer_objects razao)
  end.

Definition criar_features_numericas (df : DataFrame) : result DataFrame :=
  arrecadado ← get_col "valorArrecadado" df;
  let df := set_col "valorArrecadado" (map replace_zero_none arrecadado) df in
  razao ← apply_calcular_razao df;
  let df := set_col "razaoEstimadoAcumulado" razao df in
  dezenas ← get_col "dezenas" df;
  let dezenas := map normalizar_dezenas dezenas in
  let df := set_col "dezenas" dezenas df in
  pares ← mapR (count_parity true) dezenas;
  let df := set_col "qtd_pares" (infer_objects pares) df in
  impares ← mapR (count_parity false) dezenas;
  let df := set_col "qtd_impares" (infer_objects impares) df in
  amplitude ← mapR range_dezenas dezenas;
  Ok (set_col "range_dezenas" (infer_objects amplitude) df).

Definition feature_engineering_etapa2 (df : DataFrame) : result DataFrame :=
  df ← criar_features_datas df;
  df ← expandir_dezenas df;
  df ← separar_local df;
  df ← aplicar_expansao_premiacoes df;
  df ← processar_local_ganhadores df;
  df ← criar_features_numericas df;
  Ok df.

End Features.

(** ** Stage 3: persistence ([transform_to_sqlite.py]) *)

Section Persistence.
Context `{PyRuntime}.

(** [json.dumps] of a float: the three values JSON has no literal for are
    written [NaN], [Infinity] and [-Infinity]. *)
Definition json_float (f : spec_float) : string :=
  match f with
  | S754_nan => "NaN"
  | S754_infinity false => "Infinity"
  | S754_infinity true => "-Infinity"
  | _ => float_repr f
  end.

Definition quoted (s : string) : string :=
  let q := String (ascii_of_nat 34) EmptyString in q +:+ s +:+ q.

(** The key of a JSON object: a string, or a scalar written as one. *)
Definition json_key (k : pyval) : result string :=
  match k with
  | VStr s => Ok (json_string s)
  | VInt z => Ok (quoted (pretty z))
  | VFloat f => Ok (quoted (json_float f))
  | VBool b => Ok (quoted (if b then "true" else "false"))
  | VNone => Ok (quoted "null")
  | _ => Raise TypeError
  end.

Definition join (sep : string) (parts : list string) : string :=
  match parts with
  | [] => EmptyString
  | p :: r => fold_left (fun acc q => acc +:+ sep +:+ q) r p
  end.

(** [json.dumps(v)]: a timestamp, [NaT] or [NA] is not serializable. *)
Fixpoint json_dumps (v : pyval) : result string :=
  match v with
  | VNone => Ok "null"
  | VBool b => Ok (if b then "true" else "false")
  | VInt z => Ok (pretty z)
  | VFloat f => Ok (json_float f)
  | VStr s => Ok (json_string s)
  | VList l | VTuple l =>
      parts ← (fix go (l : list pyval) : result (list string) :=
                 match l with
                 | [] => Ok []
                 | x :: r => s ← json_dumps x; ss ← go r; Ok (s :: ss)
                 end) l;
      Ok ("[" +:+ join ", " parts +:+ "]")
  | VDict d =>
      parts ← (fix go (d : list (pyval * pyval)) : result (list string) :=
                 match d with
                 | [] => Ok []
                 | (k, x) :: r =>
                     ks ← json_key k; s ← json_dumps x; ss ← go r;
                     Ok ((ks +:+ ": " +:+ s) :: ss)
                 end) d;
      Ok ("{" +:+ join ", " parts +:+ "}")
  | VTimestamp _ | VNaT | VNA => Raise TypeError
  end.

(** [df[col].apply(json.dumps)] *)
Definition dumps_column (vs : list pyval) : result (list pyval) :=
  mapR (fun v => s ← json_dumps v; Ok (VStr s)) vs.

(** One turn of the loop of [listas_para_json]. *)
Definition listas_para_json_col (df : DataFrame) (col : string)
  : result DataFrame :=
  vs ← get_col col df;
  if existsb is_list vs
  then vs ← dumps_column vs; Ok (set_col col vs df)
  else Ok df.

(** The copy made first is the table itself here; the loop runs over the
    columns the table has when it starts. *)
Definition listas_para_json (df : DataFrame) : result DataFrame :=
  foldl (fun acc col => df ← acc; listas_para_json_col df col)
        (Ok df) (column_names df).

(** The store: the relations of each database file, the files that cannot
    be opened, and the connections that are open. *)
Record world := mkWorld {
  databases : gmap string (gmap string DataFrame);
  unopenable : list string;
  open_connections : nat
}.

Definition relation (caminho_db nome : string) (w : world) : option DataFrame :=
  databases w !! caminho_db ≫= (.!! nome).

(** [sqlite3.connect(caminho_db)] *)
Definition connect (caminho_db : string) (w : world) : result unit * world :=
  if existsb (String.eqb caminho_db) (unopenable w)
  then (Raise OperationalError, w)
  else (Ok (),
        mkWorld (databases w) (unopenable w) (S (open_connections w))).

(** [conn.close()] *)
Definition close (w : world) : world :=
  mkWorld (databases w) (unopenable w) (pred (open_connections w)).

(** SQLite binds numbers, strings and nulls (pandas writes a timestamp as
    text); it has no binding for a list, a tuple or a dict. *)
Definition storable (v : pyval) : bool :=
  match v with
  | VList _ | VTuple _ | VDict _ => false
  | _ => true
  end.

Definition write_relation (caminho_db nome : string) (df : DataFrame)
  (w : world) : world :=
  let db := default ∅ (databases w !! caminho_db) in
  mkWorld (<[caminho_db := <[nome := df]> db]> (databases w))
          (unopenable w) (open_connections w).

(** [df.to_sql(name=nome, con=conn, if_exists="replace", index=False)]: the
    relation of that name is dropped and created again, then the rows are
    inserted; when a cell cannot be bound the insertion is rolled back and
    the new relation stays empty. *)
Definition to_sql (df : DataFrame) (nome caminho_db : string) (w : world)
  : result unit * world :=
  if forallb (fun kv => forallb storable (snd kv)) (cols df)
  then (Ok (), write_relation caminho_db nome (reset_index df) w)
  else (Raise InterfaceError,
        write_relation caminho_db nome
          (mkDF [] (map (fun kv => (fst kv, [])) (cols df))) w).

(** [try: body finally: fin] *)
Definition try_finally {A} (body : world -> result A * world)
  (fin : world -> world) (w : world) : result A * world :=
  let (r, w') := body w in (r, fin w').

Definition salvar_sqlite (df : DataFrame) (caminho_db : string) (w : world)
  : result unit * world :=
  match first_loteria df with
  | Raise e => (Raise e, w)
  | Ok nome_loteria =>
      match connect caminho_db w with
      | (Raise e, w) => (Raise e, w)
      | (Ok _, w) =>
          try_finally (to_sql df nome_loteria caminho_db) close w
      end
  end.

Definition salvar_no_sqlite_etapa3 (df : DataFrame)
  (caminho_db : option string) (w : world) : result unit * world :=
  let caminho_db := default "loterias.db" caminho_db in
  match listas_para_json df with
  | Raise e => (Raise e, w)
  | Ok df_json => salvar_sqlite df_json caminho_db w
  end.

End Persistence.

(** ** Table objects and the references callers hold

    The functions above give the table each source function returns.  The
    functions below say which object holds it: the object the caller passed
    ([df[c] = ...], [inplace=True]), or a new one ([df.copy()], [df.drop],
    [df[mask]], [reset_index], [pd.concat]).  A reference is a position in
    the heap.  The heap of a call that raises is not given. *)

Abbreviation heap := (list DataFrame).
Abbreviation ref := nat.

Section Objects.
Context `{PyRuntime}.


(** A new object holding [df]. *)
Definition alloc (df : DataFrame) (h : heap) : ref * heap :=
  (length h, (h ++ [df])%list).

Definition deref (l : ref) (h : heap) : result DataFrame :=
  match h !! l with
  | Some df => Ok df
  | None => Raise NotModelled
  end.

(** [f] changes the object at [l] and returns it. *)
Definition in_place (f : DataFrame -> result DataFrame) (l : ref) (h : heap)
  : result (ref * heap) :=
  df ← deref l h;
  df ← f df;
  Ok (l, <[l := df]> h).

(** [f] reads the object at [l] and returns a new object. *)
Definition fresh (f : DataFrame -> result DataFrame) (l : ref) (h : heap)
  : result (ref * heap) :=
  df ← deref l h;
  df ← f df;
  Ok (alloc df h).

(** [drop_duplicates] returns a new object; without duplicates [df] stays
    the object passed in. *)
Definition tratar_tipos_e_colunas_obj (l : ref) (h : heap)
  : result (ref * heap) :=
  df ← deref l h;
  keys ← concurso_keys df;
  let '(l, h) :=
    if (0 <? count_true (duplicated keys))%nat
    then alloc (select_rows (keep_last_mask keys) df) h
    else (l, h) in
  in_place converter_tipos l h.

Definition data_cleaning_etapa1_obj (l : ref) (h : heap)
  : result (ref * heap) :=
  '(l, h) ← fresh Ok l h;
  '(l, h) ← fresh drop_colunas_por_loteria l h;
  '(l, h) ← tratar_tipos_e_colunas_obj l h;
  '(l, h) ← in_place (fun df => Ok (aplicar_normalizacao_listas df)) l h;
  '(l, h) ← fresh validar_dezenas l h;
  Ok (l, h).

(** [df["premiacoes"] = ...] assigns a column of the object passed in;
    [df = pd.concat(...)] then binds [df] to a new object. *)
Definition aplicar_expansao_premiacoes_obj (l : ref) (h : heap)
  : result (ref * heap) :=
  '(l, h) ← in_place reparse_premiacoes l h;
  fresh (fun df => '(df, total_pago, total_ganhadores) ← expandir_e_totalizar df;
                   media_premio_real df total_pago total_ganhadores) l h.

Definition feature_engineering_etapa2_obj (l : ref) (h : heap)
  : result (ref * heap) :=
  '(l, h) ← in_place criar_features_datas l h;
  '(l, h) ← in_place expandir_dezenas l h;
  '(l, h) ← in_place separar_local l h;
  '(l, h) ← aplicar_expansao_premiacoes_obj l h;
  '(l, h) ← in_place processar_local_ganhadores l h;
  '(l, h) ← in_place criar_features_numericas l h;
  Ok (l, h).

Definition listas_para_json_obj (l : ref) (h : heap) : result (ref * heap) :=
  '(l, h) ← fresh Ok l h;
  in_place listas_para_json l h.

End Objects.

(** ** Splitting the dataset by lottery ([utils.py]) *)

(** The string methods of Python that are taken as given. *)
Class StrMethods := {
  (** [s.lower()] *)
  str_lower : string -> string;
  (** [s.strip()] *)
  str_strip : string -> string;
  (** [repr(s)] *)
  str_repr : string -> string
}.

(** The exceptions of the file operations, beside those of the stages. *)
Inductive io_exn :=
| PyExn (e : exn)
| FileNotFoundError
| OSError.

Inductive outcome (A : Type) :=
| Done (a : A)
| Failed (e : io_exn).
Arguments Done {A} a.
Arguments Failed {A} e.

(** The files: what [pandas.read_json] does for each path, the CSV files
    written, by path, and the paths that cannot be written.  A CSV file is
    held as the columns written to it; [index=False] leaves the index
    out. *)
Record disk := mkDisk {
  read_json : string -> outcome DataFrame;
  csv_files : gmap string (list (string * list pyval));
  unwritable : list string
}.

(** [df.to_csv(caminho, index=False)] *)
Definition to_csv (df : DataFrame) (caminho : string) (d : disk)
  : outcome unit * disk :=
  if existsb (String.eqb caminho) (unwritable d) then (Failed OSError, d)
  else (Done (),
        mkDisk (read_json d) (<[caminho := cols df]> (csv_files d))
               (unwritable d)).

(** The first argument of [separar_concursos]: a path or a table. *)
Inductive fonte :=
| Caminho (caminho : string)
| Tabela (df : DataFrame).

(** [s.replace(c, "", regex=False)] for a one-character [c]. *)
Fixpoint remove_char (c : ascii) (s : string) : string :=
  match s with
  | EmptyString => EmptyString
  | String a r =>
      if Ascii.eqb a c then remove_char c r else String a (remove_char c r)
  end.

(** [series.unique()]: each value once, in the order of first appearance. *)
Fixpoint unique (l : list string) : list string :=
  match l with
  | [] => []
  | x :: r => x :: List.filter (fun y => negb (String.eqb y x)) (unique r)
  end.

(** [df.dropna(how="all")]: the rows that have a cell that is not null. *)
Definition dropna_all (df : DataFrame) : DataFrame :=
  select_rows
    (map (fun r : row => existsb (fun kv => negb (isna (snd kv))) r) (rows_of df))
    df.

Section Separar.
Context `{PyRuntime} `{StrMethods}.

(** [.astype(str).str.lower().str.replace("-", "", regex=False)
     .str.replace("_", "", regex=False).str.strip()] on one cell;
    [astype(str)] writes a null as text. *)
Definition padronizar_loteria (v : pyval) : string :=
  str_strip (remove_char "_" (remove_char "-" (str_lower (py_str v)))).

(** [df[df["loteria"] == concurso].reset_index(drop=True)] *)
Definition tabela_do_concurso (df : DataFrame) (loteria : list string)
  (concurso : string) : DataFrame :=
  reset_index (select_rows (map (fun s => String.eqb s concurso) loteria) df).

(** The loop of [separar_concursos]; [tabelas] is the dict, in insertion
    order. *)
Fixpoint salvar_concursos (df : DataFrame) (loteria : list string)
  (output_dir : string) (concursos : list string)
  (tabelas : list (string * DataFrame)) (d : disk)
  : outcome (list (string * DataFrame)) * disk :=
  match concursos with
  | [] => (Done tabelas, d)
  | concurso :: resto =>
      let df_c := tabela_do_concurso df loteria concurso in
      let caminho_saida := output_dir +:+ "/" +:+ concurso +:+ ".csv" in
      match to_csv df_c caminho_saida d with
      | (Failed e, d) => (Failed e, d)
      | (Done _, d) =>
          salvar_concursos df loteria output_dir resto
            (assoc_set concurso df_c tabelas) d
      end
  end.

(** The table [separar_concursos] starts from: what [pd.read_json] gives
    for a path (its [FileNotFoundError] is raised again with a message),
    or a copy of the table passed. *)
Definition carregar (origem : fonte) (d : disk) : outcome DataFrame :=
  match origem with
  | Caminho caminho => read_json d caminho
  | Tabela df => Done df
  end.

Definition separar_concursos (origem : fonte) (output_dir : option string)
  (d : disk) : outcome (list (string * DataFrame)) * disk :=
  let output_dir := default "raw" output_dir in
  match carregar origem d with
  | Failed e => (Failed e, d)
  | Done df =>
      let df := reset_index (dropna_all df) in
      if negb (has_col "loteria" df) then (Failed (PyExn ValueError), d)
      else
        match get_col "loteria" df with
        | Raise e => (Failed (PyExn e), d)
        | Ok loteria =>
            let loteria := map padronizar_loteria loteria in
            let df := set_col "loteria" (map VStr loteria) df in
            salvar_concursos df loteria output_dir (unique loteria) [] d
        end
  end.

End Separar.

(** ** The driver ([run_etl.py]) *)

Definition DATASET_PATH : string := "data/raw/dataset.json".
Definition OUTPUT_DIR : string := "data/raw".
Definition SQLITE_PATH : string := "loterias.db".

(** The line feed. *)
Definition nl : string := String (ascii_of_nat 10) EmptyString.

(** What the driver acts on: the files, the store, and the lines printed.
    The progress bar of [tqdm], on the error stream, is left out. *)
Record sistema := mkSistema {
  arquivos : disk;
  banco : world;
  stdout : list string
}.

(** [print(s)] *)
Definition print (s : string) (st : sistema) : sistema :=
  mkSistema (arquivos st) (banco st) (stdout st ++ [s])%list.

Section Driver.
Context `{PyRuntime} `{StrMethods}.

(** The body of the loop of [rodar_pipeline]. *)
Definition processar_concurso (nome : string) (df_raw : DataFrame)
  (st : sistema) : outcome unit * sistema :=
  let st := print ("→ Processando concurso: " +:+ nome) st in
  match data_cleaning_etapa1 df_raw with
  | Raise e => (Failed (PyExn e), st)
  | Ok df_limpo =>
      match feature_engineering_etapa2 df_limpo with
      | Raise e => (Failed (PyExn e), st)
      | Ok df_feat =>
          match salvar_no_sqlite_etapa3 df_feat (Some SQLITE_PATH) (banco st) with
          | (Raise e, w) =>
              (Failed (PyExn e), mkSistema (arquivos st) w (stdout st))
          | (Ok _, w) =>
              (Done (),
               print (nome +:+ " concluído e salvo no SQLite." +:+ nl)
                     (mkSistema (arquivos st) w (stdout st)))
          end
      end
  end.

Fixpoint processar_concursos (tabelas : list (string * DataFrame))
  (st : sistema) : outcome unit * sistema :=
  match tabelas with
  | [] => (Done (), st)
  | (nome, df_raw) :: resto =>
      match processar_concurso nome df_raw st with
      | (Failed e, st) => (Failed e, st)
      | (Done _, st) => processar_concursos resto st
      end
  end.

(** [list(tabelas.keys())] inside an f-string: the [repr] of the list. *)
Definition repr_keys (tabelas : list (string * DataFrame)) : string :=
  "[" +:+ join ", " (map (fun kv => str_repr (fst kv)) tabelas) +:+ "]".

Definition rodar_pipeline (st : sistema) : outcome unit * sistema :=
  let st := print (nl +:+ "=== INICIANDO ETL DAS LOTERIAS ===" +:+ nl) st in
  let st := print "Carregando dataset bruto..." st in
  match separar_concursos (Caminho DATASET_PATH) (Some OUTPUT_DIR) (arquivos st) with
  | (Failed e, d) => (Failed e, mkSistema d (banco st) (stdout st))
  | (Done tabelas, d) =>
      let st := mkSistema d (banco st) (stdout st) in
      let st := print (pretty (length tabelas) +:+ " concursos identificados: "
                       +:+ repr_keys tabelas +:+ nl) st in
      match processar_concursos tabelas st with
      | (Failed e, st) => (Failed e, st)
      | (Done _, st) =>
          (Done (), print (nl +:+ "=== ETL CONCLUÍDO COM SUCESSO ===") st)
      end
  end.

End Driver.

(** ** A small runtime, to run the model on examples

    Decimal integers, dates written [dd/mm/yyyy], no Python literal; the
    other fields are placeholders. *)

Module Demo.

Definition digit (c : ascii) : option Z :=
  let n := Z.of_N (N_of_ascii c) in
  if (48 <=? n) && (n <=? 57) then Some (n - 48) else None.

Fixpoint digits_value (acc : Z) (s : string) : option Z :=
  match s with
  | EmptyString => Some acc
  | String c r =>
      match digit c with
      | Some d => digits_value (acc * 10 + d) r
      | None => None
      end
  end.

Definition decimal (s : string) : option Z :=
  match s with
  | EmptyString => None
  | String "-" (String c r) => Z.opp <$> digits_value 0 (String c r)
  | _ => digits_value 0 s
  end.

Definition date (v : pyval) : option timestamp :=
  match v with
  | VStr (String d1 (String d2 (String "/" (String m1 (String m2
         (String "/" y)))))) =>
      match digits_value 0 (String d1 (String d2 EmptyString)),
            digits_value 0 (String m1 (String m2 EmptyString)),
            digits_value 0 y with
      | Some d, Some m, Some y =>
          if (1 <=? d) && (d <=? 31) && (1 <=? m) && (m <=? 12)
          then Some (mkTs y m d 0) else None
      | _, _, _ => None
      end
  | _ => None
  end.

Definition runtime : PyRuntime := {|
  literal_eval := fun _ => None;
  int_of_str := decimal;
  parse_number := fun s => NInt <$> decimal s;
  parse_datetime := date;
  str_of_object := fun _ => "<object>";
  float_repr := fun _ => "<float>";
  json_string := quoted;
  strip_upper := fun s => s
|}.

(** Lower case on the ASCII letters, no stripping, single quotes. *)
Definition str_methods : StrMethods := {|
  str_lower := lower;
  str_strip := fun s => s;
  str_repr := fun s => "'" +:+ s +:+ "'"
|}.

End Demo.

(** ** Well-formed tables and the tables of the specification *)

(** Every column has one cell per index label. *)
Definition wf (df : DataFrame) : Prop :=
  Forall (fun kv => length (snd kv) = n_rows df) (cols df).




(** ** Sample batches and auxiliary notions of the properties *)

(** [df'] has the columns and the rows of [df], in the same order. *)
Definition same_shape (df df' : DataFrame) : Prop :=
  column_names df' = column_names df /\ index df' = index df.


(** ** Columns as the conversions leave them *)

Definition is_ts_or_NaT (v : pyval) : bool :=
  match v with VTimestamp _ | VNaT => true | _ => false end.

Definition is_bool_or_NA (v : pyval) : bool :=
  match v with VBool _ | VNA => true | _ => false end.

Definition is_float (v : pyval) : bool :=
  match v with VFloat _ => true | _ => false end.

Definition is_list_or_none (v : pyval) : bool :=
  match v with VList _ | VNone => true | _ => false end.

(** A column as [pandas.to_numeric] returns it. *)
Definition numeric_column (vs : list pyval) : bool :=
  forallb is_bool vs || forallb is_int_or_NA vs || forallb is_float vs.

(** The cells a column of a cleaned batch can hold, by its name. *)
Definition col_typed (c : string) (vs : list pyval) : bool :=
  if String.eqb c "concurso" then forallb is_int_or_NA vs
  else if String.eqb c "data" || String.eqb c "proximoConcurso"
  then forallb is_ts_or_NaT vs
  else if existsb (String.eqb c) cols_monetarias then numeric_column vs
  else if String.eqb c "acumulou" then forallb is_bool_or_NA vs
  else true.

(** The columns named by [P] hold the cells their names allow. *)
Definition typed_on (P : string -> Prop) (df : DataFrame) : Prop :=
  forall c vs, P c -> get_col c df = Ok vs -> col_typed c vs = true.

Definition typed (df : DataFrame) : Prop := typed_on (fun _ => True) df.

(** The names whose columns [col_typed] constrains. *)
Definition typed_name (c : string) : Prop :=
  In c (["concurso"; "data"; "proximoConcurso"] ++ cols_monetarias ++ ["acumulou"])%list.

Section Auxiliary.
Context `{PyRuntime}.

(** What the loop does to one column. *)
Definition encode_col (vs : list pyval) : result (list pyval) :=
  if existsb is_list vs then dumps_column vs else Ok vs.

(** The relation the persistence stage writes a batch to. *)
Definition stage_relation_name (df : DataFrame) : result string :=
  df_json ← listas_para_json df; first_loteria df_json.

End Auxiliary.

Definition shape (df : DataFrame) : nat * nat := (length (cols df), n_rows df).

Definition draw (ns : list Z) : pyval := VList (map VInt ns).

Definition tier (faixa ganhadores valor : Z) : pyval :=
  VDict [(VStr "faixa", VInt faixa); (VStr "ganhadores", VInt ganhadores);
         (VStr "valorPremio", VFloat (F64.of_Z valor))].

Definition empty_batch : DataFrame :=
  mkDF [] [("loteria", []); ("concurso", []); ("data", []);
           ("proximoConcurso", []); ("dezenas", [])].

Definition batch_with_bad_date : DataFrame :=
  mkDF [0]
       [("loteria", [VStr "megasena"]); ("concurso", [VInt 2500]);
        ("data", [VStr "ontem"]); ("proximoConcurso", [VNone]);
        ("valorArrecadado", [VStr "n/d"]);
        ("dezenas", [VList [VInt 10; VInt 22; VInt 35; VInt 41; VInt 50; VInt 58]])].

Definition batch_out_of_range : DataFrame :=
  mkDF [0]
       [("loteria", [VStr "megasena"]); ("concurso", [VInt 2500]);
        ("data", [VNone]); ("proximoConcurso", [VNone]);
        ("dezenas", [VList [VInt 0; VInt 10; VInt 20; VInt 30; VInt 40; VInt 50]])].

Definition batch_out_of_range_cleaned : DataFrame :=
  mkDF []
       [("loteria", []); ("concurso", []); ("data", []);
        ("proximoConcurso", []); ("dezenas", [])].

Definition batch_mixed_keys : DataFrame :=
  mkDF [0; 1]
       [("loteria", [VStr "megasena"; VStr "megasena"]);
        ("concurso", [VStr "2500"; VInt 2500]);
        ("data", [VNone; VNone]); ("proximoConcurso", [VNone; VNone]);
        ("dezenas", [VList [VInt 1; VInt 2; VInt 3; VInt 4; VInt 5; VInt 6];
                     VList [VInt 7; VInt 8; VInt 9; VInt 10; VInt 11; VInt 12]])].

(** A timemania draw with a 0, then a megasena draw; [timeCoracao] is a
    column of timemania, not of megasena. *)
Definition batch_two_lotteries : DataFrame :=
  mkDF [0; 1]
       [("loteria", [VStr "timemania"; VStr "megasena"]);
        ("concurso", [VInt 2100; VInt 2500]);
        ("data", [VNone; VNone]); ("proximoConcurso", [VNone; VNone]);
        ("timeCoracao", [VStr "SANTOS"; VNone]);
        ("dezenas", [draw [0; 2; 3; 4; 5; 6]; draw [7; 8; 9; 10; 11; 12]])].

Definition batch_with_repeats : DataFrame :=
  mkDF [0; 1; 2]
       [("concurso", [VInt 7; VInt 8; VFloat (F64.of_Z 7)]);
        ("dezenas", [VList [VInt 1]; VList [VInt 2]; VList [VInt 3]])].

(** Three megasena draws: a valid one, one with a 0, one with three
    numbers. *)
Definition batch_megasena : DataFrame :=
  mkDF [0; 1; 2]
       [("loteria", [VStr "megasena"; VStr "megasena"; VStr "megasena"]);
        ("concurso", [VInt 2500; VInt 2501; VInt 2502]);
        ("data", [VStr "07/03/2024"; VStr "09/03/2024"; VNone]);
        ("proximoConcurso", [VStr "09/03/2024"; VNone; VNone]);
        ("timeCoracao", [VNone; VNone; VNone]);
        ("valorAcumuladoProximoConcurso", [VFloat (F64.of_Z 0); VNone; VInt 3]);
        ("valorEstimadoProximoConcurso", [VInt 3000000; VInt 1; VInt 2]);
        ("dezenas", [draw [10; 22; 35; 41; 50; 58];
                     draw [0; 10; 20; 30; 40; 50];
                     draw [1; 2; 3]])].

Definition batch_megasena_cleaned : DataFrame :=
  mkDF [0]
       [("loteria", [VStr "megasena"]);
        ("concurso", [VInt 2500]);
        ("data", [VTimestamp (mkTs 2024 3 7 0)]);
        ("proximoConcurso", [VTimestamp (mkTs 2024 3 9 0)]);
        ("valorAcumuladoProximoConcurso", [VFloat (S754_zero false)]);
        ("valorEstimadoProximoConcurso", [VInt 3000000]);
        ("dezenas", [draw [10; 22; 35; 41; 50; 58]])].

(** A cleaned batch of two draws; nobody won the first. *)
Definition batch_cleaned : DataFrame :=
  mkDF [0; 1]
       [("loteria", [VStr "megasena"; VStr "megasena"]);
        ("concurso", [VInt 2500; VInt 2501]);
        ("data", [VTimestamp (mkTs 2024 3 7 0); VTimestamp (mkTs 2024 3 9 0)]);
        ("proximoConcurso", [VTimestamp (mkTs 2024 3 9 0); VNaT]);
        ("local", [VStr "Espaço da Sorte em São Paulo, SP";
                   VStr "Caminhão da Sorte em Recife, PE"]);
        ("valorArrecadado", [VFloat (F64.of_Z 0); VFloat (F64.of_Z 100)]);
        ("valorAcumuladoProximoConcurso",
         [VFloat (F64.of_Z 4); VFloat (F64.of_Z 0)]);
        ("valorEstimadoProximoConcurso",
         [VFloat (F64.of_Z 6); VFloat (F64.of_Z 9)]);
        ("dezenas", [draw [10; 22; 35; 41; 50; 58]; draw [1; 2; 3; 4; 5; 6]]);
        ("premiacoes", [VList [tier 1 0 0; tier 2 0 5];
                        VList [tier 1 1 100; tier 2 3 5]]);
        ("localGanhadores",
         [VList [];
          VList [VDict [(VStr "municipio", VStr "CANAL ELETRONICO");
                        (VStr "uf", VStr "--")]]])].

Definition row_six_over_four : row :=
  [("valorAcumuladoProximoConcurso", VFloat (F64.of_Z 4));
   ("valorEstimadoProximoConcurso", VFloat (F64.of_Z 6))].

Definition batch_with_lists : DataFrame :=
  mkDF [0; 1]
       [("loteria", [VStr "megasena"; VStr "megasena"]);
        ("concurso", [VInt 2500; VNA]);
        ("dezenas", [draw [10; 22]; VNone]);
        ("trevos", [VNaN; draw []])].

(** A dict in a column without lists is not encoded and cannot be
    bound: the write raises, and the connection is closed all the same. *)
Definition batch_with_dict : DataFrame :=
  mkDF [0] [("loteria", [VStr "Quina"]);
            ("premio", [VDict [(VStr "faixa", VInt 1)]])].

Definition empty_world : world := mkWorld ∅ [] 0.

Definition world_after_three : world :=
  (salvar_no_sqlite_etapa3 (H := Demo.runtime) batch_megasena None empty_world).2.

Definition world_after_one : world :=
  (salvar_no_sqlite_etapa3 (H := Demo.runtime) batch_megasena_cleaned None
     world_after_three).2.


(** [v] is a whole number between [lo] and [hi], as an integer or as a
    float. *)
Definition whole_between (lo hi : Z) (v : pyval) : Prop :=
  exists z, (v = VInt z \/ v = VFloat (F64.of_Z z)) /\ lo <= z <= hi.

(** How many of [zs] satisfy [p]. *)
Definition count_if (p : Z -> bool) (zs : list Z) : Z :=
  Z.of_nat (length (List.filter p zs)).

(** The columns the feature stage assigns or drops, beside the columns
    [dezena_1], [dezena_2], ... *)
Definition colunas_escritas : list string :=
  ["data_dia"; "data_mes"; "data_ano"; "semana_ano_concurso";
   "dia_semana_concurso"; "proximoConcurso_dia"; "proximoConcurso_mes";
   "proximoConcurso_ano"; "qtd_dezenas"; "nome_local"; "resto"; "cidade";
   "estado"; "premiacoes"; "total_ganhadores"; "total_pago_premios";
   "media_premio_real"; "localGanhadores"; "municipioGanhador"; "ufGanhador";
   "ticketGanhadorOnline"; "valorArrecadado"; "razaoEstimadoAcumulado";
   "dezenas"; "qtd_pares"; "qtd_impares"; "range_dezenas"].

(** [f] keeps the index, and the cells of the column [c]. *)
Definition keeps_column (c : string) (f : DataFrame -> result DataFrame) : Prop :=
  forall df out vs,
    f df = Ok out -> get_col c df = Ok vs ->
    index out = index df /\ get_col c out = Ok vs.

(** The keys [json.dumps] accepts in a dict. *)
Definition json_scalar_key (k : pyval) : bool :=
  match k with
  | VStr _ | VInt _ | VFloat _ | VBool _ | VNone => true
  | _ => false
  end.

(** The values made of [None], booleans, numbers, strings, lists, tuples
    and dicts with scalar keys. *)
Fixpoint json_like (v : pyval) : bool :=
  match v with
  | VNone | VBool _ | VInt _ | VFloat _ | VStr _ => true
  | VList l | VTuple l =>
      (fix go (l : list pyval) : bool :=
         match l with
         | [] => true
         | x :: r => json_like x && go r
         end) l
  | VDict d =>
      (fix go (d : list (pyval * pyval)) : bool :=
         match d with
         | [] => true
         | (k, x) :: r => json_scalar_key k && json_like x && go r
         end) d
  | VTimestamp _ | VNaT | VNA => false
  end.

(** How many rows the tables of a dict have together. *)
Definition total_rows (tabelas : list (string * DataFrame)) : nat :=
  list_sum (map (fun kv => n_rows (snd kv)) tabelas).

(** The path of the CSV file of a lottery. *)
Definition caminho_csv (output_dir concurso : string) : string :=
  output_dir +:+ "/" +:+ concurso +:+ ".csv".

(** How many times [c] occurs in [l]. *)
Definition ocorrencias (c : string) (l : list string) : nat :=
  length (List.filter (fun s => String.eqb s c) l).

(** What [to_csv] leaves on the disk when it returns. *)
Definition gravar (caminho : string) (df : DataFrame) (d : disk) : disk :=
  mkDisk (read_json d) (<[caminho := cols df]> (csv_files d)) (unwritable d).

(** A disk without files, and a small dataset: two lotteries written in
    three ways, and a row without any value. *)
Definition disco_vazio : disk :=
  mkDisk (fun _ => Failed FileNotFoundError) ∅ [].

Definition dataset_bruto : DataFrame :=
  mkDF [0; 1; 2; 3]
       [("loteria", [VStr "Mega-Sena"; VStr "LOTOFACIL"; VNone; VStr "mega_sena"]);
        ("concurso", [VInt 1; VInt 2; VNone; VInt 3])].

(** The relation [nome] of the store of the pipeline has at least one
    row. *)
Definition armazenada (nome : string) (st : sistema) : Prop :=
  exists stored, relation SQLITE_PATH nome (banco st) = Some stored /\
                 (1 <= n_rows stored)%nat.

(** The table of a lottery as [separar_concursos] returns it. *)
Definition tabela_de (kv : string * DataFrame) : Prop :=
  wf (snd kv) /\
  exists vs, get_col "loteria" (snd kv) = Ok vs /\
             Forall (fun v => v = VStr (fst kv)) vs.

(** A system whose dataset file holds [df], with an empty store and
    nothing printed. *)
Definition sistema_com (df : DataFrame) : sistema :=
  mkSistema
    (mkDisk (fun caminho => if String.eqb caminho DATASET_PATH then Done df
                            else Failed FileNotFoundError) ∅ [])
    empty_world [].

(** * Properties *)

(** ** Lists, association lists and tables *)

Lemma bind_Ok {A B} (m : result A) (f : A -> result B) (b : B) :
  m ≫= f = Ok b -> exists a, m = Ok a /\ f a = Ok b.
Proof. destruct m as [a|e]; simpl; [eauto | discriminate]. Qed.

(** Inverts one monadic step of a hypothesis [x ← m; k = Ok b]. *)
Lemma Ok_bind {A B} (a : A) (f : A -> result B) : Ok a ≫= f = f a.
Proof. reflexivity. Qed.

Ltac inv_bind H :=
  let a := fresh "a" in
  let Ha := fresh "Ha" in
  apply bind_Ok in H; destruct H as (a & Ha & H).

Lemma mapR_length {A B} (f : A -> result B) l l' :
  mapR f l = Ok l' -> length l' = length l.
Proof.
  revert l'. induction l as [|x l IH]; simpl; intros l' Hm.
  - inversion Hm. reflexivity.
  - inv_bind Hm. inv_bind Hm. inversion Hm; subst. simpl. f_equal. eauto.
Qed.

Lemma mapR_Forall2 {A B} (f : A -> result B) l l' :
  mapR f l = Ok l' -> Forall2 (fun x y => f x = Ok y) l l'.
Proof.
  revert l'. induction l as [|x l IH]; simpl; intros l' Hm.
  - inversion Hm. constructor.
  - inv_bind Hm. inv_bind Hm. inversion Hm; subst. constructor; eauto.
Qed.

Lemma assoc_In {A} c (l : list (string * A)) v :
  assoc c l = Some v -> In (c, v) l.
Proof.
  induction l as [|[k w] l IH]; simpl; [discriminate|].
  destruct (String.eqb_spec c k) as [->|Hne]; intros Hc.
  - inversion Hc. now left.
  - right. auto.
Qed.

Lemma assoc_existsb {A} c (l : list (string * A)) :
  existsb (String.eqb c) (map fst l) = match assoc c l with Some _ => true | None => false end.
Proof.
  induction l as [|[k w] l IH]; simpl; [reflexivity|].
  destruct (String.eqb c k); simpl; auto.
Qed.

Lemma has_col_assoc c df :
  has_col c df = match assoc c (cols df) with Some _ => true | None => false end.
Proof. apply assoc_existsb. Qed.

Lemma get_col_assoc c df vs :
  get_col c df = Ok vs <-> assoc c (cols df) = Some vs.
Proof.
  unfold get_col. destruct (assoc c (cols df)); split; intros E;
    inversion E; reflexivity.
Qed.

Lemma assoc_set_names {A} c (v w : A) l :
  assoc c l = Some w -> map fst (assoc_set c v l) = map fst l.
Proof.
  induction l as [|[k u] l IH]; simpl; [discriminate|].
  destruct (String.eqb c k); simpl; intros E; [reflexivity|].
  f_equal. auto.
Qed.

Lemma assoc_set_same {A} c (v : A) l : assoc c (assoc_set c v l) = Some v.
Proof.
  induction l as [|[k u] l IH]; simpl.
  - now rewrite String.eqb_refl.
  - destruct (String.eqb c k) eqn:E; simpl; rewrite E; auto.
Qed.

Lemma assoc_set_other {A} c c' (v : A) l :
  c' <> c -> assoc c' (assoc_set c v l) = assoc c' l.
Proof.
  intros Hne. induction l as [|[k u] l IH]; simpl.
  - destruct (String.eqb_spec c' c); [contradiction | reflexivity].
  - destruct (String.eqb_spec c k) as [->|Hck]; simpl.
    + destruct (String.eqb_spec c' k); [contradiction | reflexivity].
    + destruct (String.eqb c' k); auto.
Qed.

Lemma assoc_set_Forall {A} (P : string * A -> Prop) c v l :
  P (c, v) -> Forall P l -> Forall P (assoc_set c v l).
Proof.
  intros Hv Hl. induction Hl as [|[k u] l Hk Hl IH]; simpl.
  - constructor; [assumption | constructor].
  - destruct (String.eqb_spec c k) as [->|Hne]; constructor; auto.
Qed.

Lemma names_set_col c vs ws df :
  get_col c df = Ok ws -> column_names (set_col c vs df) = column_names df.
Proof.
  intros Hc. apply get_col_assoc in Hc. unfold column_names. simpl.
  eapply assoc_set_names. eassumption.
Qed.

Lemma names_select_rows mask df :
  column_names (select_rows mask df) = column_names df.
Proof.
  unfold column_names, select_rows. simpl. rewrite map_map. reflexivity.
Qed.

Lemma wf_set_col c vs df :
  wf df -> length vs = n_rows df -> wf (set_col c vs df).
Proof.
  intros Hwf Hlen. unfold wf, set_col, n_rows in *. simpl.
  apply assoc_set_Forall; assumption.
Qed.

Lemma wf_get_col c df vs : wf df -> get_col c df = Ok vs -> length vs = n_rows df.
Proof.
  intros Hwf Hc. apply get_col_assoc, assoc_In in Hc.
  unfold wf in Hwf. rewrite List.Forall_forall in Hwf. apply (Hwf _ Hc).
Qed.

Lemma filter_by_In {A} (mask : list bool) (l : list A) x :
  In x (filter_by mask l) -> In x l.
Proof.
  revert l. induction mask as [|b m IH]; intros [|y l]; simpl; try tauto.
  destruct b; simpl; intros Hin; [destruct Hin|]; auto.
Qed.

Lemma filter_by_length {A B} (mask : list bool) (l : list A) (l' : list B) :
  length l = length l' -> length (filter_by mask l) = length (filter_by mask l').
Proof.
  revert l l'. induction mask as [|b m IH]; intros [|x l] [|y l']; simpl;
    try discriminate; auto.
  intros E. destruct b; simpl; auto.
Qed.

Lemma filter_by_map {A B} (f : A -> B) (mask : list bool) (l : list A) :
  filter_by mask (map f l) = map f (filter_by mask l).
Proof.
  revert l. induction mask as [|b m IH]; intros [|x l]; simpl; auto.
  destruct b; simpl; congruence.
Qed.

Lemma filter_by_true {A} (l : list A) (mask : list bool) :
  length mask = length l -> Forall (fun b => b = true) mask ->
  filter_by mask l = l.
Proof.
  revert l. induction mask as [|b m IH]; intros [|x l]; simpl;
    try discriminate; auto.
  intros E Hall. inversion Hall; subst. f_equal. apply IH; auto.
Qed.

Lemma filter_by_Forall {A} (p : A -> bool) (l : list A) :
  Forall (fun x => p x = true) (filter_by (map p l) l).
Proof.
  induction l as [|x l IH]; simpl; [constructor|].
  destruct (p x) eqn:E; [constructor|]; assumption.
Qed.

Lemma wf_select_rows mask df : wf df -> wf (select_rows mask df).
Proof.
  unfold wf, select_rows, n_rows. simpl. intros Hwf.
  rewrite List.Forall_map. eapply List.Forall_impl; [|exact Hwf].
  simpl. intros kv E. apply filter_by_length. exact E.
Qed.

Lemma range_from_length start n : length (range_from start n) = n.
Proof. revert start. induction n; simpl; auto. Qed.

Lemma wf_reset_index df : wf df -> wf (reset_index df).
Proof.
  unfold wf, reset_index, n_rows. simpl. now rewrite range_from_length.
Qed.

Lemma wf_drop_cols names df : wf df -> wf (drop_cols names df).
Proof.
  unfold wf, drop_cols, n_rows. simpl. intros Hwf.
  rewrite List.Forall_forall in *. intros kv Hin.
  apply List.filter_In in Hin. apply Hwf, Hin.
Qed.

(** ** The steps of the cleaning stage keep tables well formed *)

Lemma same_shape_refl df : same_shape df df.
Proof. split; reflexivity. Qed.

Lemma same_shape_trans a b c : same_shape a b -> same_shape b c -> same_shape a c.
Proof. intros [? ?] [? ?]. split; congruence. Qed.

Lemma same_shape_set_col c vs ws df :
  get_col c df = Ok ws -> same_shape df (set_col c vs df).
Proof.
  intros Hc. split; [eapply names_set_col; eassumption | reflexivity].
Qed.

Lemma update_col_keeps f c df :
  (forall vs, length (f vs) = length vs) ->
  wf df -> wf (update_col f c df) /\ same_shape df (update_col f c df).
Proof.
  intros Hf Hwf. unfold update_col.
  destruct (assoc c (cols df)) as [vs|] eqn:E.
  - apply get_col_assoc in E. split.
    + apply wf_set_col; [assumption|]. rewrite Hf. eapply wf_get_col; eauto.
    + eapply same_shape_set_col; eassumption.
  - split; [assumption | apply same_shape_refl].
Qed.

Lemma fold_update_col_keeps f names df :
  (forall vs, length (f vs) = length vs) ->
  wf df ->
  wf (fold_left (fun df c => update_col f c df) names df) /\
  same_shape df (fold_left (fun df c => update_col f c df) names df).
Proof.
  intros Hf. revert df. induction names as [|c names IH]; simpl; intros df Hwf.
  - split; [assumption | apply same_shape_refl].
  - destruct (update_col_keeps f c df Hf Hwf) as [Hwf1 Hs1].
    destruct (IH _ Hwf1) as [Hwf2 Hs2].
    split; [assumption | eapply same_shape_trans; eassumption].
Qed.

Section CleaningSteps.
Context `{PyRuntime}.

Lemma to_numeric_coerce_length vs : length (to_numeric_coerce vs) = length vs.
Proof.
  unfold to_numeric_coerce.
  destruct (forallb is_bool vs || forallb is_int_or_NA vs); [reflexivity|].
  destruct (forallb is_NInt _); now rewrite !length_map.
Qed.

Lemma drop_colunas_wf df df' :
  drop_colunas_por_loteria df = Ok df' -> wf df -> wf df'.
Proof.
  unfold drop_colunas_por_loteria. intros Hd Hwf. inv_bind Hd.
  inversion Hd; subst. now apply wf_drop_cols.
Qed.

Lemma remover_duplicatas_keeps df df' :
  remover_duplicatas df = Ok df' -> wf df ->
  wf df' /\ column_names df' = column_names df.
Proof.
  unfold remover_duplicatas. intros Hd Hwf. inv_bind Hd.
  destruct (0 <? count_true (duplicated a))%nat; inversion Hd; subst.
  - split; [now apply wf_select_rows | apply names_select_rows].
  - split; [assumption | reflexivity].
Qed.

Lemma converter_tipos_keeps df df' :
  converter_tipos df = Ok df' -> wf df -> wf df' /\ same_shape df df'.
Proof.
  unfold converter_tipos. intros Hc Hwf.
  inv_bind Hc. rename a into c0, Ha into Hc0.
  inv_bind Hc. rename a into c1, Ha into Hc1.
  inv_bind Hc. rename a into d0, Ha into Hd0.
  inv_bind Hc. rename a into d1, Ha into Hd1.
  inv_bind Hc. rename a into p0, Ha into Hp0.
  inv_bind Hc. rename a into p1, Ha into Hp1.
  set (df1 := set_col "concurso" c1 df) in *.
  set (df2 := set_col "data" d1 df1) in *.
  set (df3 := set_col "proximoConcurso" p1 df2) in *.
  assert (Hwf1 : wf df1).
  { apply wf_set_col; [assumption|].
    apply mapR_length in Hc1. rewrite Hc1, to_numeric_coerce_length.
    eapply wf_get_col; eauto. }
  assert (Hs1 : same_shape df df1) by (eapply same_shape_set_col; eauto).
  assert (Hwf2 : wf df2).
  { apply wf_set_col; [assumption|].
    apply mapR_length in Hd1. rewrite Hd1. eapply wf_get_col; eauto. }
  assert (Hs2 : same_shape df1 df2) by (eapply same_shape_set_col; eauto).
  assert (Hwf3 : wf df3).
  { apply wf_set_col; [assumption|].
    apply mapR_length in Hp1. rewrite Hp1. eapply wf_get_col; eauto. }
  assert (Hs3 : same_shape df2 df3) by (eapply same_shape_set_col; eauto).
  destruct (fold_update_col_keeps to_numeric_coerce cols_monetarias df3
              to_numeric_coerce_length Hwf3) as [Hwf4 Hs4].
  set (df4 := fold_left _ cols_monetarias df3) in *.
  assert (Hs04 : same_shape df df4).
  { eapply same_shape_trans; [|exact Hs4].
    eapply same_shape_trans; [|exact Hs3].
    eapply same_shape_trans; eassumption. }
  destruct (assoc "acumulou" (cols df4)) as [vs|] eqn:Ea.
  - inv_bind Hc. inversion Hc; subst. apply get_col_assoc in Ea. split.
    + apply wf_set_col; [assumption|].
      apply mapR_length in Ha. rewrite Ha. eapply wf_get_col; eauto.
    + eapply same_shape_trans; [exact Hs04|].
      eapply same_shape_set_col; eassumption.
  - inversion Hc; subst. split; assumption.
Qed.


Lemma aplicar_normalizacao_keeps df :
  wf df ->
  wf (aplicar_normalizacao_listas df) /\
  same_shape df (aplicar_normalizacao_listas df).
Proof.
  intros Hwf. apply fold_update_col_keeps; [|assumption].
  intros vs. apply length_map.
Qed.

End CleaningSteps.

(** ** Rows of a filtered table *)

Lemma filter_by_nth {A} (d : A) (mask : list bool) (vs : list A) (s : nat) :
  length vs = length mask ->
  filter_by mask vs =
  map (fun i => nth (i - s) vs d) (filter_by mask (seq s (length mask))).
Proof.
  revert vs s. induction mask as [|b m IH]; intros [|x vs] s; simpl;
    try discriminate; auto.
  intros E. injection E as E.
  assert (Hshift : map (fun i => nth (i - S s) vs d) (filter_by m (seq (S s) (length m)))
                   = map (fun i => nth (i - s) (x :: vs) d) (filter_by m (seq (S s) (length m)))).
  { apply List.map_ext_in. intros i Hi. apply filter_by_In, in_seq in Hi.
    replace (i - s)%nat with (S (i - S s)) by lia. reflexivity. }
  destruct b; simpl.
  - rewrite Nat.sub_diag. simpl. f_equal. rewrite (IH vs (S s) E). exact Hshift.
  - rewrite (IH vs (S s) E). exact Hshift.
Qed.

Lemma map_seq_nth {B} (g h : nat -> B) (idxs : list nat) :
  (forall j, (j < length idxs)%nat -> g j = h (nth j idxs 0%nat)) ->
  map g (seq 0 (length idxs)) = map h idxs.
Proof.
  intros Hgh. apply (nth_ext _ _ (g 0%nat) (h 0%nat)).
  - now rewrite !length_map, length_seq.
  - intros j Hj. rewrite length_map, length_seq in Hj.
    rewrite (map_nth g), (map_nth h), seq_nth by assumption. simpl. auto.
Qed.

Lemma rows_of_select_rows mask df :
  wf df -> length mask = n_rows df ->
  rows_of (select_rows mask df) = filter_by mask (rows_of df).
Proof.
  intros Hwf Hlen. unfold rows_of.
  rewrite filter_by_map.
  set (idxs := filter_by mask (seq 0 (n_rows df))).
  assert (Hn : n_rows (select_rows mask df) = length idxs).
  { unfold n_rows, select_rows, idxs. simpl.
    apply filter_by_length. now rewrite length_seq. }
  rewrite Hn. apply map_seq_nth. intros j Hj.
  unfold row_at, select_rows. simpl. rewrite map_map. simpl.
  apply List.map_ext_in. intros [c vs] Hin. simpl. f_equal.
  unfold wf in Hwf. rewrite List.Forall_forall in Hwf.
  specialize (Hwf _ Hin). simpl in Hwf.
  rewrite (filter_by_nth VNone mask vs 0) by congruence.
  rewrite <- Hlen in Hwf. unfold idxs. rewrite <- Hlen.
  rewrite (nth_indep _ VNone (nth (0 - 0) vs VNone)).
  - rewrite (map_nth (fun i => nth (i - 0) vs VNone)). now rewrite Nat.sub_0_r.
  - rewrite length_map. unfold idxs in Hj. now rewrite <- Hlen in Hj.
Qed.

Lemma rows_of_reset_index df : rows_of (reset_index df) = rows_of df.
Proof.
  unfold rows_of, reset_index, n_rows, row_at. simpl.
  now rewrite range_from_length.
Qed.

Lemma rows_of_length df : length (rows_of df) = n_rows df.
Proof. unfold rows_of. now rewrite length_map, length_seq. Qed.


Lemma mapR_filter_by {A} (f : A -> result bool) l mask x :
  mapR f l = Ok mask -> In x (filter_by mask l) -> f x = Ok true.
Proof.
  revert mask. induction l as [|y l IH]; simpl; intros mask Hm Hin.
  - inversion Hm; subst. destruct Hin.
  - inv_bind Hm. inv_bind Hm. inversion Hm; subst. simpl in Hin.
    destruct a; [destruct Hin as [<-|Hin]|]; eauto.
Qed.

Lemma get_col_select_rows c mask df vs :
  get_col c df = Ok vs ->
  get_col c (select_rows mask df) = Ok (filter_by mask vs).
Proof.
  rewrite !get_col_assoc. unfold select_rows. simpl.
  induction (cols df) as [|[k u] l IH]; simpl; [discriminate|].
  destruct (String.eqb c k); [|exact IH].
  intros E. inversion E. reflexivity.
Qed.

(** ** C1: the draw size and the range of the rows that survive cleaning *)

Section DezenasValidas.
Context `{PyRuntime}.

Lemma all_in_range_Forall lo hi l :
  all_in_range lo hi l = true ->
  Forall (fun x => exists k, py_int x = Some k /\ lo <= k <= hi) l.
Proof.
  induction l as [|x l IH]; simpl; intros Hall; [constructor|].
  destruct (py_int x) as [k|] eqn:Ek; [|discriminate].
  destruct ((lo <=? k) && (k <=? hi)) eqn:E; [|discriminate].
  apply andb_true_iff in E. destruct E as [E1 E2].
  constructor; [|auto]. exists k. split; [exact Ek | lia].
Qed.







End DezenasValidas.

(** ** C3: the columns the cleaning stage removes *)

Section ColumnPruning.
Context `{PyRuntime}.


Lemma names_filter (p : string -> bool) (l : list (string * list pyval)) :
  map fst (List.filter (fun kv => p (fst kv)) l) = List.filter p (map fst l).
Proof.
  induction l as [|[k v] l IH]; simpl; [reflexivity|].
  destruct (p k); simpl; congruence.
Qed.


Lemma existsb_filter_absent (p : string -> bool) c (D : list string) :
  existsb (String.eqb c) D = false ->
  existsb (String.eqb c) (List.filter p D) = false.
Proof.
  induction D as [|d D IH]; simpl; [reflexivity|].
  intros E. apply orb_false_iff in E. destruct E as [E1 E2].
  destruct (p d); simpl; [rewrite E1|]; auto.
Qed.

Lemma assoc_filter_kept {A} (p : string -> bool) c (l : list (string * A)) :
  p c = true -> assoc c (List.filter (fun kv => p (fst kv)) l) = assoc c l.
Proof.
  intros Hp. induction l as [|[k v] l IH]; simpl; [reflexivity|].
  destruct (String.eqb_spec c k) as [<-|Hne]; simpl.
  - rewrite Hp. simpl. now rewrite String.eqb_refl.
  - destruct (p k); simpl; [|exact IH].
    destruct (String.eqb_spec c k); [contradiction | exact IH].
Qed.

Lemma validar_dezenas_names df out :
  validar_dezenas df = Ok out -> index out <> [] ->
  column_names out = column_names df.
Proof.
  unfold validar_dezenas. intros Hv Hne.
  inv_bind Hv. inv_bind Hv. inv_bind Hv. inversion Hv; subst.
  rename a1 into df2, Ha1 into Hf. clear Hv.
  assert (Hidx : index df2 <> []).
  { intros E. apply Hne. unfold reset_index, n_rows. simpl. now rewrite E. }
  unfold filtrar_intervalo in Hf.
  set (df1 := select_rows (map (has_expected_count a) a0) df) in *.
  destruct (index df1) as [|i0 idx] eqn:Ei.
  - exfalso. apply Hidx.
    destruct (has_col "loteria" df1); inversion Hf; subst; [reflexivity | exact Ei].
  - inv_bind Hf. inversion Hf; subst.
    transitivity (column_names (select_rows a1 df1)); [reflexivity|].
    rewrite names_select_rows. unfold df1. apply names_select_rows.
Qed.


End ColumnPruning.

(** ** C8: the cleaning stage on a batch without rows *)

(** On the batch without rows the stage raises: the first row of
    [loteria] does not exist. *)
Lemma empty_batch_raises :
  data_cleaning_etapa1 (H := Demo.runtime) empty_batch = Raise IndexError.
Proof. reflexivity. Qed.

(** C8, amended.  On every batch without rows [data_cleaning_etapa1]
    raises: [IndexError] at [df["loteria"].iloc[0]] when the batch has a
    [loteria] column, [KeyError] when it has none. *)
Theorem cleaning_raises_on_empty_batch `{PyRuntime} (df : DataFrame) :
  wf df ->
  index df = [] ->
  data_cleaning_etapa1 df
  = Raise (if has_col "loteria" df then IndexError else KeyError).
Proof.
  intros Hwf Hidx.
  unfold data_cleaning_etapa1, drop_colunas_por_loteria, first_loteria.
  rewrite has_col_assoc.
  destruct (get_col "loteria" df) as [vs|e] eqn:E.
  - pose proof (wf_get_col _ _ _ Hwf E) as Hlen.
    unfold n_rows in Hlen. rewrite Hidx in Hlen.
    destruct vs; [|discriminate].
    apply get_col_assoc in E. rewrite E. reflexivity.
  - unfold get_col in E.
    destruct (assoc "loteria" (cols df)); [discriminate|].
    inversion E. reflexivity.
Qed.

Lemma cleaning_raises_on_empty_batch_witness :
  data_cleaning_etapa1 (H := Demo.runtime) empty_batch = Raise IndexError.
Proof.
  apply (@cleaning_raises_on_empty_batch Demo.runtime empty_batch).
  - repeat constructor.
  - reflexivity.
Defined.

(** ** C2: a date that cannot be parsed *)

(** C2.  The batch has a [loteria] column and one row whose [data] is not
    a date.  [pd.to_datetime] is called without [errors="coerce"], so the
    stage raises [ValueError] instead of nulling the value or dropping the
    row. *)
Theorem cleaning_raises_on_unparseable_date `{PyRuntime} :
  parse_datetime (VStr "ontem") = None ->
  data_cleaning_etapa1 batch_with_bad_date = Raise ValueError.
Proof.
  intros Hbad.
  unfold data_cleaning_etapa1, drop_colunas_por_loteria, first_loteria. simpl.
  unfold tratar_tipos_e_colunas, remover_duplicatas, concurso_keys. simpl.
  unfold converter_tipos. simpl.
  unfold to_datetime. simpl. unfold to_datetime_cell. simpl.
  rewrite Hbad. reflexivity.
Qed.

Lemma cleaning_raises_on_unparseable_date_witness :
  data_cleaning_etapa1 (H := Demo.runtime) batch_with_bad_date = Raise ValueError.
Proof.
  apply (@cleaning_raises_on_unparseable_date Demo.runtime). reflexivity.
Defined.

(** The sibling conversion, [pd.to_numeric(..., errors="coerce")], nulls
    what it cannot read: with a date that parses, the same batch is
    cleaned and its unreadable [valorArrecadado] is NaN. *)
Example unreadable_amount_is_nulled :
  (data_cleaning_etapa1 (H := Demo.runtime)
     (set_col "data" [VStr "07/03/2024"] batch_with_bad_date)
     ≫= get_col "valorArrecadado") = Ok [VNaN].
Proof. reflexivity. Qed.

(** ** C7: running the cleaning stage on its own output *)

(** The only row has a 0, outside 1-60: the stage returns a batch without
    rows and without duplicates; run on that batch, it raises. *)
Lemma cleaning_twice_raises :
  data_cleaning_etapa1 (H := Demo.runtime) batch_out_of_range
  = Ok batch_out_of_range_cleaned /\
  data_cleaning_etapa1 (H := Demo.runtime) batch_out_of_range_cleaned
  = Raise IndexError.
Proof. split; reflexivity. Qed.

(** Duplicates are removed before [concurso] is made a number: a key
    written once as text and once as a number survives twice, and the
    second run, which drops the first of the two rows, finds no row
    labelled 0. *)
Example cleaned_batch_with_equal_keys :
  (data_cleaning_etapa1 (H := Demo.runtime) batch_mixed_keys
     ≫= get_col "concurso") = Ok [VInt 2500; VInt 2500] /\
  (data_cleaning_etapa1 (H := Demo.runtime) batch_mixed_keys
     ≫= data_cleaning_etapa1 (H := Demo.runtime)) = Raise KeyError.
Proof. split; reflexivity. Qed.

(** The first row decides which columns are dropped: when the range filter
    removes it, the second run reads another lottery and drops a column
    the first run kept. *)
Example second_run_drops_another_column :
  (out ← data_cleaning_etapa1 (H := Demo.runtime) batch_two_lotteries;
   Ok (index out, column_names out))
  = Ok ([0], ["loteria"; "concurso"; "data"; "proximoConcurso";
              "timeCoracao"; "dezenas"]) /\
  (out ← data_cleaning_etapa1 (H := Demo.runtime) batch_two_lotteries;
   out ← data_cleaning_etapa1 (H := Demo.runtime) out;
   Ok (index out, column_names out))
  = Ok ([0], ["loteria"; "concurso"; "data"; "proximoConcurso"; "dezenas"]).
Proof. split; reflexivity. Qed.

Section Deduplication.
Context `{PyRuntime}.

Lemma existsb_filter_by {A} (p : A -> bool) (mask : list bool) (l : list A) :
  existsb p l = false -> existsb p (filter_by mask l) = false.
Proof.
  revert l. induction mask as [|b m IH]; intros [|x l]; simpl; try reflexivity.
  intros E. apply orb_false_iff in E. destruct E as [E1 E2].
  destruct b; simpl; [rewrite E1; simpl|]; auto.
Qed.

(** After the removal no row has a later row with the same key. *)
Lemma keep_last_mask_deduplicated keys :
  Forall (fun b => b = true)
         (keep_last_mask (filter_by (keep_last_mask keys) keys)).
Proof.
  induction keys as [|k r IH]; simpl; [constructor|].
  destruct (existsb (key_eqb k) r) eqn:E; simpl; [exact IH|].
  constructor; [|exact IH].
  rewrite existsb_filter_by; [reflexivity | exact E].
Qed.

Lemma keep_last_mask_length keys : length (keep_last_mask keys) = length keys.
Proof. induction keys; simpl; auto. Qed.

Lemma select_rows_all mask df :
  wf df -> length mask = n_rows df -> Forall (fun b => b = true) mask ->
  select_rows mask df = df.
Proof.
  intros Hwf Hlen Hall. destruct df as [idx cs].
  unfold select_rows, wf, n_rows in *. simpl in *. f_equal.
  - now apply filter_by_true.
  - induction Hwf as [|[c vs] cs Hc Hwf IH]; simpl; [reflexivity|].
    simpl in Hc. f_equal; [|exact IH].
    f_equal. apply filter_by_true; [congruence | assumption].
Qed.

Lemma forallb_filter_by {A} (p : A -> bool) (mask : list bool) (l : list A) :
  forallb p l = true -> forallb p (filter_by mask l) = true.
Proof.
  revert l. induction mask as [|b m IH]; intros [|x l]; simpl; try reflexivity.
  intros E. apply andb_true_iff in E. destruct E as [E1 E2].
  destruct b; simpl; [rewrite E1; simpl|]; auto.
Qed.

Lemma SFcompare_antisym f g :
  SFcompare g f = option_map CompOpp (SFcompare f g).
Proof.
  destruct f as [s|s| |s m e], g as [t|t| |t n e']; simpl; try reflexivity;
    try (destruct s; reflexivity); try (destruct t; reflexivity);
    try (destruct s, t; reflexivity).
  change (Pos.compare_cont Eq n m) with (Pos.compare n m).
  change (Pos.compare_cont Eq m n) with (Pos.compare m n).
  rewrite (Z.compare_antisym e e'), (Pos.compare_antisym m n).
  destruct s, t; simpl; try reflexivity;
    destruct (e ?= e'); simpl; try reflexivity;
    destruct (m ?= n)%positive; reflexivity.
Qed.

Lemma number_eqb_sym a b : number_eqb a b = number_eqb b a.
Proof.
  destruct a, b; simpl; try reflexivity.
  - apply Z.eqb_sym.
  - unfold F64.eqb, SFeqb. rewrite (SFcompare_antisym f f0).
    destruct (SFcompare f f0) as [[]|]; reflexivity.
Qed.

Lemma py_eq_sym : forall a b, py_eq a b = py_eq b a.
Proof.
  fix IH 1. intros a b.
  destruct a, b; try reflexivity;
    try match goal with
        | |- py_eq ?x ?y = py_eq ?y ?x =>
            match eval cbv [as_number] in (as_number x, as_number y) with
            | (Some ?n, Some ?m) => exact (number_eqb_sym n m)
            end
        end.
  - apply String.eqb_sym.
  - simpl. revert l0. induction l as [|x l IHl]; intros [|y m]; try reflexivity.
    rewrite (IH x y). f_equal. apply IHl.
  - simpl. unfold timestamp_eqb.
    rewrite (Z.eqb_sym (ts_year t)), (Z.eqb_sym (ts_month t)),
      (Z.eqb_sym (ts_day t)), (Z.eqb_sym (ts_nanos t)). reflexivity.
Qed.

Lemma key_eqb_sym a b : key_eqb a b = key_eqb b a.
Proof.
  unfold key_eqb. rewrite (py_eq_sym a b). f_equal.
  destruct a, b; try reflexivity. apply andb_comm.
Qed.

Lemma count_true_cons_zero b m :
  count_true (b :: m) = 0%nat -> b = false /\ count_true m = 0%nat.
Proof.
  unfold count_true. simpl. destruct b; simpl; [discriminate | auto].
Qed.

Lemma duplicated_from_not_seen seen keys k :
  count_true (duplicated_from seen keys) = 0%nat ->
  In k seen -> existsb (key_eqb k) keys = false.
Proof.
  revert seen. induction keys as [|y r IH]; simpl; intros seen Hz Hin;
    [reflexivity|].
  apply count_true_cons_zero in Hz. destruct Hz as [Hy Hz].
  apply orb_false_iff. split.
  - rewrite key_eqb_sym.
    destruct (key_eqb y k) eqn:E; [|reflexivity].
    assert (Hex : existsb (key_eqb y) seen = true)
      by (apply existsb_exists; eauto).
    congruence.
  - apply (IH (seen ++ [y])%list Hz). apply in_or_app. now left.
Qed.

Lemma duplicated_from_none seen keys :
  count_true (duplicated_from seen keys) = 0%nat ->
  Forall (fun b => b = true) (keep_last_mask keys).
Proof.
  revert seen. induction keys as [|k r IH]; simpl; intros seen Hz;
    [constructor|].
  apply count_true_cons_zero in Hz. destruct Hz as [_ Hz].
  constructor; [|eapply IH; exact Hz].
  rewrite (duplicated_from_not_seen _ _ k Hz); [reflexivity|].
  apply in_or_app. right. now left.
Qed.

(** The removal of duplicates alone is idempotent: applied to a
    batch it has returned, it returns that batch unchanged, and in that
    batch no row is followed by a row with the same [concurso] key. *)
Theorem deduplication_is_idempotent (df dedup : DataFrame) :
  wf df ->
  remover_duplicatas df = Ok dedup ->
  remover_duplicatas dedup = Ok dedup /\
  exists keys, get_col "concurso" dedup = Ok keys /\
               Forall (fun b => b = true) (keep_last_mask keys).
Proof.
  intros Hwf Hd. unfold remover_duplicatas in Hd.
  inv_bind Hd. rename a into keys, Ha into Hkeys.
  unfold concurso_keys in Hkeys. inv_bind Hkeys. rename a into ks, Ha into Hks.
  destruct (forallb hashable ks) eqn:Hh; inversion Hkeys; subst keys.
  destruct (0 <? count_true (duplicated ks))%nat eqn:Hdup; inversion Hd; subst.
  - set (mask := keep_last_mask ks).
    pose proof (get_col_select_rows _ mask _ _ Hks) as Hks'.
    pose proof (keep_last_mask_deduplicated ks) as Hall. fold mask in Hall.
    split; [|eauto].
    unfold remover_duplicatas, concurso_keys. rewrite Hks'. cbn.
    rewrite (forallb_filter_by hashable mask ks Hh). cbn.
    match goal with |- (if ?c then _ else _) = _ => destruct c end;
      [|reflexivity].
    f_equal. apply select_rows_all.
    + now apply wf_select_rows.
    + rewrite keep_last_mask_length.
      eapply wf_get_col; [apply wf_select_rows; exact Hwf | exact Hks'].
    + exact Hall.
  - split.
    + unfold remover_duplicatas, concurso_keys. rewrite Hks. cbn.
      rewrite Hh. cbn. apply Nat.ltb_ge in Hdup.
      assert (Hz : count_true (duplicated ks) = 0%nat) by lia.
      rewrite Hz. reflexivity.
    + exists ks. split; [exact Hks|].
      apply Nat.ltb_ge in Hdup.
      apply (duplicated_from_none []). unfold duplicated in Hdup. lia.
Qed.

End Deduplication.

Lemma deduplication_is_idempotent_witness :
  remover_duplicatas (select_rows [false; true; true] batch_with_repeats)
  = Ok (select_rows [false; true; true] batch_with_repeats).
Proof.
  apply (deduplication_is_idempotent batch_with_repeats).
  - repeat constructor.
  - reflexivity.
Defined.

(** ** C7: a second run on a batch the stage has cleaned *)

Section Idempotence.
Context `{PyRuntime}.

Lemma mapR_fixed {A} (f : A -> result A) (l : list A) :
  Forall (fun x => f x = Ok x) l -> mapR f l = Ok l.
Proof.
  induction 1 as [|x l Hx Hl IH]; simpl; [reflexivity|].
  rewrite Hx, Ok_bind, IH. reflexivity.
Qed.

Lemma mapR_forallb {A B} (f : A -> result B) (p : B -> bool) l l' :
  (forall x y, f x = Ok y -> p y = true) ->
  mapR f l = Ok l' -> forallb p l' = true.
Proof.
  intros Hf. revert l'. induction l as [|x l IH]; simpl; intros l' E.
  - inversion E. reflexivity.
  - inv_bind E. inv_bind E. inversion E; subst. simpl.
    rewrite (Hf _ _ Ha), (IH _ Ha0). reflexivity.
Qed.

Lemma forallb_Forall_fixed {A} (p : A -> bool) (f : A -> result A) l :
  (forall x, p x = true -> f x = Ok x) ->
  forallb p l = true -> mapR f l = Ok l.
Proof.
  intros Hp Hall. apply mapR_fixed. apply List.Forall_forall.
  intros x Hin. apply Hp. rewrite forallb_forall in Hall. auto.
Qed.

Lemma to_numeric_coerce_numeric vs : numeric_column (to_numeric_coerce vs) = true.
Proof.
  unfold to_numeric_coerce, numeric_column.
  destruct (forallb is_bool vs) eqn:Eb; simpl; [now rewrite Eb|].
  destruct (forallb is_int_or_NA vs) eqn:Ei; simpl; [now rewrite Eb, Ei|].
  destruct (forallb is_NInt (map coerce_number vs)) eqn:En.
  - assert (Hi : forallb is_int_or_NA
                   (map (fun n => match n with NInt z => VInt z | NFloat f => VFloat f end)
                        (map coerce_number vs)) = true).
    { revert En. generalize (map coerce_number vs). intros ns.
      induction ns as [|[z|f] ns IH]; simpl; auto; discriminate. }
    rewrite Hi, orb_true_r. reflexivity.
  - assert (Hf : forallb is_float
                   (map (fun n => VFloat (number_to_float n)) (map coerce_number vs)) = true).
    { generalize (map coerce_number vs). intros ns. induction ns; simpl; auto. }
    rewrite Hf. apply orb_true_r.
Qed.

Lemma to_numeric_coerce_fixed vs :
  numeric_column vs = true -> to_numeric_coerce vs = vs.
Proof.
  unfold to_numeric_coerce, numeric_column. intros Hn.
  destruct (forallb is_bool vs || forallb is_int_or_NA vs) eqn:E; [reflexivity|].
  simpl in Hn. apply orb_false_iff in E. destruct E as [Eb Ei].
  assert (Hs : map coerce_number vs = map (fun v => match v with VFloat f => NFloat f | _ => NInt 0 end) vs
               /\ forallb is_NInt (map coerce_number vs) = false).
  { clear Eb. revert Ei. induction vs as [|v vs IH]; simpl; [discriminate|].
    simpl in Hn. apply andb_true_iff in Hn. destruct Hn as [Hv Hvs].
    destruct v; try discriminate. simpl. intros _.
    split; [|reflexivity]. f_equal.
    clear IH. induction vs as [|w vs IH]; simpl; [reflexivity|].
    simpl in Hvs. apply andb_true_iff in Hvs. destruct Hvs as [Hw Hvs].
    destruct w; try discriminate. simpl. f_equal. auto. }
  destruct Hs as [Hs Hnot]. rewrite Hnot, Hs. rewrite map_map.
  clear - Hn. induction vs as [|v vs IH]; simpl; [reflexivity|].
  simpl in Hn. apply andb_true_iff in Hn. destruct Hn as [Hv Hvs].
  destruct v; try discriminate. simpl. f_equal. auto.
Qed.

Lemma astype_Int64_typed vs vs' :
  astype_Int64 vs = Ok vs' -> forallb is_int_or_NA vs' = true.
Proof.
  apply mapR_forallb. intros x y. unfold astype_Int64_cell.
  destruct x; try discriminate; try (intros E; inversion E; reflexivity).
  destruct (F64.is_nan f); [intros E; inversion E; reflexivity|].
  destruct (F64.to_integer f); intros E; inversion E; reflexivity.
Qed.

Lemma astype_Int64_fixed vs :
  forallb is_int_or_NA vs = true -> astype_Int64 (to_numeric_coerce vs) = Ok vs.
Proof.
  intros Hall. unfold to_numeric_coerce. rewrite Hall, orb_true_r.
  apply (forallb_Forall_fixed is_int_or_NA); [|assumption].
  intros x Hx. destruct x; try discriminate; reflexivity.
Qed.

Lemma to_datetime_typed vs vs' :
  to_datetime vs = Ok vs' -> forallb is_ts_or_NaT vs' = true.
Proof.
  apply mapR_forallb. intros x y. unfold to_datetime_cell.
  destruct (isna x); [intros E; inversion E; reflexivity|].
  destruct x; try (destruct (parse_datetime _)); intros E; inversion E; reflexivity.
Qed.

Lemma to_datetime_fixed vs :
  forallb is_ts_or_NaT vs = true -> to_datetime vs = Ok vs.
Proof.
  apply (forallb_Forall_fixed is_ts_or_NaT).
  intros x Hx. destruct x; try discriminate; reflexivity.
Qed.

Lemma astype_boolean_typed vs vs' :
  astype_boolean vs = Ok vs' -> forallb is_bool_or_NA vs' = true.
Proof.
  apply mapR_forallb. intros x y. unfold astype_boolean_cell.
  destruct (isna x); [intros E; inversion E; reflexivity|].
  destruct x; simpl;
    repeat match goal with
           | |- context [if ?c then _ else _] => destruct c
           end; intros E; inversion E; reflexivity.
Qed.

Lemma astype_boolean_fixed vs :
  forallb is_bool_or_NA vs = true -> astype_boolean vs = Ok vs.
Proof.
  apply (forallb_Forall_fixed is_bool_or_NA).
  intros x Hx. destruct x; try discriminate; reflexivity.
Qed.

Lemma assoc_set_id {A} c (v : A) l : assoc c l = Some v -> assoc_set c v l = l.
Proof.
  induction l as [|[k u] l IH]; simpl; [discriminate|].
  destruct (String.eqb_spec c k) as [->|Hne]; intros E.
  - now inversion E.
  - f_equal. auto.
Qed.

Lemma set_col_same c vs df : get_col c df = Ok vs -> set_col c vs df = df.
Proof.
  intros E. apply get_col_assoc in E. destruct df as [idx cs].
  unfold set_col. simpl in *. f_equal. now apply assoc_set_id.
Qed.

Lemma get_col_set_col c c' vs df :
  get_col c' (set_col c vs df)
  = if String.eqb c' c then Ok vs else get_col c' df.
Proof.
  unfold get_col, set_col. simpl.
  destruct (String.eqb_spec c' c) as [->|Hne].
  - now rewrite assoc_set_same.
  - now rewrite assoc_set_other.
Qed.

Lemma typed_on_set_col (P : string -> Prop) c vs df :
  typed_on P df -> col_typed c vs = true ->
  typed_on (fun x => x = c \/ P x) (set_col c vs df).
Proof.
  intros Ht Hc c' vs' Hp E. rewrite get_col_set_col in E.
  destruct (String.eqb_spec c' c) as [->|Hne].
  - now inversion E; subst.
  - destruct Hp as [->|Hp]; [contradiction|]. eapply Ht; eassumption.
Qed.

Lemma typed_on_update_col (P : string -> Prop) f c df :
  typed_on P df -> (forall vs, col_typed c (f vs) = true) ->
  typed_on (fun x => x = c \/ P x) (update_col f c df).
Proof.
  intros Ht Hf. unfold update_col.
  destruct (assoc c (cols df)) as [vs|] eqn:E.
  - apply typed_on_set_col; auto.
  - intros c' vs' [->|Hp] E'.
    + apply get_col_assoc in E'. congruence.
    + eapply Ht; eassumption.
Qed.

Lemma typed_on_weaken (P Q : string -> Prop) df :
  (forall c, Q c -> P c) -> typed_on P df -> typed_on Q df.
Proof. intros Hpq Ht c vs Hq. apply Ht. auto. Qed.

Lemma typed_on_fold_update (P : string -> Prop) f names df :
  typed_on P df ->
  (forall c vs, In c names -> col_typed c (f vs) = true) ->
  typed_on (fun x => In x names \/ P x)
           (fold_left (fun df c => update_col f c df) names df).
Proof.
  revert P df. induction names as [|c names IH]; simpl; intros P df Ht Hf.
  - eapply typed_on_weaken; [|exact Ht]. intros c [[]|Hp]. exact Hp.
  - eapply typed_on_weaken;
      [|apply (IH (fun x => x = c \/ P x));
        [apply typed_on_update_col; [exact Ht | intros vs; apply Hf; now left]
        |intros c' vs Hin; apply Hf; now right]].
    simpl. intros x [[<-|Hin]|Hp]; auto.
Qed.

Lemma col_typed_other c vs : ~ typed_name c -> col_typed c vs = true.
Proof.
  unfold typed_name, col_typed. simpl. intros Hn.
  repeat match goal with
         | |- context [String.eqb c ?k] =>
             destruct (String.eqb_spec c k); [exfalso; apply Hn; subst; tauto|]
         end.
  reflexivity.
Qed.

Lemma typed_of_typed_names df : typed_on typed_name df -> typed df.
Proof.
  intros Ht c vs _ E.
  destruct (in_dec string_dec c
              (["concurso"; "data"; "proximoConcurso"] ++ cols_monetarias ++ ["acumulou"])%list)
    as [Hin|Hout].
  - eapply Ht; eassumption.
  - now apply col_typed_other.
Qed.

Lemma converter_tipos_typed df df' : converter_tipos df = Ok df' -> typed df'.
Proof.
  unfold converter_tipos. intros Hc.
  inv_bind Hc. rename a into c0, Ha into Hc0.
  inv_bind Hc. rename a into c1, Ha into Hc1.
  inv_bind Hc. rename a into d0, Ha into Hd0.
  inv_bind Hc. rename a into d1, Ha into Hd1.
  inv_bind Hc. rename a into p0, Ha into Hp0.
  inv_bind Hc. rename a into p1, Ha into Hp1.
  set (df1 := set_col "concurso" c1 df) in *.
  set (df2 := set_col "data" d1 df1) in *.
  set (df3 := set_col "proximoConcurso" p1 df2) in *.
  assert (H0 : typed_on (fun _ => False) df) by (intros c vs []).
  pose proof (typed_on_set_col _ "concurso" c1 df H0
                (astype_Int64_typed _ _ Hc1)) as H1. fold df1 in H1.
  pose proof (typed_on_set_col _ "data" d1 df1 H1
                (to_datetime_typed _ _ Hd1)) as H2. fold df2 in H2.
  pose proof (typed_on_set_col _ "proximoConcurso" p1 df2 H2
                (to_datetime_typed _ _ Hp1)) as H3. fold df3 in H3.
  pose proof (typed_on_fold_update _ to_numeric_coerce cols_monetarias df3 H3)
    as H4.
  assert (Hmon : forall c vs, In c cols_monetarias ->
                              col_typed c (to_numeric_coerce vs) = true).
  { intros c vs Hin. simpl in Hin.
    destruct Hin as [<-|[<-|[<-|[<-|[<-|[]]]]]];
      apply to_numeric_coerce_numeric. }
  specialize (H4 Hmon).
  set (df4 := fold_left _ cols_monetarias df3) in *.
  apply typed_of_typed_names.
  destruct (assoc "acumulou" (cols df4)) as [vs|] eqn:Ea.
  - inv_bind Hc. inversion Hc; subst.
    eapply typed_on_weaken;
      [|apply (typed_on_set_col _ "acumulou" a df4 H4
                 (astype_boolean_typed _ _ Ha))].
    unfold typed_name. simpl. intros c Hin.
    intuition (subst; auto 10).
  - inversion Hc; subst. intros c vs Hn E.
    unfold typed_name in Hn. simpl in Hn.
    destruct (String.eqb_spec c "acumulou") as [->|Hne].
    + apply get_col_assoc in E. congruence.
    + eapply H4; [|exact E]. simpl. intuition (subst; auto 10).
Qed.

Lemma col_typed_filter_by c mask vs :
  col_typed c vs = true -> col_typed c (filter_by mask vs) = true.
Proof.
  unfold col_typed, numeric_column.
  repeat match goal with
         | |- context [if ?b then _ else _] => destruct b
         end; auto using forallb_filter_by.
  intros E. apply orb_true_iff in E. destruct E as [E|E];
    [apply orb_true_iff in E; destruct E as [E|E]|];
    rewrite (forallb_filter_by _ mask _ E); auto using orb_true_r.
  now rewrite orb_true_r.
Qed.

Lemma get_col_select_rows_inv c mask df vs' :
  get_col c (select_rows mask df) = Ok vs' ->
  exists vs, get_col c df = Ok vs /\ vs' = filter_by mask vs.
Proof.
  destruct (get_col c df) as [vs|e] eqn:E.
  - rewrite (get_col_select_rows _ mask _ _ E). intros E'. inversion E'. eauto.
  - unfold get_col, select_rows in *. simpl.
    destruct (assoc c (cols df)) eqn:Ea; [discriminate|].
    assert (Hn : assoc c (map (fun kv => (fst kv, filter_by mask (snd kv))) (cols df)) = None).
    { clear E. induction (cols df) as [|[k u] l IH]; simpl in *; [reflexivity|].
      destruct (String.eqb c k); [discriminate | auto]. }
    rewrite Hn. discriminate.
Qed.

Lemma typed_select_rows mask df : typed df -> typed (select_rows mask df).
Proof.
  intros Ht c vs' _ E. apply get_col_select_rows_inv in E.
  destruct E as (vs & E & ->). apply col_typed_filter_by.
  eapply Ht; [exact I | exact E].
Qed.

Lemma typed_reset_index df : typed df -> typed (reset_index df).
Proof. intros Ht c vs Hp E. eapply Ht; [exact Hp | exact E]. Qed.

Lemma typed_normalizacao df : typed df -> typed (aplicar_normalizacao_listas df).
Proof.
  intros Ht. unfold aplicar_normalizacao_listas.
  pose proof (typed_on_fold_update _ (map normalizar_lista) colunas_listas df Ht)
    as Hf.
  eapply typed_on_weaken; [|apply Hf].
  - intros c _. now right.
  - intros c vs Hin. simpl in Hin.
    destruct Hin as [<-|[<-|[<-|[<-|[]]]]]; reflexivity.
Qed.

Lemma update_col_fixed f c df :
  (forall vs, get_col c df = Ok vs -> f vs = vs) -> update_col f c df = df.
Proof.
  intros Hf. unfold update_col.
  destruct (assoc c (cols df)) as [vs|] eqn:E; [|reflexivity].
  apply get_col_assoc in E. rewrite (Hf _ E). now apply set_col_same.
Qed.

Lemma fold_update_col_fixed f names df :
  (forall c vs, In c names -> get_col c df = Ok vs -> f vs = vs) ->
  fold_left (fun df c => update_col f c df) names df = df.
Proof.
  induction names as [|c names IH]; simpl; intros Hf; [reflexivity|].
  rewrite update_col_fixed by (intros vs; apply Hf; now left).
  apply IH. intros c' vs Hin. apply Hf. now right.
Qed.

Lemma converter_tipos_fixed df c d p :
  typed df ->
  get_col "concurso" df = Ok c -> get_col "data" df = Ok d ->
  get_col "proximoConcurso" df = Ok p ->
  converter_tipos df = Ok df.
Proof.
  intros Ht Hc Hd Hp. unfold converter_tipos.
  rewrite Hc, Ok_bind.
  rewrite (astype_Int64_fixed c) by exact (Ht _ _ I Hc).
  rewrite Ok_bind, (set_col_same _ _ _ Hc), Hd, Ok_bind.
  rewrite (to_datetime_fixed d) by exact (Ht _ _ I Hd).
  rewrite Ok_bind, (set_col_same _ _ _ Hd), Hp, Ok_bind.
  rewrite (to_datetime_fixed p) by exact (Ht _ _ I Hp).
  rewrite Ok_bind, (set_col_same _ _ _ Hp).
  rewrite fold_update_col_fixed.
  - destruct (assoc "acumulou" (cols df)) as [vs|] eqn:Ea; [|reflexivity].
    apply get_col_assoc in Ea.
    rewrite (astype_boolean_fixed vs) by exact (Ht _ _ I Ea).
    rewrite Ok_bind, (set_col_same _ _ _ Ea). reflexivity.
  - intros m vs Hin Hm. apply to_numeric_coerce_fixed.
    pose proof (Ht _ _ I Hm) as Hty. unfold col_typed in Hty.
    simpl in Hin.
    repeat (destruct Hin as [<-|Hin]; [exact Hty|]). destruct Hin.
Qed.

Lemma normalizacao_fixed df :
  (forall c vs, In c colunas_listas -> get_col c df = Ok vs ->
                forallb is_list_or_none vs = true) ->
  aplicar_normalizacao_listas df = df.
Proof.
  intros Hl. unfold aplicar_normalizacao_listas.
  apply fold_update_col_fixed. intros c vs Hin Hc.
  specialize (Hl _ _ Hin Hc). clear Hc.
  induction vs as [|v vs IH]; simpl in *; [reflexivity|].
  apply andb_true_iff in Hl. destruct Hl as [Hv Hvs].
  f_equal; [|auto]. destruct v; try discriminate; reflexivity.
Qed.

Lemma int_or_NA_hashable vs :
  forallb is_int_or_NA vs = true -> forallb hashable vs = true.
Proof.
  induction vs as [|v vs IH]; simpl; [reflexivity|]. intros E.
  apply andb_true_iff in E. destruct E as [Hv Hvs].
  rewrite (IH Hvs), andb_true_r. destruct v; try discriminate; reflexivity.
Qed.

Lemma remover_duplicatas_fixed df keys :
  typed df -> get_col "concurso" df = Ok keys ->
  count_true (duplicated keys) = 0%nat ->
  remover_duplicatas df = Ok df.
Proof.
  intros Ht Hk Hz. unfold remover_duplicatas, concurso_keys.
  rewrite Hk, Ok_bind.
  rewrite (int_or_NA_hashable keys) by exact (Ht _ _ I Hk).
  rewrite Ok_bind, Hz. reflexivity.
Qed.

Lemma drop_cols_nil df : drop_cols [] df = df.
Proof.
  destruct df as [idx cs]. unfold drop_cols. simpl. f_equal.
  induction cs as [|kv cs IH]; simpl; [reflexivity|]. now rewrite IH.
Qed.

Lemma filter_none {A} (p : A -> bool) (l : list A) :
  (forall x, In x l -> p x = false) -> List.filter p l = [].
Proof.
  induction l as [|x l IH]; simpl; intros Hp; [reflexivity|].
  rewrite (Hp x) by now left. apply IH. intros y Hy. apply Hp. now right.
Qed.

Lemma existsb_filter_rejected (p : string -> bool) c (l : list string) :
  p c = false -> existsb (String.eqb c) (List.filter p l) = false.
Proof.
  intros Hp. induction l as [|d l IH]; simpl; [reflexivity|].
  destruct (p d) eqn:Ed; simpl; [|exact IH].
  destruct (String.eqb_spec c d) as [->|Hne]; [congruence | exact IH].
Qed.

Lemma drop_colunas_fixed df lot :
  first_loteria df = Ok lot ->
  (forall c, In c (colunas_drop lot) -> has_col c df = false) ->
  drop_colunas_por_loteria df = Ok df.
Proof.
  intros Hf Hnone. unfold drop_colunas_por_loteria.
  rewrite Hf, Ok_bind, (filter_none _ _ Hnone), drop_cols_nil. reflexivity.
Qed.

Lemma filter_by_later_labels {A} (s : Z) (k : nat) (l : list A) :
  0 < s -> filter_by (map (Z.eqb 0) (range_from s k)) l = [].
Proof.
  revert s l. induction k as [|k IH]; intros s [|x l] Hs;
    cbn [range_from map filter_by]; try reflexivity.
  destruct (Z.eqb_spec 0 s); [lia|]. apply IH. lia.
Qed.

Lemma mapR_all_true {A} (f : A -> result bool) (l : list A) :
  Forall (fun x => f x = Ok true) l -> mapR f l = Ok (map (fun _ => true) l).
Proof.
  induction 1 as [|x l Hx Hl IH]; simpl; [reflexivity|].
  rewrite Hx, Ok_bind, IH. reflexivity.
Qed.

Lemma reset_index_fixed df k :
  index df = range_from 0 k -> reset_index df = df.
Proof.
  destruct df as [idx cs]. unfold reset_index, n_rows. simpl. intros ->.
  now rewrite range_from_length.
Qed.

Lemma validar_dezenas_fixed df k n dz :
  wf df -> index df = range_from 0 (S k) ->
  get_col "dezenas" df = Ok dz ->
  forallb (has_expected_count n) dz = true ->
  Forall (fun r => linha_valida r = Ok true) (rows_of df) ->
  validar_dezenas df = Ok df.
Proof.
  intros Hwf Hidx Hdz Hn Hrows.
  assert (Hrowsn : n_rows df = S k).
  { unfold n_rows. now rewrite Hidx, range_from_length. }
  pose proof (wf_get_col _ _ _ Hwf Hdz) as Hlen. rewrite Hrowsn in Hlen.
  destruct dz as [|d0 rest]; [discriminate|].
  assert (Hcount : expected_count_of df = Ok n).
  { unfold expected_count_of. rewrite Hdz, Ok_bind, Hidx. simpl.
    rewrite filter_by_later_labels by lia.
    simpl in Hn. apply andb_true_iff in Hn. destruct Hn as [Hd0 _].
    destruct d0; try discriminate. simpl in *.
    apply Nat.eqb_eq in Hd0. now rewrite Hd0. }
  unfold validar_dezenas. rewrite Hcount, Ok_bind, Hdz, Ok_bind.
  rewrite select_rows_all; [|assumption| |].
  - unfold filtrar_intervalo. rewrite Hidx. simpl range_from. cbv iota.
    rewrite (mapR_all_true _ _ Hrows), Ok_bind.
    rewrite select_rows_all; [|assumption| |].
    + rewrite Ok_bind. f_equal. eapply reset_index_fixed. exact Hidx.
    + now rewrite length_map, rows_of_length.
    + apply List.Forall_map. apply List.Forall_forall. reflexivity.
  - now rewrite length_map, Hrowsn.
  - apply List.Forall_map. apply List.Forall_forall. intros x Hx.
    apply forallb_forall with (x := x) in Hn; assumption.
Qed.

Lemma get_col_has_col c df vs : get_col c df = Ok vs -> has_col c df = true.
Proof.
  intros E. apply get_col_assoc in E. now rewrite has_col_assoc, E.
Qed.

Lemma has_col_get_col c df :
  has_col c df = true -> exists vs, get_col c df = Ok vs.
Proof.
  rewrite has_col_assoc. unfold get_col.
  destruct (assoc c (cols df)) as [vs|]; [eauto | discriminate].
Qed.

Lemma has_col_names c df df' :
  column_names df' = column_names df -> has_col c df' = has_col c df.
Proof. unfold has_col. now intros ->. Qed.

Lemma converter_tipos_needs df df' :
  converter_tipos df = Ok df' ->
  has_col "concurso" df = true /\ has_col "data" df = true /\
  has_col "proximoConcurso" df = true.
Proof.
  unfold converter_tipos. intros Hc.
  inv_bind Hc. rename a into c0, Ha into Hc0.
  inv_bind Hc. rename a into c1, Ha into Hc1.
  inv_bind Hc. rename a into d0, Ha into Hd0.
  inv_bind Hc. rename a into d1, Ha into Hd1.
  inv_bind Hc. rename a into p0, Ha into Hp0.
  rewrite !get_col_set_col in Hp0. rewrite get_col_set_col in Hd0.
  simpl in Hp0, Hd0.
  repeat split; eapply get_col_has_col; eassumption.
Qed.

Lemma validar_dezenas_inv df out :
  validar_dezenas df = Ok out -> index out <> [] ->
  exists n dz mask,
    get_col "dezenas" df = Ok dz /\
    mapR linha_valida
         (rows_of (select_rows (map (has_expected_count n) dz) df)) = Ok mask /\
    out = reset_index
            (select_rows mask (select_rows (map (has_expected_count n) dz) df)).
Proof.
  unfold validar_dezenas. intros Hv Hne.
  inv_bind Hv. rename a into n, Ha into Hn.
  inv_bind Hv. rename a into dz, Ha into Hdz.
  inv_bind Hv. rename a into df2, Ha into Hf.
  inversion Hv; subst. clear Hv.
  assert (Hidx : index df2 <> []).
  { intros E. apply Hne. unfold reset_index, n_rows. simpl. now rewrite E. }
  unfold filtrar_intervalo in Hf.
  set (df1 := select_rows (map (has_expected_count n) dz) df) in *.
  destruct (index df1) as [|i0 idx] eqn:Ei.
  - exfalso. apply Hidx.
    destruct (has_col "loteria" df1); inversion Hf; subst; [reflexivity | exact Ei].
  - inv_bind Hf. inversion Hf; subst. exists n, dz, a. auto.
Qed.

Lemma pruned_columns_absent df lot c :
  In c (colunas_drop lot) ->
  existsb (String.eqb c)
    (column_names
       (drop_cols (List.filter (fun c => has_col c df) (colunas_drop lot)) df))
  = false.
Proof.
  intros Hin. unfold column_names, drop_cols. simpl.
  set (names := List.filter (fun c => has_col c df) (colunas_drop lot)).
  rewrite (names_filter (fun c => negb (existsb (String.eqb c) names))).
  destruct (has_col c df) eqn:Hc.
  - apply existsb_filter_rejected. apply negb_false_iff.
    apply existsb_exists. exists c. split; [|apply String.eqb_refl].
    apply filter_In. auto.
  - apply existsb_filter_absent. exact Hc.
Qed.

(** C7.  A batch the cleaning stage returns is returned unchanged by a
    second run of the stage, when it has at least one row, its first row
    names the same lottery as the first row of the batch it came from, no
    two of its rows share a [concurso] after the conversion to numbers, and
    the cells of its list columns are lists or [None]. *)
Theorem cleaning_is_idempotent_on_its_clean_output (df out : DataFrame) :
  wf df ->
  data_cleaning_etapa1 df = Ok out ->
  index out <> [] ->
  first_loteria out = first_loteria df ->
  (forall keys, get_col "concurso" out = Ok keys ->
                count_true (duplicated keys) = 0%nat) ->
  (forall c vs, In c colunas_listas -> get_col c out = Ok vs ->
                forallb is_list_or_none vs = true) ->
  data_cleaning_etapa1 out = Ok out.
Proof.
  intros Hwf Hc Hne Hlot Hkeys Hlists.
  unfold data_cleaning_etapa1 in Hc.
  inv_bind Hc. rename a into pruned, Ha into Hp.
  inv_bind Hc. rename a into conv, Ha into Ht.
  inv_bind Hc. rename a into out', Ha into Hv.
  inversion Hc; subst out'. clear Hc.
  pose proof (drop_colunas_wf _ _ Hp Hwf) as Hwfp.
  unfold tratar_tipos_e_colunas in Ht.
  inv_bind Ht. rename a into dedup, Ha into Hd.
  destruct (remover_duplicatas_keeps _ _ Hd Hwfp) as [Hwfd Hnd].
  destruct (converter_tipos_keeps _ _ Ht Hwfd) as [Hwfc [Hnc _]].
  destruct (aplicar_normalizacao_keeps conv Hwfc) as [Hwfn [Hnn _]].
  pose proof (validar_dezenas_names _ _ Hv Hne) as Hno.
  assert (Hnames : column_names out = column_names pruned) by congruence.
  assert (Hnconv : column_names out = column_names conv) by congruence.
  assert (Hty : typed out).
  { destruct (validar_dezenas_inv _ _ Hv Hne) as (n & dz & mask & _ & _ & ->).
    apply typed_reset_index. do 2 apply typed_select_rows.
    apply typed_normalizacao. eapply converter_tipos_typed. exact Ht. }
  (* the first step finds nothing to drop *)
  assert (Hdrop : drop_colunas_por_loteria out = Ok out).
  { unfold drop_colunas_por_loteria in Hp. inv_bind Hp.
    inversion Hp; subst pruned. rename a into lot.
    apply (drop_colunas_fixed out lot); [congruence|].
    intros c Hin. unfold has_col. rewrite Hnames.
    now apply pruned_columns_absent. }
  (* the conversions find their columns, already converted *)
  destruct (converter_tipos_needs _ _ Ht) as (Hc1 & Hc2 & Hc3).
  assert (Hnod : column_names out = column_names dedup) by congruence.
  rewrite <- (has_col_names "concurso" _ _ Hnod) in Hc1.
  rewrite <- (has_col_names "data" _ _ Hnod) in Hc2.
  rewrite <- (has_col_names "proximoConcurso" _ _ Hnod) in Hc3.
  apply has_col_get_col in Hc1, Hc2, Hc3.
  destruct Hc1 as [c Hc1], Hc2 as [d Hc2], Hc3 as [p Hc3].
  assert (Htratar : tratar_tipos_e_colunas out = Ok out).
  { unfold tratar_tipos_e_colunas.
    rewrite (remover_duplicatas_fixed out c Hty Hc1 (Hkeys _ Hc1)), Ok_bind.
    eapply converter_tipos_fixed; eassumption. }
  (* the rows were all validated *)
  assert (Hval : validar_dezenas out = Ok out).
  { destruct (validar_dezenas_inv _ _ Hv Hne) as (n & dz & mask & Hdz & Hm & Ho).
    set (normal := aplicar_normalizacao_listas conv) in *.
    set (df1 := select_rows (map (has_expected_count n) dz) normal) in *.
    set (df2 := select_rows mask df1) in *.
    assert (Hwf1 : wf df1) by now apply wf_select_rows.
    assert (Hwf2 : wf df2) by now apply wf_select_rows.
    assert (Hwfo : wf out) by (rewrite Ho; now apply wf_reset_index).
    assert (Hk : exists k, index out = range_from 0 (S k)).
    { rewrite Ho in Hne |- *. unfold reset_index in *. simpl in *.
      destruct (n_rows df2) as [|k]; [now elim Hne | eauto]. }
    destruct Hk as [k Hk].
    assert (Hdzo : get_col "dezenas" out
                   = Ok (filter_by mask (filter_by (map (has_expected_count n) dz) dz))).
    { rewrite Ho. change (get_col "dezenas" (reset_index df2))
        with (get_col "dezenas" df2).
      unfold df2, df1. now do 2 apply get_col_select_rows. }
    apply (validar_dezenas_fixed out k n _ Hwfo Hk Hdzo).
    - apply forallb_filter_by. apply forallb_forall.
      apply List.Forall_forall. apply filter_by_Forall.
    - rewrite Ho, rows_of_reset_index. unfold df2.
      rewrite rows_of_select_rows; [|assumption|].
      + apply List.Forall_forall. intros r Hr.
        eapply mapR_filter_by; eassumption.
      + apply mapR_length in Hm. now rewrite Hm, rows_of_length. }
  unfold data_cleaning_etapa1.
  rewrite Hdrop, Ok_bind, Htratar, Ok_bind.
  rewrite (normalizacao_fixed out Hlists), Hval. reflexivity.
Qed.

End Idempotence.

Lemma cleaning_is_idempotent_on_its_clean_output_witness :
  data_cleaning_etapa1 (H := Demo.runtime) batch_megasena_cleaned
  = Ok batch_megasena_cleaned.
Proof.
  apply (@cleaning_is_idempotent_on_its_clean_output Demo.runtime
           batch_megasena batch_megasena_cleaned).
  - repeat constructor.
  - reflexivity.
  - discriminate.
  - reflexivity.
  - intros keys E. vm_compute in E. injection E as <-. reflexivity.
  - intros c vs Hin E. simpl in Hin.
    repeat (destruct Hin as [<-|Hin];
            [vm_compute in E; try discriminate; injection E as <-; reflexivity|]).
    destruct Hin.
Defined.

(** ** The scenarios of the specification, run *)

Example batch_megasena_is_cleaned :
  data_cleaning_etapa1 (H := Demo.runtime) batch_megasena
  = Ok batch_megasena_cleaned.
Proof. reflexivity. Qed.



(** ** C4: the ratio of the estimated to the accumulated prize *)

Section Razao.
Context `{PyRuntime}.


End Razao.


Example razao_of_the_scenarios :
  map calcular_razao
      [row_six_over_four;
       [("valorAcumuladoProximoConcurso", VFloat (S754_zero true));
        ("valorEstimadoProximoConcurso", VInt 5)];
       [("valorAcumuladoProximoConcurso", VNaN);
        ("valorEstimadoProximoConcurso", VInt 5)];
       [("valorAcumuladoProximoConcurso", VInt 2);
        ("valorEstimadoProximoConcurso", VNaN)];
       [("valorAcumuladoProximoConcurso", VInt 2);
        ("valorEstimadoProximoConcurso", VInt 1)]]
  = [Ok (VFloat (S754_finite false 6755399441055744 (-52)));
     Ok VNone; Ok VNone; Ok VNone;
     Ok (VFloat (S754_finite false 4503599627370496 (-53)))].
Proof. reflexivity. Qed.

(** ** C6: the mean prize when nobody won *)

Section MediaPremio.
Context `{PyRuntime}.





End MediaPremio.


(** ** C9: which table a stage writes *)

Section Ownership.
Context `{PyRuntime}.

Lemma deref_Ok l (h : heap) df : deref l h = Ok df <-> h !! l = Some df.
Proof.
  unfold deref. destruct (h !! l); split; intros E; inversion E; reflexivity.
Qed.

Lemma in_place_inv f l h l' h' :
  in_place f l h = Ok (l', h') ->
  exists df df', h !! l = Some df /\ f df = Ok df' /\
                 l' = l /\ h' = <[l := df']> h.
Proof.
  unfold in_place. intros E. inv_bind E. inv_bind E. inversion E; subst.
  apply deref_Ok in Ha. eauto 8.
Qed.

Lemma fresh_inv f l h l' h' :
  fresh f l h = Ok (l', h') ->
  exists df df', h !! l = Some df /\ f df = Ok df' /\
                 l' = length h /\ h' = (h ++ [df'])%list.
Proof.
  unfold fresh, alloc. intros E. inv_bind E. inv_bind E. inversion E; subst.
  apply deref_Ok in Ha. eauto 8.
Qed.

Lemma In_names_set_col c c' vs df :
  In c (column_names df) -> In c (column_names (set_col c' vs df)).
Proof.
  unfold column_names, set_col. simpl.
  induction (cols df) as [|[k u] l IH]; simpl; [tauto|].
  destruct (String.eqb c' k); simpl; tauto.
Qed.

Lemma In_names_set_col_same c vs df : In c (column_names (set_col c vs df)).
Proof.
  unfold column_names, set_col. simpl.
  induction (cols df) as [|[k u] l IH]; simpl; [tauto|].
  destruct (String.eqb_spec c k) as [->|]; simpl; tauto.
Qed.

Lemma In_names_drop_cols c names df :
  existsb (String.eqb c) names = false ->
  In c (column_names df) -> In c (column_names (drop_cols names df)).
Proof.
  intros Hc. unfold column_names, drop_cols. simpl.
  induction (cols df) as [|[k u] l IH]; simpl; [tauto|].
  intros [->|Hin]; simpl.
  - rewrite Hc. simpl. now left.
  - destruct (negb _); simpl; auto.
Qed.

Lemma fold_set_col_names {A} c (g : A -> string) (v : A -> list pyval) (l : list A) df :
  In c (column_names df) ->
  In c (column_names (fold_left (fun df i => set_col (g i) (v i) df) l df)).
Proof.
  revert df. induction l as [|x l IH]; simpl; intros df Hin; [exact Hin|].
  apply IH. now apply In_names_set_col.
Qed.

Lemma criar_features_datas_names df df' :
  criar_features_datas df = Ok df' -> In "data_dia" (column_names df').
Proof.
  unfold criar_features_datas. intros E.
  inv_bind E. inv_bind E. inv_bind E. inv_bind E. inversion E; subst.
  do 7 apply In_names_set_col. apply In_names_set_col_same.
Qed.

Lemma expandir_dezenas_names c df df' :
  c <> "qtd_dezenas" ->
  expandir_dezenas df = Ok df' ->
  In c (column_names df) -> In c (column_names df').
Proof.
  unfold expandir_dezenas. intros Hc E Hin. inv_bind E.
  destruct (map _ a) eqn:Em; [discriminate|]. inversion E; subst.
  apply In_names_drop_cols.
  - simpl. destruct (String.eqb_spec c "qtd_dezenas"); [contradiction | reflexivity].
  - apply (fold_set_col_names c (fun i => "dezena_" +:+ pretty (S i))).
    now apply In_names_set_col.
Qed.

Lemma separar_local_names c df df' :
  c <> "resto" ->
  separar_local df = Ok df' ->
  In c (column_names df) -> In c (column_names df').
Proof.
  unfold separar_local. intros Hc E Hin.
  destruct (negb (has_col "local" df)); [inversion E; subst; exact Hin|].
  inv_bind E. inv_bind E. destruct a0 as [nome_local resto].
  inv_bind E. inv_bind E. destruct a1 as [cidade estado].
  inversion E; subst.
  apply In_names_drop_cols.
  - simpl. destruct (String.eqb_spec c "resto"); [contradiction | reflexivity].
  - now do 4 apply In_names_set_col.
Qed.

Lemma reparse_premiacoes_names c df df' :
  reparse_premiacoes df = Ok df' ->
  In c (column_names df) -> In c (column_names df').
Proof.
  unfold reparse_premiacoes. intros E Hin. inv_bind E. inv_bind E.
  inversion E; subst. now apply In_names_set_col.
Qed.

(** C9.  [feature_engineering_etapa2] does not work on a copy: when it
    returns, the table the caller passed has been changed, it holds the
    column [data_dia] (and the other columns added before [pd.concat]),
    and the table returned is another object. *)
Theorem feature_stage_changes_the_table_passed_in
  (h h' : heap) (l l' : ref) (df : DataFrame) :
  h !! l = Some df ->
  feature_engineering_etapa2_obj l h = Ok (l', h') ->
  l' <> l /\
  exists changed,
    h' !! l = Some changed /\ In "data_dia" (column_names changed).
Proof.
  intros Hl E. unfold feature_engineering_etapa2_obj in E.
  inv_bind E. destruct a as [l1 h1].
  apply in_place_inv in Ha. destruct Ha as (d0 & d1 & Hd0 & Hf1 & -> & ->).
  inv_bind E. destruct a as [l2 h2].
  apply in_place_inv in Ha. destruct Ha as (d1' & d2 & Hd1 & Hf2 & -> & ->).
  inv_bind E. destruct a as [l3 h3].
  apply in_place_inv in Ha. destruct Ha as (d2' & d3 & Hd2 & Hf3 & -> & ->).
  inv_bind E. destruct a as [l4 h4].
  unfold aplicar_expansao_premiacoes_obj in Ha.
  inv_bind Ha. destruct a as [l3' h3'].
  apply in_place_inv in Ha0. destruct Ha0 as (d3' & d4 & Hd3 & Hf4 & -> & ->).
  apply fresh_inv in Ha. destruct Ha as (d4' & d5 & Hd4 & Hf5 & -> & ->).
  inv_bind E. destruct a as [l5 h5].
  apply in_place_inv in Ha. destruct Ha as (d5' & d6 & Hd5 & Hf6 & -> & ->).
  inv_bind E. destruct a as [l6 h6].
  apply in_place_inv in Ha. destruct Ha as (d6' & d7 & Hd6 & Hf7 & -> & ->).
  inversion E; subst. clear E.
  assert (Hlt : (l < length h)%nat) by (eapply lookup_lt_Some; eassumption).
  rewrite !length_insert.
  split; [lia|].
  assert (Hlt1 : (l < length (<[l:=d1]> h))%nat) by now rewrite length_insert.
  rewrite list_lookup_insert_eq in Hd1 by assumption.
  injection Hd1 as <-.
  rewrite list_lookup_insert_eq in Hd2 by now rewrite length_insert.
  injection Hd2 as <-.
  rewrite list_lookup_insert_eq in Hd3 by now rewrite !length_insert.
  injection Hd3 as <-.
  exists d4. split.
  - rewrite !list_lookup_insert_ne by lia.
    rewrite lookup_app_l by now rewrite !length_insert.
    apply list_lookup_insert_eq. now rewrite !length_insert.
  - rewrite Hl in Hd0. injection Hd0 as <-.
    eapply reparse_premiacoes_names; [eassumption|].
    eapply separar_local_names; [discriminate | eassumption|].
    eapply expandir_dezenas_names; [discriminate | eassumption|].
    eapply criar_features_datas_names; eassumption.
Qed.


Lemma in_place_result f l (h : heap) l' h' :
  in_place f l h = Ok (l', h') ->
  exists df df',
    h !! l = Some df /\ f df = Ok df' /\ l' = l /\
    length h' = length h /\ h' !! l' = Some df' /\
    forall i, i <> l -> h' !! i = h !! i.
Proof.
  intros E. apply in_place_inv in E.
  destruct E as (df & df' & Hl & Hf & -> & ->).
  exists df, df'. repeat split; try assumption.
  - apply length_insert.
  - apply list_lookup_insert_eq. eapply lookup_lt_Some; eassumption.
  - intros i Hi. apply list_lookup_insert_ne. congruence.
Qed.

Lemma fresh_result f l (h : heap) l' h' :
  fresh f l h = Ok (l', h') ->
  exists df df',
    h !! l = Some df /\ f df = Ok df' /\ l' = length h /\
    length h' = S (length h) /\ h' !! l' = Some df' /\
    forall i, (i < length h)%nat -> h' !! i = h !! i.
Proof.
  intros E. apply fresh_inv in E.
  destruct E as (df & df' & Hl & Hf & -> & ->).
  exists df, df'. repeat split; try assumption.
  - rewrite length_app. simpl. lia.
  - rewrite lookup_app_r by lia. now rewrite Nat.sub_diag.
  - intros i Hi. now apply lookup_app_l.
Qed.

(** The table [feature_engineering_etapa2_obj] returns is the one
    [feature_engineering_etapa2] computes. *)
Lemma feature_stage_returns h h' l l' df :
  h !! l = Some df ->
  feature_engineering_etapa2_obj l h = Ok (l', h') ->
  exists out, feature_engineering_etapa2 df = Ok out /\ h' !! l' = Some out.
Proof.
  intros Hl E. unfold feature_engineering_etapa2_obj in E.
  inv_bind E. destruct a as [l1 h1].
  apply in_place_result in Ha.
  destruct Ha as (d0 & d1 & Hd0 & Hf1 & -> & _ & Hr1 & _).
  rewrite Hl in Hd0. injection Hd0 as <-.
  inv_bind E. destruct a as [l2 h2].
  apply in_place_result in Ha.
  destruct Ha as (d1' & d2 & Hd1 & Hf2 & -> & _ & Hr2 & _).
  rewrite Hr1 in Hd1. injection Hd1 as <-.
  inv_bind E. destruct a as [l3 h3].
  apply in_place_result in Ha.
  destruct Ha as (d2' & d3 & Hd2 & Hf3 & -> & _ & Hr3 & _).
  rewrite Hr2 in Hd2. injection Hd2 as <-.
  inv_bind E. destruct a as [l4 h4].
  unfold aplicar_expansao_premiacoes_obj in Ha.
  inv_bind Ha. destruct a as [l3' h3'].
  apply in_place_result in Ha0.
  destruct Ha0 as (d3' & d4 & Hd3 & Hf4 & -> & _ & Hr4 & _).
  rewrite Hr3 in Hd3. injection Hd3 as <-.
  apply fresh_result in Ha.
  destruct Ha as (d4' & d5 & Hd4 & Hf5 & _ & _ & Hr5 & _).
  rewrite Hr4 in Hd4. injection Hd4 as <-.
  inv_bind E. destruct a as [l5 h5].
  apply in_place_result in Ha.
  destruct Ha as (d5' & d6 & Hd5 & Hf6 & -> & _ & Hr6 & _).
  rewrite Hr5 in Hd5. injection Hd5 as <-.
  inv_bind E. destruct a as [l6 h6].
  apply in_place_result in Ha.
  destruct Ha as (d6' & d7 & Hd6 & Hf7 & -> & _ & Hr7 & _).
  rewrite Hr6 in Hd6. injection Hd6 as <-.
  inversion E; subst. exists d7. split; [|assumption].
  unfold feature_engineering_etapa2, aplicar_expansao_premiacoes.
  rewrite Hf1. cbn. rewrite Hf2. cbn. rewrite Hf3. cbn. rewrite Hf4. cbn.
  rewrite Hf5. cbn. rewrite Hf6. cbn. rewrite Hf7. reflexivity.
Qed.

(** [data_cleaning_etapa1] works on a copy: the table passed in is left as
    it was, and the table returned is the one the stage computes. *)
Lemma cleaning_stage_keeps_the_table_passed_in h h' l l' df :
  h !! l = Some df ->
  data_cleaning_etapa1_obj l h = Ok (l', h') ->
  h' !! l = Some df /\
  exists out, data_cleaning_etapa1 df = Ok out /\ h' !! l' = Some out.
Proof.
  intros Hl E. unfold data_cleaning_etapa1_obj in E.
  assert (Hlt : (l < length h)%nat) by (eapply lookup_lt_Some; eassumption).
  inv_bind E. destruct a as [l1 h1].
  apply fresh_result in Ha.
  destruct Ha as (d0 & d0' & Hd0 & Hf0 & -> & Hn1 & Hr1 & Hk1).
  rewrite Hl in Hd0. injection Hd0 as <-. injection Hf0 as <-.
  inv_bind E. destruct a as [l2 h2].
  apply fresh_result in Ha.
  destruct Ha as (d1 & d2 & Hd1 & Hf2 & -> & Hn2 & Hr2 & Hk2).
  rewrite Hr1 in Hd1. injection Hd1 as <-.
  inv_bind E. destruct a as [l3 h3].
  unfold tratar_tipos_e_colunas_obj in Ha.
  inv_bind Ha. rename a into d2', Ha0 into Hd2.
  apply deref_Ok in Hd2. rewrite Hr2 in Hd2. injection Hd2 as <-.
  inv_bind Ha. rename a into keys, Ha0 into Hkeys.
  assert (Hdedup : exists ld hd dd,
             remover_duplicatas d2 = Ok dd /\ hd !! ld = Some dd /\
             (length h1 <= ld)%nat /\
             (forall i, (i < length h1)%nat -> hd !! i = h2 !! i) /\
             in_place converter_tipos ld hd = Ok (l3, h3)).
  { unfold remover_duplicatas. rewrite Hkeys. cbn -[Nat.ltb].
    destruct (0 <? count_true (duplicated keys))%nat eqn:Hdup.
    - unfold alloc in Ha. eexists _, _, _. split; [reflexivity|].
      split; [|split; [|split; [|exact Ha]]].
      + rewrite lookup_app_r by lia. now rewrite Nat.sub_diag.
      + lia.
      + intros i Hi. apply lookup_app_l. lia.
    - exists (length h1), h2, d2. repeat split; auto. }
  clear Ha. destruct Hdedup as (ld & hd & dd & Hrd & Hdd & Hge & Hkd & Ha).
  assert (Hld : (ld < length hd)%nat) by (eapply lookup_lt_Some; eassumption).
  apply in_place_result in Ha.
  destruct Ha as (dd' & d3 & Hdd' & Hf3 & -> & Hn3 & Hr3 & Hk3).
  rewrite Hdd in Hdd'. injection Hdd' as <-.
  inv_bind E. destruct a as [l4 h4].
  apply in_place_result in Ha.
  destruct Ha as (d3' & d4 & Hd3 & Hf4 & -> & Hn4 & Hr4 & Hk4).
  rewrite Hr3 in Hd3. injection Hd3 as <-. injection Hf4 as <-.
  inv_bind E. destruct a as [l5 h5].
  apply fresh_result in Ha.
  destruct Ha as (d4' & d5 & Hd4 & Hf5 & -> & Hn5 & Hr5 & Hk5).
  rewrite Hr4 in Hd4. injection Hd4 as <-.
  inversion E; subst. clear E. split.
  - rewrite Hk5 by lia. rewrite Hk4 by lia. rewrite Hk3 by lia.
    rewrite Hkd by lia. rewrite Hk2 by lia. rewrite Hk1 by lia. exact Hl.
  - exists d5. split; [|assumption].
    unfold data_cleaning_etapa1, tratar_tipos_e_colunas.
    rewrite Hf2, !Ok_bind, Hrd, !Ok_bind, Hf3, !Ok_bind, Hf5. reflexivity.
Qed.

(** [listas_para_json] works on a copy too. *)
Lemma listas_para_json_keeps_the_table_passed_in h h' l l' df :
  h !! l = Some df ->
  listas_para_json_obj l h = Ok (l', h') ->
  h' !! l = Some df /\
  exists out, listas_para_json df = Ok out /\ h' !! l' = Some out.
Proof.
  intros Hl E. unfold listas_para_json_obj in E.
  assert (Hlt : (l < length h)%nat) by (eapply lookup_lt_Some; eassumption).
  inv_bind E. destruct a as [l1 h1].
  apply fresh_result in Ha.
  destruct Ha as (d0 & d0' & Hd0 & Hf0 & -> & Hn1 & Hr1 & Hk1).
  rewrite Hl in Hd0. injection Hd0 as <-. injection Hf0 as <-.
  apply in_place_result in E.
  destruct E as (d1 & d2 & Hd1 & Hf2 & -> & Hn2 & Hr2 & Hk2).
  rewrite Hr1 in Hd1. injection Hd1 as <-.
  split; [|eauto].
  rewrite Hk2 by lia. rewrite Hk1 by lia. exact Hl.
Qed.

End Ownership.

Lemma feature_stage_changes_the_table_passed_in_witness :
  exists l' h' changed,
    feature_engineering_etapa2_obj (H := Demo.runtime) 0%nat [batch_cleaned]
    = Ok (l', h') /\
    h' !! 0%nat = Some changed /\
    In "data_dia" (column_names changed) /\
    ~ In "data_dia" (column_names batch_cleaned).
Proof.
  destruct (feature_engineering_etapa2_obj (H := Demo.runtime) 0%nat
              [batch_cleaned]) as [[l' h']|e] eqn:Hrun;
    [|vm_compute in Hrun; discriminate].
  destruct (@feature_stage_changes_the_table_passed_in Demo.runtime
              [batch_cleaned] h' 0%nat l' batch_cleaned eq_refl Hrun)
    as [_ (changed & Hc & Hin)].
  exists l', h', changed. repeat split; try assumption.
  simpl. intuition discriminate.
Defined.


(** The caller of the feature stage on [batch_cleaned], which has 11
    columns: afterwards the object it passed, at position 0, has 28, and
    the object returned, at position 1, has 42. *)
Example caller_sees_the_new_columns :
  match feature_engineering_etapa2_obj (H := Demo.runtime) 0%nat
          [batch_cleaned] with
  | Ok (l', h') => Some (l', map shape h')
  | Raise _ => None
  end = Some (1%nat, [(28, 2); (42, 2)]%nat).
Proof. reflexivity. Qed.

(** ** C10: the columns [listas_para_json] encodes *)

Section ListasParaJson.
Context `{PyRuntime}.

Lemma dumps_column_mapR vs vs' :
  dumps_column vs = Ok vs' <->
  exists ss, mapR json_dumps vs = Ok ss /\ vs' = map VStr ss.
Proof.
  unfold dumps_column. revert vs'.
  induction vs as [|v vs IH]; simpl; intros vs'.
  - split.
    + intros E. inversion E. exists []. auto.
    + intros (ss & E & ->). inversion E. reflexivity.
  - destruct (json_dumps v) as [s|e]; cbn.
    2: { split; [discriminate | intros (ss & E & _); discriminate]. }
    destruct (mapR (fun v => s ← json_dumps v; Ok (VStr s)) vs) as [ws|e];
      destruct (mapR json_dumps vs) as [ss|e']; cbn.
    + destruct (proj1 (IH ws) eq_refl) as (ss' & Hss & ->).
      injection Hss as <-. split.
      * intros E. inversion E; subst. exists (s :: ss). auto.
      * intros (ss' & E & ->). inversion E; subst. reflexivity.
    + destruct (proj1 (IH ws) eq_refl) as (ss' & Hss & _). discriminate.
    + assert (Hr : Raise e = Ok (map VStr ss)) by (apply IH; eauto).
      discriminate.
    + split; [discriminate | intros (ss & E & _); discriminate].
Qed.

Lemma encode_col_fixed vs vs' : encode_col vs = Ok vs' -> encode_col vs' = Ok vs'.
Proof.
  unfold encode_col. destruct (existsb is_list vs) eqn:E; intros Hv.
  - apply dumps_column_mapR in Hv. destruct Hv as (ss & _ & ->).
    assert (Hno : existsb is_list (map VStr ss) = false)
      by (induction ss; simpl; auto).
    now rewrite Hno.
  - inversion Hv; subst. now rewrite E.
Qed.

Lemma foldl_Raise {A} (f : result DataFrame -> A -> result DataFrame) e l :
  (forall x, f (Raise e) x = Raise e) -> foldl f (Raise e) l = Raise e.
Proof. intros Hf. induction l as [|x l IH]; simpl; [reflexivity|]. now rewrite Hf. Qed.

Lemma listas_para_json_col_spec df col df' :
  listas_para_json_col df col = Ok df' ->
  same_shape df df' /\
  (exists vs vs', get_col col df = Ok vs /\ encode_col vs = Ok vs' /\
                  get_col col df' = Ok vs') /\
  (forall c, c <> col -> get_col c df' = get_col c df).
Proof.
  unfold listas_para_json_col, encode_col. intros E. inv_bind E.
  rename a into vs, Ha into Hvs.
  destruct (existsb is_list vs) eqn:El.
  - inv_bind E. inversion E; subst. rename a into vs'. split; [|split].
    + eapply same_shape_set_col; eassumption.
    + exists vs, vs'. rewrite El. repeat split; try assumption.
      apply get_col_assoc. apply assoc_set_same.
    + intros c Hc. unfold get_col, set_col. simpl.
      now rewrite assoc_set_other.
  - inversion E; subst. split; [apply same_shape_refl|]. split; [|auto].
    exists vs, vs. rewrite El. auto.
Qed.

Lemma listas_para_json_fold names df out :
  foldl (fun acc col => df ← acc; listas_para_json_col df col) (Ok df) names
  = Ok out ->
  same_shape df out /\
  forall c vs, get_col c df = Ok vs ->
    if existsb (String.eqb c) names
    then exists vs', encode_col vs = Ok vs' /\ get_col c out = Ok vs'
    else get_col c out = Ok vs.
Proof.
  revert df. induction names as [|col names IH]; simpl; intros df E.
  - inversion E; subst. split; [apply same_shape_refl | auto].
  - try rewrite Ok_bind in E.
    destruct (listas_para_json_col df col) as [df1|e] eqn:E1.
    2: { rewrite foldl_Raise in E by reflexivity. discriminate. }
    destruct (listas_para_json_col_spec _ _ _ E1)
      as (Hs1 & (vs0 & vs1 & Hg0 & He0 & Hg1) & Hother).
    destruct (IH _ E) as (Hs2 & Hcols).
    split; [eapply same_shape_trans; eassumption|].
    intros c vs Hc.
    destruct (String.eqb_spec c col) as [->|Hne]; simpl.
    + rewrite Hg0 in Hc. injection Hc as <-.
      specialize (Hcols col vs1 Hg1).
      exists vs1. split; [assumption|].
      destruct (existsb (String.eqb col) names).
      * destruct Hcols as (vs2 & He2 & Hg2).
        rewrite (encode_col_fixed _ _ He0) in He2. injection He2 as <-.
        assumption.
      * assumption.
    + apply Hcols. rewrite Hother; assumption.
Qed.

(** C10.  When [listas_para_json] returns, the table has the columns and
    the index it had; a column that held a list holds, for every cell, the
    text [json.dumps] gives for it, a null included ([null] for [None],
    [NaN] for a float NaN); a column that held no list is unchanged. *)
Theorem listas_para_json_encodes_whole_list_columns (df out : DataFrame) :
  listas_para_json df = Ok out ->
  column_names out = column_names df /\
  index out = index df /\
  (forall c vs,
     get_col c df = Ok vs ->
     (existsb is_list vs = true ->
      exists ss, mapR json_dumps vs = Ok ss /\
                 get_col c out = Ok (map VStr ss)) /\
     (existsb is_list vs = false -> get_col c out = Ok vs)) /\
  json_dumps VNone = Ok "null" /\
  json_dumps VNaN = Ok "NaN".
Proof.
  intros E. unfold listas_para_json in E.
  destruct (listas_para_json_fold _ _ _ E) as ([Hn Hi] & Hcols).
  split; [assumption|]. split; [assumption|].
  split; [|split; reflexivity].
  intros c vs Hc. specialize (Hcols c vs Hc).
  assert (Hin : existsb (String.eqb c) (column_names df) = true).
  { unfold column_names. rewrite assoc_existsb.
    apply get_col_assoc in Hc. now rewrite Hc. }
  rewrite Hin in Hcols. destruct Hcols as (vs' & He & Hg).
  unfold encode_col in He. split; intros Hl; rewrite Hl in He.
  - apply dumps_column_mapR in He. destruct He as (ss & Hss & ->). eauto.
  - now injection He as <-.
Qed.

End ListasParaJson.

Lemma listas_para_json_encodes_whole_list_columns_witness :
  exists out,
    listas_para_json (H := Demo.runtime) batch_with_lists = Ok out /\
    get_col "concurso" out = Ok [VInt 2500; VNA] /\
    get_col "dezenas" out = Ok [VStr "[10, 22]"; VStr "null"] /\
    get_col "trevos" out = Ok [VStr "NaN"; VStr "[]"].
Proof.
  destruct (listas_para_json (H := Demo.runtime) batch_with_lists)
    as [out|e] eqn:Hrun; [|vm_compute in Hrun; discriminate].
  destruct (@listas_para_json_encodes_whole_list_columns Demo.runtime
              batch_with_lists out Hrun) as (_ & _ & Hcols & _).
  exists out. split; [reflexivity|]. repeat split.
  - apply (Hcols "concurso" _ eq_refl). reflexivity.
  - destruct (proj1 (Hcols "dezenas" _ eq_refl) eq_refl) as (ss & Hss & ->).
    vm_compute in Hss. now injection Hss as <-.
  - destruct (proj1 (Hcols "trevos" _ eq_refl) eq_refl) as (ss & Hss & ->).
    vm_compute in Hss. now injection Hss as <-.
Defined.

(** ** C5: writing a batch to the store *)

Section Store.
Context `{PyRuntime}.

Lemma to_sql_connections df nome caminho w :
  open_connections (to_sql df nome caminho w).2 = open_connections w.
Proof. unfold to_sql. destruct (forallb _ _); reflexivity. Qed.

Lemma salvar_sqlite_connections df caminho w :
  open_connections (salvar_sqlite df caminho w).2 = open_connections w.
Proof.
  unfold salvar_sqlite, connect, try_finally.
  destruct (first_loteria df); [|reflexivity].
  destruct (existsb _ _); [reflexivity|].
  destruct (to_sql _ _ _ _) as [r w'] eqn:E. simpl.
  pose proof (to_sql_connections df a caminho
                (mkWorld (databases w) (unopenable w) (S (open_connections w))))
    as Hc.
  rewrite E in Hc. simpl in Hc. now rewrite Hc.
Qed.

Lemma relation_write_relation caminho nome df w :
  relation caminho nome (write_relation caminho nome df w) = Some df.
Proof.
  unfold relation, write_relation. simpl.
  rewrite lookup_insert_eq. simpl. apply lookup_insert_eq.
Qed.

Lemma salvar_sqlite_replaces df caminho nome w w' :
  first_loteria df = Ok nome ->
  salvar_sqlite df caminho w = (Ok (), w') ->
  relation caminho nome w' = Some (reset_index df).
Proof.
  unfold salvar_sqlite, connect, try_finally, to_sql. intros -> E.
  destruct (existsb _ _); [discriminate|].
  destruct (forallb _ _); inversion E; subst.
  unfold close, relation. simpl.
  rewrite lookup_insert_eq. simpl. apply lookup_insert_eq.
Qed.

Lemma listas_para_json_rows df out :
  listas_para_json df = Ok out -> n_rows out = n_rows df.
Proof.
  intros E. apply listas_para_json_fold in E.
  destruct E as ((_ & Hi) & _). unfold n_rows. now rewrite Hi.
Qed.

Lemma stage_write df caminho nome w w' :
  stage_relation_name df = Ok nome ->
  salvar_no_sqlite_etapa3 df caminho w = (Ok (), w') ->
  exists stored,
    relation (default "loterias.db" caminho) nome w' = Some stored /\
    n_rows stored = n_rows df.
Proof.
  unfold stage_relation_name, salvar_no_sqlite_etapa3. intros Hn E.
  destruct (listas_para_json df) as [df_json|e] eqn:Ej; [|discriminate].
  rewrite Ok_bind in Hn.
  exists (reset_index df_json). split.
  - eapply salvar_sqlite_replaces; eassumption.
  - unfold reset_index, n_rows at 1. simpl. rewrite range_from_length.
    now apply listas_para_json_rows.
Qed.

(** C5.  The persistence stage leaves as many connections open as it
    found, whether it returns or raises.  When it returns, the relation
    named by the lower-cased lottery of the batch holds the rows of that
    batch and nothing of what the relation held before: after a batch of
    3 rows and then a batch of 1 row for the same lottery, the relation
    has 1 row. *)
Theorem persistence_replaces_the_relation_and_releases_the_connection :
  (forall df caminho w,
     open_connections (salvar_no_sqlite_etapa3 df caminho w).2
     = open_connections w) /\
  (forall df caminho nome w w',
     first_loteria df = Ok nome ->
     salvar_sqlite df caminho w = (Ok (), w') ->
     relation caminho nome w' = Some (reset_index df)) /\
  (forall df3 df1 caminho nome w w1 w2,
     stage_relation_name df3 = Ok nome ->
     stage_relation_name df1 = Ok nome ->
     n_rows df3 = 3%nat -> n_rows df1 = 1%nat ->
     salvar_no_sqlite_etapa3 df3 caminho w = (Ok (), w1) ->
     salvar_no_sqlite_etapa3 df1 caminho w1 = (Ok (), w2) ->
     (exists stored,
        relation (default "loterias.db" caminho) nome w1 = Some stored /\
        n_rows stored = 3%nat) /\
     (exists stored,
        relation (default "loterias.db" caminho) nome w2 = Some stored /\
        n_rows stored = 1%nat)).
Proof.
  split; [|split].
  - intros df caminho w. unfold salvar_no_sqlite_etapa3.
    destruct (listas_para_json df); [|reflexivity].
    apply salvar_sqlite_connections.
  - intros. eapply salvar_sqlite_replaces; eassumption.
  - intros df3 df1 caminho nome w w1 w2 Hn3 Hn1 H3 H1 E3 E1. split.
    + destruct (stage_write _ _ _ _ _ Hn3 E3) as (s & Hs & Hr).
      exists s. split; [assumption | congruence].
    + destruct (stage_write _ _ _ _ _ Hn1 E1) as (s & Hs & Hr).
      exists s. split; [assumption | congruence].
Qed.

End Store.

Lemma persistence_replaces_the_relation_and_releases_the_connection_witness :
  (exists stored,
     relation "loterias.db" "megasena" world_after_three = Some stored /\
     n_rows stored = 3%nat) /\
  (exists stored,
     relation "loterias.db" "megasena" world_after_one = Some stored /\
     n_rows stored = 1%nat).
Proof.
  destruct (@persistence_replaces_the_relation_and_releases_the_connection
              Demo.runtime) as (_ & _ & Htwo).
  apply (Htwo batch_megasena batch_megasena_cleaned None "megasena"
              empty_world world_after_three world_after_one);
    reflexivity.
Defined.

Example connections_are_released :
  open_connections world_after_one = 0%nat /\
  (salvar_no_sqlite_etapa3 (H := Demo.runtime) batch_with_dict None
     empty_world).1 = Raise InterfaceError /\
  open_connections
    (salvar_no_sqlite_etapa3 (H := Demo.runtime) batch_with_dict None
       empty_world).2 = 0%nat.
Proof. repeat split; reflexivity. Qed.

(** * Further properties of the code *)

(** ** The shape of a cleaned batch *)

Section CleaningShape.
Context `{PyRuntime}.

Lemma filter_by_length_le {A} (mask : list bool) (l : list A) :
  (length (filter_by mask l) <= length l)%nat.
Proof.
  revert l. induction mask as [|b m IH]; intros [|x l]; simpl; try lia.
  specialize (IH l). destruct b; simpl; lia.
Qed.

Lemma n_rows_select_rows mask df : (n_rows (select_rows mask df) <= n_rows df)%nat.
Proof. apply filter_by_length_le. Qed.

Lemma filtrar_intervalo_keeps df df' :
  wf df -> filtrar_intervalo df = Ok df' ->
  wf df' /\ (n_rows df' <= n_rows df)%nat.
Proof.
  intros Hwf Hf. unfold filtrar_intervalo in Hf.
  destruct (index df) as [|i0 idx] eqn:Ei.
  - destruct (has_col "loteria" df); inversion Hf; subst.
    + split; [constructor | unfold n_rows; simpl; lia].
    + split; [assumption | lia].
  - inv_bind Hf. inversion Hf; subst.
    split; [now apply wf_select_rows | apply n_rows_select_rows].
Qed.

Lemma validar_dezenas_keeps df out :
  wf df -> validar_dezenas df = Ok out ->
  wf out /\ index out = range_from 0 (n_rows out) /\
  (n_rows out <= n_rows df)%nat.
Proof.
  intros Hwf Hv. unfold validar_dezenas in Hv.
  inv_bind Hv. rename a into n, Ha into Hn.
  inv_bind Hv. rename a into dz, Ha into Hdz.
  inv_bind Hv. rename a into df2, Ha into Hf.
  inversion Hv; subst. clear Hv.
  set (df1 := select_rows (map (has_expected_count n) dz) df) in *.
  assert (Hwf1 : wf df1) by now apply wf_select_rows.
  destruct (filtrar_intervalo_keeps _ _ Hwf1 Hf) as [Hwf2 Hle].
  assert (Hn2 : n_rows (reset_index df2) = n_rows df2).
  { unfold reset_index, n_rows at 1. simpl. apply range_from_length. }
  split; [now apply wf_reset_index|]. split.
  - rewrite Hn2. reflexivity.
  - rewrite Hn2. pose proof (n_rows_select_rows (map (has_expected_count n) dz) df).
    fold df1 in H0. lia.
Qed.

Lemma data_cleaning_shape (df out : DataFrame) :
  wf df ->
  data_cleaning_etapa1 df = Ok out ->
  wf out /\
  index out = range_from 0 (n_rows out) /\
  (n_rows out <= n_rows df)%nat.
Proof.
  intros Hwf Hc. unfold data_cleaning_etapa1 in Hc.
  inv_bind Hc. rename a into pruned, Ha into Hp.
  inv_bind Hc. rename a into conv, Ha into Ht.
  inv_bind Hc. rename a into out', Ha into Hv.
  inversion Hc; subst out'. clear Hc.
  pose proof (drop_colunas_wf _ _ Hp Hwf) as Hwfp.
  assert (Hip : n_rows pruned = n_rows df).
  { unfold drop_colunas_por_loteria in Hp. inv_bind Hp. now inversion Hp. }
  unfold tratar_tipos_e_colunas in Ht.
  inv_bind Ht. rename a into dedup, Ha into Hd.
  destruct (remover_duplicatas_keeps _ _ Hd Hwfp) as [Hwfd _].
  assert (Hid : (n_rows dedup <= n_rows pruned)%nat).
  { unfold remover_duplicatas in Hd. inv_bind Hd.
    destruct (0 <? count_true (duplicated a))%nat; inversion Hd; subst;
      [apply n_rows_select_rows | lia]. }
  destruct (converter_tipos_keeps _ _ Ht Hwfd) as [Hwfc [_ Hic]].
  destruct (aplicar_normalizacao_keeps conv Hwfc) as [Hwfn [_ Hin]].
  destruct (validar_dezenas_keeps _ _ Hwfn Hv) as (Hwfo & Hio & Hle).
  split; [assumption|]. split; [assumption|].
  assert (n_rows (aplicar_normalizacao_listas conv) = n_rows dedup).
  { unfold n_rows. now rewrite Hin, Hic. }
  lia.
Qed.

(** X1.  The batch the cleaning stage returns has one cell per row in every
    column, its rows are labelled 0, 1, 2, ... in order, and it has no more
    rows than the batch it was given. *)
Theorem cleaning_output_is_reindexed (df out : DataFrame) :
  wf df ->
  data_cleaning_etapa1 df = Ok out ->
  wf out /\
  index out = range_from 0 (n_rows out) /\
  (n_rows out <= n_rows df)%nat.
Proof. apply data_cleaning_shape. Qed.

End CleaningShape.

Lemma cleaning_output_is_reindexed_witness :
  index batch_megasena_cleaned = [0] /\
  (n_rows batch_megasena_cleaned <= 3)%nat.
Proof.
  destruct (@cleaning_output_is_reindexed Demo.runtime
              batch_megasena batch_megasena_cleaned) as (_ & Hi & Hn).
  - repeat constructor.
  - reflexivity.
  - split; [exact Hi | exact Hn].
Defined.

(** ** The columns the cleaning stage needs *)

Section CleaningColumns.
Context `{PyRuntime}.

Lemma has_col_drop_cols c names df :
  has_col c (drop_cols names df) = true -> has_col c df = true.
Proof.
  unfold has_col, column_names, drop_cols. simpl.
  rewrite (names_filter (fun c => negb (existsb (String.eqb c) names))).
  intros E. apply existsb_exists in E. destruct E as (x & Hx & Hc).
  apply filter_In in Hx. apply existsb_exists. exists x. tauto.
Qed.

Lemma names_update_col f c df :
  column_names (update_col f c df) = column_names df.
Proof.
  unfold update_col. destruct (assoc c (cols df)) as [vs|] eqn:E; [|reflexivity].
  eapply names_set_col. apply get_col_assoc. exact E.
Qed.

Lemma names_fold_update_col f names df :
  column_names (fold_left (fun df c => update_col f c df) names df)
  = column_names df.
Proof.
  revert df. induction names as [|c names IH]; intros df; simpl; [reflexivity|].
  now rewrite IH, names_update_col.
Qed.

Lemma converter_tipos_names df df' :
  converter_tipos df = Ok df' -> column_names df' = column_names df.
Proof.
  unfold converter_tipos. intros Ht.
  inv_bind Ht. rename a into c0, Ha into Hc0.
  inv_bind Ht. rename a into c1, Ha into Hc1.
  inv_bind Ht. rename a into d0, Ha into Hd0.
  inv_bind Ht. rename a into d1, Ha into Hd1.
  inv_bind Ht. rename a into p0, Ha into Hp0.
  inv_bind Ht. rename a into p1, Ha into Hp1.
  assert (H3 : column_names
                 (set_col "proximoConcurso" p1
                    (set_col "data" d1 (set_col "concurso" c1 df)))
               = column_names df).
  { erewrite names_set_col by eassumption.
    erewrite names_set_col by eassumption.
    eapply names_set_col. eassumption. }
  match type of Ht with
  | context [assoc "acumulou" (cols ?d)] =>
      assert (H4 : column_names d = column_names df)
        by (now rewrite names_fold_update_col);
      destruct (assoc "acumulou" (cols d)) as [vs|] eqn:Ea
  end.
  - inv_bind Ht. inversion Ht; subst.
    erewrite names_set_col by (apply get_col_assoc; exact Ea). exact H4.
  - inversion Ht; subst. exact H4.
Qed.

Lemma remover_duplicatas_names df df' :
  remover_duplicatas df = Ok df' -> column_names df' = column_names df.
Proof.
  unfold remover_duplicatas. intros Hd. inv_bind Hd.
  destruct (0 <? count_true (duplicated a))%nat; inversion Hd; subst;
    [apply names_select_rows | reflexivity].
Qed.

(** X2.  A batch the cleaning stage accepts has the columns [loteria],
    [concurso], [data], [proximoConcurso] and [dezenas]; without the
    [loteria] column the stage raises [KeyError]. *)
Theorem cleaning_needs_its_columns (df : DataFrame) :
  (forall out,
     data_cleaning_etapa1 df = Ok out ->
     Forall (fun c => has_col c df = true)
            ["loteria"; "concurso"; "data"; "proximoConcurso"; "dezenas"]) /\
  (has_col "loteria" df = false ->
   data_cleaning_etapa1 df = Raise KeyError).
Proof.
  split.
  - intros out Hc. unfold data_cleaning_etapa1 in Hc.
    inv_bind Hc. rename a into pruned, Ha into Hp.
    inv_bind Hc. rename a into conv, Ha into Ht.
    inv_bind Hc. rename a into out', Ha into Hv.
    clear Hc.
    unfold tratar_tipos_e_colunas in Ht.
    inv_bind Ht. rename a into dedup, Ha into Hd.
    assert (Hlot : has_col "loteria" df = true).
    { unfold drop_colunas_por_loteria, first_loteria in Hp.
      inv_bind Hp. inv_bind Ha. eapply get_col_has_col; eassumption. }
    assert (Hpd : forall c, has_col c dedup = true -> has_col c df = true).
    { unfold drop_colunas_por_loteria in Hp. inv_bind Hp. inversion Hp; subst.
      intros c Hc. eapply has_col_drop_cols.
      erewrite <- has_col_names; [exact Hc|].
      eapply remover_duplicatas_names. eassumption. }
    destruct (converter_tipos_needs _ _ Ht) as (Hc1 & Hc2 & Hc3).
    assert (Hdz : has_col "dezenas" dedup = true).
    { unfold validar_dezenas, expected_count_of in Hv.
      inv_bind Hv. inv_bind Ha. apply get_col_has_col in Ha0.
      erewrite <- has_col_names; [exact Ha0|].
      unfold aplicar_normalizacao_listas.
      rewrite names_fold_update_col. eapply converter_tipos_names. eassumption. }
    repeat constructor; auto.
  - intros Hno. unfold data_cleaning_etapa1, drop_colunas_por_loteria,
      first_loteria, get_col.
    rewrite has_col_assoc in Hno.
    destruct (assoc "loteria" (cols df)); [discriminate | reflexivity].
Qed.

End CleaningColumns.

Lemma cleaning_needs_its_columns_witness :
  has_col "dezenas" batch_megasena = true /\
  data_cleaning_etapa1 (H := Demo.runtime) batch_with_repeats = Raise KeyError.
Proof.
  destruct (@cleaning_needs_its_columns Demo.runtime batch_megasena) as [Hok _].
  destruct (@cleaning_needs_its_columns Demo.runtime batch_with_repeats)
    as [_ Hraise].
  split.
  - specialize (Hok batch_megasena_cleaned eq_refl).
    rewrite List.Forall_forall in Hok. apply Hok. simpl. tauto.
  - apply Hraise. reflexivity.
Defined.

(** ** The cells of a cleaned batch *)

Section CleaningTypes.
Context `{PyRuntime}.

Lemma validar_dezenas_cols df out :
  validar_dezenas df = Ok out ->
  exists n dz,
    get_col "dezenas" df = Ok dz /\
    forall c vs,
      get_col c out = Ok vs ->
      exists vs0 mask,
        get_col c df = Ok vs0 /\
        vs = filter_by mask (filter_by (map (has_expected_count n) dz) vs0).
Proof.
  unfold validar_dezenas. intros Hv.
  inv_bind Hv. rename a into n, Ha into Hn.
  inv_bind Hv. rename a into dz, Ha into Hdz.
  inv_bind Hv. rename a into df2, Ha into Hf.
  inversion Hv; subst. clear Hv.
  exists n, dz. split; [assumption|]. intros c vs Hc.
  change (get_col c (reset_index df2)) with (get_col c df2) in Hc.
  set (m1 := map (has_expected_count n) dz) in *.
  unfold filtrar_intervalo in Hf.
  assert (Hsame : forall d, get_col c (select_rows m1 df) = Ok d ->
            exists vs0 mask, get_col c df = Ok vs0 /\
                             d = filter_by mask (filter_by m1 vs0)).
  { intros d Hd. apply get_col_select_rows_inv in Hd.
    destruct Hd as (vs0 & Hvs0 & ->).
    exists vs0, (map (fun _ => true) (filter_by m1 vs0)). split; [assumption|].
    symmetry. apply filter_by_true; [apply length_map|].
    apply List.Forall_map. apply List.Forall_forall. reflexivity. }
  destruct (index (select_rows m1 df)) as [|i0 idx] eqn:Ei.
  - destruct (has_col "loteria" (select_rows m1 df)); inversion Hf; subst.
    + discriminate.
    + auto.
  - inv_bind Hf. inversion Hf; subst.
    apply get_col_select_rows_inv in Hc. destruct Hc as (vs1 & Hvs1 & ->).
    apply get_col_select_rows_inv in Hvs1. destruct Hvs1 as (vs0 & Hvs0 & ->).
    eauto.
Qed.

Lemma has_expected_count_is_list n vs :
  forallb (has_expected_count n) vs = true -> forallb is_list vs = true.
Proof.
  induction vs as [|v vs IH]; simpl; [reflexivity|]. intros E.
  apply andb_true_iff in E. destruct E as [Hv Hvs].
  rewrite (IH Hvs), andb_true_r. destruct v; try discriminate; reflexivity.
Qed.

(** X3.  In a batch the cleaning stage returns, [concurso] holds integers or
    [NA], [data] and [proximoConcurso] hold timestamps or [NaT], each
    monetary column is a column of numbers, [acumulou] holds booleans or
    [NA], and every [dezenas] is a list. *)
Theorem cleaning_output_is_typed (df out : DataFrame) :
  data_cleaning_etapa1 df = Ok out ->
  forall c vs,
    get_col c out = Ok vs ->
    (c = "concurso" -> forallb is_int_or_NA vs = true) /\
    (c = "data" \/ c = "proximoConcurso" -> forallb is_ts_or_NaT vs = true) /\
    (In c cols_monetarias -> numeric_column vs = true) /\
    (c = "acumulou" -> forallb is_bool_or_NA vs = true) /\
    (c = "dezenas" -> forallb is_list vs = true).
Proof.
  intros Hc c vs Hvs. unfold data_cleaning_etapa1 in Hc.
  inv_bind Hc. rename a into pruned, Ha into Hp.
  inv_bind Hc. rename a into conv, Ha into Ht.
  inv_bind Hc. rename a into out', Ha into Hv.
  inversion Hc; subst out'. clear Hc.
  unfold tratar_tipos_e_colunas in Ht.
  inv_bind Ht. rename a into dedup, Ha into Hd.
  assert (Hty : typed (aplicar_normalizacao_listas conv)).
  { apply typed_normalizacao. eapply converter_tipos_typed. exact Ht. }
  destruct (validar_dezenas_cols _ _ Hv) as (n & dz & Hdz & Hcols).
  destruct (Hcols _ _ Hvs) as (vs0 & mask & Hvs0 & ->).
  pose proof (Hty _ _ I Hvs0) as Hc0.
  apply (col_typed_filter_by c (map (has_expected_count n) dz)) in Hc0.
  apply (col_typed_filter_by c mask) in Hc0.
  unfold col_typed in Hc0.
  repeat split.
  - intros ->. exact Hc0.
  - intros [-> | ->]; exact Hc0.
  - intros Hin. simpl in Hin.
    repeat (destruct Hin as [<-|Hin]; [exact Hc0|]). destruct Hin.
  - intros ->. exact Hc0.
  - intros ->. rewrite Hdz in Hvs0. injection Hvs0 as <-.
    apply forallb_filter_by. apply (has_expected_count_is_list n).
    apply forallb_forall. apply List.Forall_forall. apply filter_by_Forall.
Qed.

End CleaningTypes.

Lemma cleaning_output_is_typed_witness :
  forallb is_ts_or_NaT [VTimestamp (mkTs 2024 3 7 0)] = true.
Proof.
  destruct (@cleaning_output_is_typed Demo.runtime
              batch_megasena batch_megasena_cleaned eq_refl
              "data" [VTimestamp (mkTs 2024 3 7 0)] eq_refl)
    as (_ & Hd & _).
  apply Hd. left. reflexivity.
Defined.

(** ** The rows [validar_dezenas] keeps *)

Section ValidRows.
Context `{PyRuntime}.

Lemma filter_by_filter {A} (p : A -> bool) (l : list A) :
  filter_by (map p l) l = List.filter p l.
Proof.
  induction l as [|x l IH]; simpl; [reflexivity|].
  destruct (p x); now rewrite IH.
Qed.






End ValidRows.


(** ** The last row under the removal of duplicates *)

Section KeepLast.
Context `{PyRuntime}.




End KeepLast.


(** ** Calendar features *)

Section DateFeatures.
Context `{PyRuntime}.

Lemma weekday_range t : 0 <= weekday t <= 6.
Proof. unfold weekday. pose proof (Z.mod_pos_bound
  (days_from_civil (ts_year t) (ts_month t) (ts_day t) + 3) 7). lia. Qed.

Lemma weeks_in_year_range y : 52 <= weeks_in_year y <= 53.
Proof. unfold weeks_in_year. destruct (_ || _); lia. Qed.

Lemma iso_week_range t : 1 <= iso_week t <= 53.
Proof.
  unfold iso_week.
  pose proof (weeks_in_year_range (ts_year t)).
  pose proof (weeks_in_year_range (ts_year t - 1)).
  match goal with |- context [if ?w <? 1 then _ else _] =>
    destruct (Z.ltb_spec w 1); [lia|];
    destruct (Z.ltb_spec (weeks_in_year (ts_year t)) w); lia
  end.
Qed.

Lemma dt_field_range f lo hi ts :
  (forall t, lo <= f t <= hi) ->
  Forall (fun v => v = VNaN \/ whole_between lo hi v) (dt_field f ts).
Proof.
  intros Hf. unfold dt_field.
  destruct (forallb _ ts); apply List.Forall_map, List.Forall_forall;
    intros [t|] _; auto; right; exists (f t); auto.
Qed.

(** X6.  The calendar columns [criar_features_datas] adds: the day of the week
    is a whole number from 0 to 6, or NaN where the date is [NaT]; the ISO
    week is an integer from 1 to 53, or [NA] where the date is [NaT]; both
    have one cell per cell of [data]. *)
Theorem date_features_are_calendar_fields (df out : DataFrame) (data : list pyval) :
  get_col "data" df = Ok data ->
  criar_features_datas df = Ok out ->
  exists dias semanas,
    get_col "dia_semana_concurso" out = Ok dias /\
    get_col "semana_ano_concurso" out = Ok semanas /\
    length dias = length data /\ length semanas = length data /\
    Forall (fun v => v = VNaN \/ whole_between 0 6 v) dias /\
    Forall (fun v => v = VNA \/ exists z, v = VInt z /\ 1 <= z <= 53) semanas.
Proof.
  intros Hd E. unfold criar_features_datas in E.
  rewrite Hd, Ok_bind in E.
  inv_bind E. rename a into ts, Ha into Hts.
  inv_bind E. inv_bind E. inversion E; subst. clear E.
  exists (dt_field weekday ts), (dt_iso_week ts).
  assert (Hlen : length ts = length data).
  { unfold dt_values in Hts. now apply mapR_length in Hts. }
  repeat split.
  - rewrite !get_col_set_col. reflexivity.
  - rewrite !get_col_set_col. reflexivity.
  - unfold dt_field. destruct (forallb _ ts); now rewrite length_map.
  - unfold dt_iso_week. now rewrite length_map.
  - apply dt_field_range. apply weekday_range.
  - unfold dt_iso_week. apply List.Forall_map, List.Forall_forall.
    intros [t|] _; auto. right. exists (iso_week t).
    split; [reflexivity | apply iso_week_range].
Qed.

End DateFeatures.

Lemma date_features_are_calendar_fields_witness :
  exists dias,
    get_col "dia_semana_concurso"
      (match criar_features_datas batch_megasena_cleaned with
       | Ok out => out
       | Raise _ => batch_megasena_cleaned
       end) = Ok dias /\
    Forall (fun v => v = VNaN \/ whole_between 0 6 v) dias.
Proof.
  destruct (@date_features_are_calendar_fields
              batch_megasena_cleaned
              (match criar_features_datas batch_megasena_cleaned with
               | Ok out => out
               | Raise _ => batch_megasena_cleaned
               end)
              [VTimestamp (mkTs 2024 3 7 0)] eq_refl eq_refl)
    as (dias & semanas & Hd & _ & _ & _ & Hr & _).
  exists dias. split; assumption.
Defined.

(** ** The columns [dezena_k] *)

Section ExpandirDezenas.
Context `{PyRuntime}.

Lemma get_col_drop_cols c names df :
  existsb (String.eqb c) names = false ->
  get_col c (drop_cols names df) = get_col c df.
Proof.
  intros Hc. unfold get_col, drop_cols. simpl.
  rewrite (assoc_filter_kept (fun c => negb (existsb (String.eqb c) names)));
    [reflexivity|].
  now rewrite Hc.
Qed.

Lemma has_col_dropped c names df :
  existsb (String.eqb c) names = true ->
  has_col c (drop_cols names df) = false.
Proof.
  intros Hc. unfold has_col, column_names, drop_cols. simpl.
  rewrite (names_filter (fun c => negb (existsb (String.eqb c) names))).
  apply existsb_filter_rejected. now rewrite Hc.
Qed.

Lemma get_col_fold_set_col {A} (name : A -> string) (g : A -> list pyval)
  (l : list A) c df :
  (forall j, In j l -> name j <> c) ->
  get_col c (fold_left (fun df j => set_col (name j) (g j) df) l df)
  = get_col c df.
Proof.
  revert df. induction l as [|x l IH]; simpl; intros df Hne; [reflexivity|].
  rewrite IH by (intros j Hj; apply Hne; now right).
  rewrite get_col_set_col.
  destruct (String.eqb_spec c (name x)) as [->|]; [|reflexivity].
  exfalso. apply (Hne x); [now left | reflexivity].
Qed.

Lemma get_col_fold_set_col_in {A} (name : A -> string) (g : A -> list pyval)
  (l : list A) i df :
  (forall j, In j l -> name j = name i -> j = i) ->
  In i l ->
  get_col (name i) (fold_left (fun df j => set_col (name j) (g j) df) l df)
  = Ok (g i).
Proof.
  intros Hinj Hin. revert df.
  induction l as [|x l IH] using rev_ind; [destruct Hin|]. intros df.
  rewrite fold_left_app. simpl. rewrite get_col_set_col.
  destruct (String.eqb_spec (name i) (name x)) as [E|Hne].
  - rewrite (Hinj x); [reflexivity | apply in_or_app; right; now left | now symmetry].
  - apply IH.
    + intros j Hj. apply Hinj. apply in_or_app. now left.
    + apply in_app_or in Hin. destruct Hin as [Hin|[->|[]]]; [exact Hin | contradiction].
Qed.

Lemma dezena_name_inj i j :
  "dezena_" +:+ pretty (S i) = "dezena_" +:+ pretty (S j) -> i = j.
Proof.
  intros E. apply (String.app_inj "dezena_") in E.
  apply pretty_nat_inj in E. now injection E.
Qed.

Lemma index_fold_set_col {A} (name : A -> string) (g : A -> list pyval)
  (l : list A) df :
  index (fold_left (fun df j => set_col (name j) (g j) df) l df) = index df.
Proof.
  revert df. induction l as [|x l IH]; simpl; intros df; [reflexivity|].
  now rewrite IH.
Qed.

(** X7.  [expandir_dezenas] on a batch with rows: the column [dezena_k], for
    each [k] up to the longest [dezenas], holds the [k]-th number of each
    row, [None] where the row has fewer (NaN once pandas makes the column
    numeric); [dezenas] and the index are as they were; and the result
    has no column [qtd_dezenas], even when the batch had one. *)
Theorem expandir_dezenas_columns (df out : DataFrame) (dezenas : list pyval) :
  get_col "dezenas" df = Ok dezenas ->
  expandir_dezenas df = Ok out ->
  has_col "qtd_dezenas" out = false /\
  index out = index df /\
  get_col "dezenas" out = Ok dezenas /\
  forall i,
    (i < list_max (map (fun x => match x with
                                 | VList l => length l
                                 | _ => 0%nat
                                 end) dezenas))%nat ->
    get_col ("dezena_" +:+ pretty (S i)) out
    = Ok (infer_objects (map (item_or_none i) dezenas)).
Proof.
  intros Hd E. unfold expandir_dezenas in E. rewrite Hd, Ok_bind in E.
  set (qtd := map _ dezenas) in *.
  destruct qtd as [|q qs] eqn:Eq; [discriminate|]. rewrite <- Eq in *.
  inversion E; subst out. clear E.
  split; [now apply has_col_dropped|]. split.
  { unfold drop_cols. simpl. now rewrite index_fold_set_col. }
  split.
  - rewrite get_col_drop_cols by reflexivity.
    rewrite get_col_fold_set_col.
    + now rewrite get_col_set_col.
    + intros j _. discriminate.
  - intros i Hi.
    rewrite get_col_drop_cols by reflexivity.
    apply (get_col_fold_set_col_in
             (fun i => "dezena_" +:+ pretty (S i))
             (fun i => infer_objects (map (item_or_none i) dezenas))).
    + intros j _ Ej. now apply dezena_name_inj.
    + apply in_seq. lia.
Qed.

Lemma expandir_dezenas_raises_without_rows (df : DataFrame) :
  get_col "dezenas" df = Ok [] ->
  expandir_dezenas df = Raise TypeError.
Proof. intros Hd. unfold expandir_dezenas. now rewrite Hd. Qed.

End ExpandirDezenas.

Lemma expandir_dezenas_columns_witness :
  exists out,
    expandir_dezenas batch_megasena_cleaned = Ok out /\
    get_col "dezena_3" out = Ok [VInt 35].
Proof.
  destruct (expandir_dezenas batch_megasena_cleaned) as [out|e] eqn:E;
    [|vm_compute in E; discriminate].
  exists out. split; [reflexivity|].
  destruct (expandir_dezenas_columns batch_megasena_cleaned out _ eq_refl E)
    as (_ & _ & _ & Hc).
  apply (Hc 2%nat). vm_compute. lia.
Defined.

(** ** Splitting [local] *)

Section SepararLocal.
Context `{PyRuntime}.






(** X9.  When [local] holds objects but no cell holds a text with [" em "],
    [separar_local] raises [ValueError]: the split gives one column
    where the assignment expects two. *)
Theorem separar_local_raises_without_separator (df : DataFrame) (local : list pyval) :
  get_col "local" df = Ok local ->
  is_object_column local = true ->
  Forall (fun v => forall s, v = VStr s -> split_first " em " s = None) local ->
  separar_local df = Raise ValueError.
Proof.
  intros Hl Hobj Hno. unfold separar_local.
  rewrite (get_col_has_col _ _ _ Hl). simpl. rewrite Hl, Ok_bind.
  unfold split_expand. rewrite Hobj. simpl.
  match goal with |- context [existsb ?p local] =>
    assert (Hex : existsb p local = false)
  end.
  { clear Hl Hobj. induction Hno as [|v l Hv Hl IH]; simpl; [reflexivity|].
    rewrite IH, orb_false_r. destruct v; try reflexivity.
    now rewrite (Hv s eq_refl). }
  now rewrite Hex.
Qed.

End SepararLocal.


Lemma separar_local_raises_without_separator_witness :
  separar_local (mkDF [0] [("local", [VStr "Caminhão da Sorte"])])
  = Raise ValueError.
Proof.
  apply (separar_local_raises_without_separator _ [VStr "Caminhão da Sorte"]).
  - reflexivity.
  - reflexivity.
  - repeat constructor. intros s E. injection E as <-. reflexivity.
Defined.

(** ** The prize tiers *)

Section Premiacoes.
Context `{PyRuntime}.

Lemma prefix_app p s : String.prefix p (p +:+ s) = true.
Proof.
  induction p as [|a p IH]; simpl; [now destruct s|].
  destruct (ascii_dec a a); [exact IH | contradiction].
Qed.

Lemma assoc_set_keys {A} k (v : A) d x :
  In x (map fst (assoc_set k v d)) -> x = k \/ In x (map fst d).
Proof.
  induction d as [|[k' v'] d IH]; simpl.
  - intros [<-|[]]. now left.
  - destruct (String.eqb_spec k k') as [->|Hne]; simpl.
    + intros [<-|Hin]; auto.
    + intros [<-|Hin]; auto. destruct (IH Hin); auto.
Qed.

(** One turn of the loop of [expandir_premiacoes_loteria]. *)
Lemma expandir_premiacoes_snoc l item :
  expandir_premiacoes_loteria (VList (l ++ [item]))
  = (resultado ← expandir_premiacoes_loteria (VList l);
     faixa ← dict_get "faixa" item;
     match faixa with
     | VNone => Ok resultado
     | _ =>
         ganhadores ← dict_get "ganhadores" item;
         valor ← dict_get "valorPremio" item;
         Ok (dict_set ("valor_faixa_" +:+ py_str faixa) valor
               (dict_set ("ganhadores_faixa_" +:+ py_str faixa)
                         ganhadores resultado))
     end).
Proof. unfold expandir_premiacoes_loteria. now rewrite foldl_app. Qed.

(** X10.  The dict [expandir_premiacoes_loteria] builds has only keys that start
    with [ganhadores_faixa_] or [valor_faixa_], and for a tier that occurs
    twice the later one wins: the last tier of the list, when its [faixa]
    is not [None], gives the values under its two keys. *)
Theorem expandir_premiacoes_keys_and_last_tier (l : list pyval)
  (resultado : list (string * pyval)) :
  expandir_premiacoes_loteria (VList l) = Ok resultado ->
  Forall (fun k => String.prefix "ganhadores_faixa_" k = true \/
                   String.prefix "valor_faixa_" k = true)
         (map fst resultado) /\
  (forall l' item faixa,
     l = (l' ++ [item])%list ->
     dict_get "faixa" item = Ok faixa -> faixa <> VNone ->
     exists ganhadores valor,
       dict_get "ganhadores" item = Ok ganhadores /\
       dict_get "valorPremio" item = Ok valor /\
       assoc ("ganhadores_faixa_" +:+ py_str faixa) resultado = Some ganhadores /\
       assoc ("valor_faixa_" +:+ py_str faixa) resultado = Some valor).
Proof.
  intros E. split.
  - revert resultado E. induction l as [|item l IH] using rev_ind;
      intros resultado E.
    + inversion E. constructor.
    + rewrite expandir_premiacoes_snoc in E.
      inv_bind E. rename a into r0, Ha into Hr0.
      inv_bind E. rename a into faixa, Ha into Hf.
      specialize (IH _ Hr0).
      assert (Hstep : forall g v,
                Forall (fun k => String.prefix "ganhadores_faixa_" k = true \/
                                 String.prefix "valor_faixa_" k = true)
                  (map fst (dict_set ("valor_faixa_" +:+ py_str faixa) v
                              (dict_set ("ganhadores_faixa_" +:+ py_str faixa)
                                        g r0)))).
      { intros g v. apply List.Forall_forall. intros k Hk.
        apply assoc_set_keys in Hk. destruct Hk as [->|Hk].
        - right. apply prefix_app.
        - apply assoc_set_keys in Hk. destruct Hk as [->|Hk].
          + left. apply prefix_app.
          + rewrite List.Forall_forall in IH. now apply IH. }
      destruct faixa; try (inversion E; subst; exact IH);
        inv_bind E; inv_bind E; inversion E; subst; apply Hstep.
  - intros l' item faixa -> Hf Hne.
    rewrite expandir_premiacoes_snoc in E.
    inv_bind E. rename a into r0. rewrite Hf, Ok_bind in E.
    assert (Hsome : exists g v,
              dict_get "ganhadores" item = Ok g /\
              dict_get "valorPremio" item = Ok v /\
              resultado = dict_set ("valor_faixa_" +:+ py_str faixa) v
                            (dict_set ("ganhadores_faixa_" +:+ py_str faixa) g r0)).
    { destruct faixa; try congruence;
        inv_bind E; inv_bind E; inversion E; subst; eauto. }
    destruct Hsome as (g & v & Hg & Hv & ->).
    exists g, v. repeat split; try assumption.
    + unfold dict_set. rewrite assoc_set_other by discriminate.
      apply assoc_set_same.
    + unfold dict_set. apply assoc_set_same.
Qed.

End Premiacoes.

Lemma expandir_premiacoes_keys_and_last_tier_witness :
  assoc "ganhadores_faixa_1"
        (match expandir_premiacoes_loteria (H := Demo.runtime)
                 (VList [tier 1 0 0; tier 2 5 100; tier 1 3 70]) with
         | Ok r => r
         | Raise _ => []
         end) = Some (VInt 3).
Proof.
  destruct (@expandir_premiacoes_keys_and_last_tier Demo.runtime
              [tier 1 0 0; tier 2 5 100; tier 1 3 70]
              (match expandir_premiacoes_loteria (H := Demo.runtime)
                       (VList [tier 1 0 0; tier 2 5 100; tier 1 3 70]) with
               | Ok r => r
               | Raise _ => []
               end) eq_refl) as [_ Hlast].
  destruct (Hlast [tier 1 0 0; tier 2 5 100] (tier 1 3 70) (VInt 1)
              eq_refl eq_refl ltac:(discriminate))
    as (g & v & Hg & _ & Ha & _).
  injection Hg as <-. exact Ha.
Defined.

(** ** The places of the winners *)

Section LocalGanhadores.
Context `{PyRuntime}.

Lemma mapR_only {A B} (f : A -> result B) (l : list A) (e0 e : exn) :
  (forall x e, f x = Raise e -> e = e0) -> mapR f l = Raise e -> e = e0.
Proof.
  intros Hf. induction l as [|x l IH]; simpl; [discriminate|].
  destruct (f x) as [y|e'] eqn:Ex; cbn.
  - destruct (mapR f l) as [ys|e'']; cbn; [discriminate|].
    intros E. injection E as <-. now apply IH.
  - intros E. injection E as <-. eapply Hf. eassumption.
Qed.

Lemma mapR_raises {A B} (f : A -> result B) (l : list A) (e0 : exn) x :
  (forall x e, f x = Raise e -> e = e0) ->
  In x l -> f x = Raise e0 -> mapR f l = Raise e0.
Proof.
  intros Hf Hin Hx. induction l as [|y l IH]; [destruct Hin|]. simpl.
  destruct (f y) as [z|e'] eqn:Ey; cbn.
  - destruct Hin as [->|Hin]; [congruence|].
    now rewrite (IH Hin).
  - f_equal. eapply Hf. eassumption.
Qed.

Lemma mapR_const {A B} (f : A -> result B) (l : list A) (b : B) :
  Forall (fun x => f x = Ok b) l -> mapR f l = Ok (map (fun _ => b) l).
Proof.
  induction 1 as [|x l Hx Hl IH]; simpl; [reflexivity|].
  now rewrite Hx, Ok_bind, IH.
Qed.

Lemma infer_objects_none {A} (l : list A) :
  infer_objects (map (fun _ => VNone) l) = map (fun _ => VNone) l.
Proof.
  unfold infer_objects. destruct l as [|x l]; [reflexivity|].
  simpl. assert (E : existsb (fun v => match v with
                                      | VInt _ | VFloat _ => true
                                      | _ => false
                                      end) (map (fun _ : A => VNone) l) = false)
    by (induction l; simpl; auto).
  rewrite E, andb_false_r. reflexivity.
Qed.

(** X11.  On a batch where no draw has a winner's place ([localGanhadores] is
    never a list with an element) [processar_local_ganhadores] returns:
    every [localGanhadores] is the empty list, [municipioGanhador] and
    [ufGanhador] are [None], and [ticketGanhadorOnline] is [False]. *)
Theorem processar_local_ganhadores_without_winners
  (df : DataFrame) (locais : list pyval) :
  get_col "localGanhadores" df = Ok locais ->
  Forall (fun v => as_list v = []) locais ->
  exists out,
    processar_local_ganhadores df = Ok out /\
    index out = index df /\
    get_col "localGanhadores" out = Ok (map (fun _ => VList []) locais) /\
    get_col "municipioGanhador" out = Ok (map (fun _ => VNone) locais) /\
    get_col "ufGanhador" out = Ok (map (fun _ => VNone) locais) /\
    get_col "ticketGanhadorOnline" out = Ok (map (fun _ => VBool false) locais).
Proof.
  intros Hl Hno. unfold processar_local_ganhadores. rewrite Hl, Ok_bind.
  assert (Hmap : map as_list locais = map (fun _ => []) locais).
  { clear Hl. induction Hno as [|v l Hv Hl' IH]; cbn [map]; [reflexivity|].
    now rewrite Hv, IH. }
  rewrite Hmap, !map_map.
  assert (Hall : forall (f : list pyval -> result pyval) b, f [] = Ok b ->
            mapR f (map (fun _ : pyval => []) locais)
            = Ok (map (fun _ => b) locais)).
  { intros f b Hf.
    rewrite <- (map_map (fun _ : pyval => @nil pyval) (fun _ => b)).
    apply mapR_const. apply List.Forall_map, List.Forall_forall. auto. }
  rewrite (Hall (first_get "municipio") VNone eq_refl), Ok_bind.
  rewrite (Hall (first_get "uf") VNone eq_refl), Ok_bind.
  rewrite (Hall is_ticket_online (VBool false) eq_refl), Ok_bind.
  eexists. split; [reflexivity|].
  rewrite !get_col_set_col. simpl. rewrite !infer_objects_none.
  repeat split; reflexivity.
Qed.

(** X12.  A first record whose [municipio] is there but is not a text (a JSON
    null, say) makes [processar_local_ganhadores] raise [AttributeError]:
    the default of [registro.get("municipio", "")] only stands in for a
    missing key. *)
Theorem processar_local_ganhadores_raises_on_null_municipio
  (df : DataFrame) (locais : list pyval)
  (d : list (pyval * pyval)) (resto : list pyval) (kv : pyval * pyval) :
  get_col "localGanhadores" df = Ok locais ->
  In (VList (VDict d :: resto)) locais ->
  find (fun kv => py_eq (fst kv) (VStr "municipio")) d = Some kv ->
  is_str (snd kv) = false ->
  processar_local_ganhadores df = Raise AttributeError.
Proof.
  intros Hl Hin Hfind Hns. unfold processar_local_ganhadores.
  rewrite Hl, Ok_bind.
  assert (Hget : forall key x e, first_get key x = Raise e -> e = AttributeError).
  { intros key [|r x] e; simpl; [discriminate|].
    destruct r; simpl; intros E; inversion E; reflexivity. }
  assert (Hon : forall x e, is_ticket_online x = Raise e -> e = AttributeError).
  { assert (Hg : forall key r e, get_strip_upper key r = Raise e ->
                                 e = AttributeError).
    { intros key r e. unfold get_strip_upper. destruct r; try (intros E; now inversion E).
      destruct (find _ d0) as [[k v]|]; [|discriminate].
      simpl. destruct v; intros E; inversion E; reflexivity. }
    intros [|r x] e; simpl; [discriminate|]. intros E.
    destruct (get_strip_upper "municipio" r) eqn:E1; cbn in E.
    - destruct (get_strip_upper "uf" r) eqn:E2; cbn in E; [discriminate|].
      injection E as <-. eapply Hg. eassumption.
    - injection E as <-. eapply Hg. eassumption. }
  destruct (mapR (first_get "municipio") (map as_list locais)) as [m|e] eqn:Em;
    cbn.
  2: { f_equal. eapply mapR_only; [apply Hget | exact Em]. }
  destruct (mapR (first_get "uf") _) as [u|e] eqn:Eu; cbn.
  2: { f_equal. eapply mapR_only; [apply Hget | exact Eu]. }
  rewrite (mapR_raises is_ticket_online _ AttributeError (VDict d :: resto) Hon).
  - reflexivity.
  - apply in_map_iff. exists (VList (VDict d :: resto)). split; [reflexivity | exact Hin].
  - simpl. rewrite Hfind. destruct (snd kv); try reflexivity. discriminate.
Qed.

End LocalGanhadores.

Lemma processar_local_ganhadores_without_winners_witness :
  exists out,
    processar_local_ganhadores (H := Demo.runtime)
      (mkDF [0; 1] [("localGanhadores", [VNone; VList []])]) = Ok out /\
    get_col "ticketGanhadorOnline" out = Ok [VBool false; VBool false].
Proof.
  destruct (@processar_local_ganhadores_without_winners Demo.runtime
              (mkDF [0; 1] [("localGanhadores", [VNone; VList []])])
              [VNone; VList []] eq_refl)
    as (out & Ho & _ & _ & _ & _ & Ht).
  - repeat constructor.
  - exists out. split; assumption.
Defined.

Lemma processar_local_ganhadores_raises_on_null_municipio_witness :
  processar_local_ganhadores (H := Demo.runtime)
    (mkDF [0] [("localGanhadores",
                [VList [VDict [(VStr "municipio", VNone);
                               (VStr "uf", VStr "SP")]]])])
  = Raise AttributeError.
Proof.
  apply (@processar_local_ganhadores_raises_on_null_municipio Demo.runtime
           _ [VList [VDict [(VStr "municipio", VNone); (VStr "uf", VStr "SP")]]]
           [(VStr "municipio", VNone); (VStr "uf", VStr "SP")] []
           (VStr "municipio", VNone)).
  - reflexivity.
  - left. reflexivity.
  - reflexivity.
  - reflexivity.
Defined.

(** ** Parity and range of a draw *)

Section NumericFeatures.
Context `{PyRuntime}.

Lemma normalizar_dezenas_ints l zs :
  Forall2 (fun x z => py_int x = Some z) l zs ->
  normalizar_dezenas (VList l) = VList (map VInt zs).
Proof.
  intros Hl. unfold normalizar_dezenas.
  assert (E : foldr (fun item acc =>
                       match py_int item, acc with
                       | Some n, Some nova => Some (VInt n :: nova)
                       | _, _ => None
                       end) (Some []) l = Some (map VInt zs)).
  { induction Hl as [|x z l zs Hx Hl IH]; simpl; [reflexivity|].
    now rewrite Hx, IH. }
  now rewrite E.
Qed.

Lemma normalizar_dezenas_cases x :
  normalizar_dezenas x = VNone \/
  exists zs, normalizar_dezenas x = VList (map VInt zs).
Proof.
  destruct x; try (left; reflexivity). unfold normalizar_dezenas.
  assert (E : forall l,
            foldr (fun item acc =>
                     match py_int item, acc with
                     | Some n, Some nova => Some (VInt n :: nova)
                     | _, _ => None
                     end) (Some []) l = None \/
            exists zs,
              foldr (fun item acc =>
                       match py_int item, acc with
                       | Some n, Some nova => Some (VInt n :: nova)
                       | _, _ => None
                       end) (Some []) l = Some (map VInt zs)).
  { induction l0 as [|x l0 IH]; simpl; [right; now exists []|].
    destruct (py_int x) as [n|]; [|now left].
    destruct IH as [->|(zs & ->)]; [now left|].
    right. now exists (n :: zs). }
  destruct (E l) as [->|(zs & ->)]; [now left | right; eauto].
Qed.

Lemma normalizar_dezenas_valid
  (l : list pyval) (s : string) (lo hi : Z) :
  dezenas_validas (VList l) (VStr s) = Ok true ->
  intervalos s = Some (lo, hi) ->
  exists zs,
    normalizar_dezenas (VList l) = VList (map VInt zs) /\
    Forall2 (fun x z => py_int x = Some z) l zs /\
    Forall (fun z => lo <= z <= hi) zs.
Proof.
  intros Hok Hs. unfold dezenas_validas in Hok. simpl in Hok.
  rewrite Hs in Hok. injection Hok as Hall.
  apply all_in_range_Forall in Hall.
  assert (Hzs : exists zs, Forall2 (fun x z => py_int x = Some z) l zs /\
                           Forall (fun z => lo <= z <= hi) zs).
  { induction Hall as [|x l (k & Hk & Hr) Hl (zs & IH1 & IH2)].
    - exists []. split; constructor.
    - exists (k :: zs). split; constructor; assumption. }
  destruct Hzs as (zs & H1 & H2). exists zs.
  split; [now apply normalizar_dezenas_ints | split; assumption].
Qed.

(** X13.  A draw that passed the range check of one of the five lotteries is
    normalized by [normalizar_dezenas] to a list of integers, never to
    [None]: one integer per number drawn, each the [int] of the number and
    inside the range of the lottery. *)
Theorem normalizar_dezenas_of_a_valid_draw
  (l : list pyval) (s : string) (lo hi : Z) :
  dezenas_validas (VList l) (VStr s) = Ok true ->
  intervalos s = Some (lo, hi) ->
  exists zs,
    normalizar_dezenas (VList l) = VList (map VInt zs) /\
    Forall2 (fun x z => py_int x = Some z) l zs /\
    Forall (fun z => lo <= z <= hi) zs.
Proof. apply normalizar_dezenas_valid. Qed.

Lemma count_parity_ints even zs :
  count_parity even (VList (map VInt zs))
  = Ok (VInt (count_if (fun z => Bool.eqb (z mod 2 =? 0) even) zs)).
Proof.
  unfold count_parity.
  assert (E : forall acc,
            foldl (fun acc v =>
                     acc ← acc;
                     match v with
                     | VInt z => Ok (if Bool.eqb (z mod 2 =? 0) even
                                     then (acc + 1) else acc)
                     | _ => Raise TypeError
                     end) (Ok acc) (map VInt zs)
            = Ok (acc + count_if (fun z => Bool.eqb (z mod 2 =? 0) even) zs)).
  { unfold count_if. induction zs as [|z zs IH]; intros acc; simpl.
    - f_equal. lia.
    - try rewrite Ok_bind.
      destruct (Bool.eqb (z mod 2 =? 0) even); rewrite IH; f_equal;
        simpl length; lia. }
  rewrite E, Ok_bind. reflexivity.
Qed.

(** X14.  On the list [normalizar_dezenas] returns, the counts of even and of
    odd numbers never raise and add up to the length of the list; where
    [normalizar_dezenas] returns [None], both counts are [None]. *)
Theorem parity_counts_add_up (x : pyval) :
  match normalizar_dezenas x with
  | VList nova =>
      exists p q,
        count_parity true (VList nova) = Ok (VInt p) /\
        count_parity false (VList nova) = Ok (VInt q) /\
        0 <= p /\ 0 <= q /\ p + q = Z.of_nat (length nova)
  | other =>
      other = VNone /\
      count_parity true other = Ok VNone /\
      count_parity false other = Ok VNone
  end.
Proof.
  destruct (normalizar_dezenas_cases x) as [->|(zs & ->)];
    [repeat split; reflexivity|].
  exists (count_if (fun z => Bool.eqb (z mod 2 =? 0) true) zs),
         (count_if (fun z => Bool.eqb (z mod 2 =? 0) false) zs).
  rewrite !count_parity_ints. repeat split; try (unfold count_if; lia).
  rewrite length_map. unfold count_if.
  induction zs as [|z zs IH]; simpl; [reflexivity|].
  destruct (z mod 2 =? 0); simpl; lia.
Qed.

Lemma fold_min_max_bounds lo hi d zs :
  lo <= d <= hi -> Forall (fun z => lo <= z <= hi) zs ->
  lo <= fold_right Z.min d zs /\
  fold_right Z.min d zs <= d /\
  d <= fold_right Z.max d zs /\
  fold_right Z.max d zs <= hi.
Proof.
  intros Hd Hzs. induction Hzs as [|z zs Hz Hzs IH]; simpl; [lia|]. lia.
Qed.

(** X15.  For a draw of at least two numbers that passed the range check of
    one of the five lotteries, [range_dezenas] of the normalized list is
    an integer between 0 and the width of the range of the lottery; for a
    list of fewer than two numbers it is [None]. *)
Theorem range_dezenas_of_a_valid_draw
  (l : list pyval) (s : string) (lo hi : Z) :
  dezenas_validas (VList l) (VStr s) = Ok true ->
  intervalos s = Some (lo, hi) ->
  ((2 <= length l)%nat ->
   exists r, range_dezenas (normalizar_dezenas (VList l)) = Ok (VInt r) /\
             0 <= r <= hi - lo) /\
  ((length l < 2)%nat ->
   range_dezenas (normalizar_dezenas (VList l)) = Ok VNone).
Proof.
  intros Hok Hs.
  destruct (normalizar_dezenas_valid l s lo hi Hok Hs)
    as (zs & -> & H2 & Hr).
  pose proof (Forall2_length _ _ _ H2) as Hlen. rewrite Hlen.
  split; intros Hn.
  - destruct zs as [|z1 [|z2 zs]]; simpl in Hn; try lia.
    assert (Hm : mapR (fun v => match v with
                                | VInt z => Ok z
                                | _ => Raise TypeError
                                end) (map VInt (z1 :: z2 :: zs))
                 = Ok (z1 :: z2 :: zs)).
    { generalize (z1 :: z2 :: zs). intros ws.
      induction ws as [|w ws IH]; simpl; [reflexivity|]. now rewrite IH. }
    unfold range_dezenas.
    change (map VInt (z1 :: z2 :: zs))
      with (VInt z1 :: VInt z2 :: map VInt zs) in *.
    rewrite Hm, Ok_bind. eexists. split; [reflexivity|].
    assert (Hz1 : lo <= z1 <= hi) by (now inversion Hr).
    pose proof (fold_min_max_bounds lo hi z1 (z1 :: z2 :: zs) Hz1 Hr).
    simpl hd. lia.
  - destruct zs as [|z1 [|z2 zs]]; simpl in Hn; try lia; reflexivity.
Qed.

End NumericFeatures.

Lemma normalizar_dezenas_of_a_valid_draw_witness :
  exists zs,
    normalizar_dezenas (H := Demo.runtime) (draw [10; 22; 35; 41; 50; 58])
    = VList (map VInt zs) /\
    Forall (fun z => 1 <= z <= 60) zs.
Proof.
  destruct (@normalizar_dezenas_of_a_valid_draw Demo.runtime
              (map VInt [10; 22; 35; 41; 50; 58]) "megasena" 1 60
              eq_refl eq_refl) as (zs & Hn & _ & Hr).
  exists zs. split; assumption.
Defined.

Lemma range_dezenas_of_a_valid_draw_witness :
  exists r,
    range_dezenas (normalizar_dezenas (H := Demo.runtime)
                     (draw [10; 22; 35; 41; 50; 58])) = Ok (VInt r) /\
    0 <= r <= 59.
Proof.
  destruct (@range_dezenas_of_a_valid_draw Demo.runtime
              (map VInt [10; 22; 35; 41; 50; 58]) "megasena" 1 60
              eq_refl eq_refl) as [Hr _].
  apply Hr. simpl. lia.
Defined.

(** ** What the feature stage leaves as it is *)

Section FeatureFrame.
Context `{PyRuntime}.
Variable c : string.
Hypothesis Hc : Forall (fun n => String.eqb c n = false) colunas_escritas.
Hypothesis Hd : String.prefix "dezena_" c = false.

Ltac names :=
  repeat match goal with
         | H : Forall _ (_ :: _) |- _ => inversion H; clear H; subst
         | H : Forall _ [] |- _ => clear H
         end.

Lemma get_col_set_col_other n vs df :
  String.eqb c n = false -> get_col c (set_col n vs df) = get_col c df.
Proof. intros E. now rewrite get_col_set_col, E. Qed.

Lemma get_col_drop_col n df :
  String.eqb c n = false -> get_col c (drop_cols [n] df) = get_col c df.
Proof. intros E. apply get_col_drop_cols. simpl. now rewrite E. Qed.

Ltac set_cols := repeat (rewrite get_col_set_col_other by assumption).

Lemma criar_features_datas_keeps : keeps_column c criar_features_datas.
Proof.
  intros df out vs E Hv. unfold criar_features_datas in E.
  inv_bind E. inv_bind E. inv_bind E. inv_bind E. inversion E; subst. clear E.
  split; [reflexivity|]. pose proof Hc as Hn. unfold colunas_escritas in Hn.
  names. set_cols. exact Hv.
Qed.

Lemma expandir_dezenas_keeps : keeps_column c expandir_dezenas.
Proof.
  intros df out vs E Hv. unfold expandir_dezenas in E. inv_bind E.
  destruct (map _ a) eqn:Em; [discriminate|]. inversion E; subst. clear E.
  pose proof Hc as Hn. unfold colunas_escritas in Hn. names.
  split.
  - unfold drop_cols. simpl. now rewrite index_fold_set_col.
  - rewrite get_col_drop_col by assumption.
    rewrite get_col_fold_set_col.
    + set_cols. exact Hv.
    + intros j _ E. rewrite <- E, prefix_app in Hd. discriminate.
Qed.

Lemma separar_local_keeps : keeps_column c separar_local.
Proof.
  intros df out vs E Hv. unfold separar_local in E.
  destruct (negb (has_col "local" df)); [inversion E; subst; auto|].
  inv_bind E. inv_bind E. destruct a0 as [nome_local resto].
  inv_bind E. inv_bind E. destruct a1 as [cidade estado].
  inversion E; subst. clear E.
  pose proof Hc as Hn. unfold colunas_escritas in Hn. names.
  split; [reflexivity|].
  rewrite get_col_drop_col by assumption.
  set_cols. exact Hv.
Qed.

Lemma get_col_concat_columns df other out vs :
  concat_columns df other = Ok out -> get_col c df = Ok vs ->
  index out = index df /\ get_col c out = Ok vs.
Proof.
  unfold concat_columns. intros E Hv.
  destruct (_ && _); inversion E; subst. split; [reflexivity|].
  apply get_col_assoc in Hv. apply get_col_assoc. simpl.
  induction (cols df) as [|[k u] l IH]; simpl in *; [discriminate|].
  destruct (String.eqb c k); [exact Hv | auto].
Qed.

Lemma aplicar_expansao_premiacoes_keeps :
  keeps_column c aplicar_expansao_premiacoes.
Proof.
  intros df out vs E Hv. unfold aplicar_expansao_premiacoes in E.
  pose proof Hc as Hn. unfold colunas_escritas in Hn. names.
  inv_bind E. rename a into df1, Ha into H1.
  assert (Hv1 : index df1 = index df /\ get_col c df1 = Ok vs).
  { unfold reparse_premiacoes in H1. inv_bind H1. inv_bind H1.
    inversion H1; subst. split; [reflexivity|]. set_cols. exact Hv. }
  destruct Hv1 as [Hi1 Hv1].
  inv_bind E. destruct a as [[df2 pago] ganh]. rename Ha into H2'.
  unfold expandir_e_totalizar in H2'.
  inv_bind H2'. inv_bind H2'. inv_bind H2'. rename a1 into df3, Ha1 into Hcat.
  destruct (get_col_concat_columns _ _ _ _ Hcat Hv1) as [Hi3 Hv3].
  inv_bind H2'. inv_bind H2'. inversion H2'; subst. clear H2'.
  unfold media_premio_real in E. inv_bind E. inversion E; subst. clear E.
  split; [simpl; congruence|].
  set_cols. exact Hv3.
Qed.

Lemma processar_local_ganhadores_keeps :
  keeps_column c processar_local_ganhadores.
Proof.
  intros df out vs E Hv. unfold processar_local_ganhadores in E.
  inv_bind E. inv_bind E. inv_bind E. inv_bind E. inversion E; subst. clear E.
  pose proof Hc as Hn. unfold colunas_escritas in Hn. names.
  split; [reflexivity|]. set_cols. exact Hv.
Qed.

Lemma criar_features_numericas_keeps :
  keeps_column c criar_features_numericas.
Proof.
  intros df out vs E Hv. unfold criar_features_numericas in E.
  inv_bind E. inv_bind E. inv_bind E. inv_bind E. inv_bind E. inv_bind E.
  inversion E; subst. clear E.
  pose proof Hc as Hn. unfold colunas_escritas in Hn. names.
  split; [reflexivity|]. set_cols. exact Hv.
Qed.

Lemma feature_engineering_keeps : keeps_column c feature_engineering_etapa2.
Proof.
  intros df out vs E Hv. unfold feature_engineering_etapa2 in E.
  inv_bind E. destruct (criar_features_datas_keeps _ _ _ Ha Hv) as [I1 V1].
  inv_bind E. destruct (expandir_dezenas_keeps _ _ _ Ha0 V1) as [I2 V2].
  inv_bind E. destruct (separar_local_keeps _ _ _ Ha1 V2) as [I3 V3].
  inv_bind E. destruct (aplicar_expansao_premiacoes_keeps _ _ _ Ha2 V3) as [I4 V4].
  inv_bind E. destruct (processar_local_ganhadores_keeps _ _ _ Ha3 V4) as [I5 V5].
  inv_bind E. destruct (criar_features_numericas_keeps _ _ _ Ha4 V5) as [I6 V6].
  inversion E; subst. split; [congruence | assumption].
Qed.

End FeatureFrame.

Section FeatureStage.
Context `{PyRuntime}.


Lemma feature_stage_on_rowless (df : DataFrame) :
  get_col "data" df = Ok [] ->
  get_col "proximoConcurso" df = Ok [] ->
  get_col "dezenas" df = Ok [] ->
  feature_engineering_etapa2 df = Raise TypeError.
Proof.
  intros Hd Hp Hz. unfold feature_engineering_etapa2, criar_features_datas.
  rewrite Hd. cbn -[set_col get_col expandir_dezenas].
  rewrite !get_col_set_col. cbn -[set_col get_col expandir_dezenas].
  rewrite Hp. cbn -[set_col get_col expandir_dezenas].
  rewrite expandir_dezenas_raises_without_rows; [reflexivity|].
  rewrite !get_col_set_col. exact Hz.
Qed.

Lemma wf_rowless c df vs :
  wf df -> index df = [] -> get_col c df = Ok vs -> vs = [].
Proof.
  intros Hwf Hi Hv. apply (wf_get_col _ _ _ Hwf) in Hv.
  unfold n_rows in Hv. rewrite Hi in Hv. now destruct vs.
Qed.

Lemma feature_stage_rowless (df out : DataFrame) :
  wf df ->
  data_cleaning_etapa1 df = Ok out ->
  index out = [] ->
  feature_engineering_etapa2 out = Raise KeyError \/
  feature_engineering_etapa2 out = Raise TypeError.
Proof.
  intros Hwf Hc Hi.
  destruct (data_cleaning_shape df out Hwf Hc) as (Hwfo & _ & _).
  destruct (get_col "data" out) as [d|e] eqn:Ed.
  2: { left. unfold feature_engineering_etapa2, criar_features_datas.
       rewrite Ed. unfold get_col in Ed.
       destruct (assoc "data" (cols out)); [discriminate|].
       now inversion Ed. }
  right.
  assert (Hn : column_names out <> []).
  { apply get_col_has_col in Ed. unfold has_col in Ed.
    intros E. now rewrite E in Ed. }
  unfold data_cleaning_etapa1 in Hc.
  inv_bind Hc. rename a into pruned, Ha into Hp.
  inv_bind Hc. rename a into conv, Ha into Ht.
  inv_bind Hc. rename a into out', Ha into Hv.
  inversion Hc; subst out'. clear Hc.
  unfold tratar_tipos_e_colunas in Ht.
  inv_bind Ht. rename a into dedup, Ha into Hdd.
  destruct (converter_tipos_needs _ _ Ht) as (_ & Hc2 & Hc3).
  assert (Hnames : column_names out
                   = column_names (aplicar_normalizacao_listas conv)).
  { unfold validar_dezenas in Hv.
    inv_bind Hv. inv_bind Hv. inv_bind Hv. inversion Hv; subst. clear Hv.
    rename a1 into df2, Ha1 into Hf.
    change (column_names (reset_index df2)) with (column_names df2) in *.
    unfold filtrar_intervalo in Hf.
    destruct (index (select_rows _ _)) as [|i0 idx] eqn:Ei.
    - destruct (has_col "loteria" _); inversion Hf; subst.
      + now elim Hn.
      + apply names_select_rows.
    - inv_bind Hf. inversion Hf; subst.
      now rewrite !names_select_rows. }
  assert (Hdz : has_col "dezenas" (aplicar_normalizacao_listas conv) = true).
  { unfold validar_dezenas, expected_count_of in Hv.
    inv_bind Hv. inv_bind Ha. eapply get_col_has_col. eassumption. }
  assert (Hnc : column_names (aplicar_normalizacao_listas conv)
                = column_names dedup).
  { unfold aplicar_normalizacao_listas. rewrite names_fold_update_col.
    eapply converter_tipos_names. eassumption. }
  assert (Hhas : forall c, has_col c dedup = true -> exists vs, get_col c out = Ok vs).
  { intros c Hcd. apply has_col_get_col.
    erewrite has_col_names; [exact Hcd | congruence]. }
  destruct (Hhas "proximoConcurso" Hc3) as [p Hp'].
  destruct (has_col_get_col "dezenas" out) as [z Hz].
  { erewrite has_col_names; [exact Hdz | exact Hnames]. }
  apply feature_stage_on_rowless.
  - now rewrite (wf_rowless _ _ _ Hwfo Hi Ed) in Ed.
  - now rewrite (wf_rowless _ _ _ Hwfo Hi Hp') in Hp'.
  - now rewrite (wf_rowless _ _ _ Hwfo Hi Hz) in Hz.
Qed.

(** X17.  When the cleaning stage returns a batch without rows (every row was
    rejected), the feature stage raises on it: [KeyError] or
    [TypeError]. *)
Theorem feature_stage_raises_on_a_rowless_cleaned_batch (df out : DataFrame) :
  wf df ->
  data_cleaning_etapa1 df = Ok out ->
  index out = [] ->
  feature_engineering_etapa2 out = Raise KeyError \/
  feature_engineering_etapa2 out = Raise TypeError.
Proof. apply feature_stage_rowless. Qed.

End FeatureStage.


Lemma feature_stage_raises_on_a_rowless_cleaned_batch_witness :
  feature_engineering_etapa2 (H := Demo.runtime) batch_out_of_range_cleaned
  = Raise KeyError \/
  feature_engineering_etapa2 (H := Demo.runtime) batch_out_of_range_cleaned
  = Raise TypeError.
Proof.
  apply (@feature_stage_raises_on_a_rowless_cleaned_batch Demo.runtime
           batch_out_of_range batch_out_of_range_cleaned).
  - repeat constructor.
  - reflexivity.
  - reflexivity.
Defined.

(** ** Tables after [listas_para_json] *)

Section JsonColumns.
Context `{PyRuntime}.

Lemma encode_col_no_list vs vs' :
  encode_col vs = Ok vs' -> existsb is_list vs' = false.
Proof.
  unfold encode_col. destruct (existsb is_list vs) eqn:E; intros Hv.
  - apply dumps_column_mapR in Hv. destruct Hv as (ss & _ & ->).
    induction ss; simpl; auto.
  - now inversion Hv; subst.
Qed.

Lemma listas_para_json_col_fixed df col vs :
  get_col col df = Ok vs -> existsb is_list vs = false ->
  listas_para_json_col df col = Ok df.
Proof. intros Hv Hl. unfold listas_para_json_col. now rewrite Hv, Ok_bind, Hl. Qed.

Lemma listas_para_json_fixed names df :
  (forall c, In c names ->
             exists vs, get_col c df = Ok vs /\ existsb is_list vs = false) ->
  foldl (fun acc col => df ← acc; listas_para_json_col df col) (Ok df) names
  = Ok df.
Proof.
  induction names as [|c names IH]; simpl; intros Hn; [reflexivity|].
  destruct (Hn c (or_introl eq_refl)) as (vs & Hv & Hl).
  try rewrite Ok_bind.
  rewrite (listas_para_json_col_fixed _ _ _ Hv Hl).
  apply IH. intros c' Hc'. apply Hn. now right.
Qed.

Lemma listas_para_json_no_list df out c vs :
  listas_para_json df = Ok out -> get_col c out = Ok vs ->
  existsb is_list vs = false.
Proof.
  intros E Hv. unfold listas_para_json in E.
  destruct (listas_para_json_fold _ _ _ E) as ([Hn _] & Hcols).
  destruct (has_col_get_col c df) as [vs0 Hv0].
  { erewrite <- has_col_names; [eapply get_col_has_col; exact Hv | exact Hn]. }
  specialize (Hcols c vs0 Hv0).
  assert (Hin : existsb (String.eqb c) (column_names df) = true)
    by (eapply get_col_has_col; exact Hv0).
  rewrite Hin in Hcols. destruct Hcols as (vs' & He & Hg).
  rewrite Hg in Hv. injection Hv as <-.
  eapply encode_col_no_list. exact He.
Qed.

(** X18.  After [listas_para_json] no cell of the table is a list, and the
    encoding is idempotent: applied to a table it has returned, it returns
    that table unchanged. *)
Theorem listas_para_json_leaves_no_list (df out : DataFrame) :
  listas_para_json df = Ok out ->
  (forall c vs, get_col c out = Ok vs -> existsb is_list vs = false) /\
  listas_para_json out = Ok out.
Proof.
  intros E. split.
  - intros c vs. now apply (listas_para_json_no_list df).
  - unfold listas_para_json. apply listas_para_json_fixed.
    intros c Hc.
    destruct (has_col_get_col c out) as [vs Hv].
    { unfold has_col. apply existsb_exists. exists c.
      split; [exact Hc | apply String.eqb_refl]. }
    exists vs. split; [exact Hv|].
    eapply listas_para_json_no_list; eassumption.
Qed.

End JsonColumns.

Lemma listas_para_json_leaves_no_list_witness :
  exists out,
    listas_para_json (H := Demo.runtime) batch_with_lists = Ok out /\
    listas_para_json (H := Demo.runtime) out = Ok out.
Proof.
  destruct (listas_para_json (H := Demo.runtime) batch_with_lists)
    as [out|e] eqn:E; [|vm_compute in E; discriminate].
  exists out. split; [reflexivity|].
  apply (@listas_para_json_leaves_no_list Demo.runtime batch_with_lists out E).
Defined.

(** ** What the persistence stage leaves as it is *)

Section StoreFrame.
Context `{PyRuntime}.

Lemma relation_write_relation_other caminho nome df db nome' w :
  db <> caminho \/ nome' <> nome ->
  relation db nome' (write_relation caminho nome df w) = relation db nome' w.
Proof.
  intros Hne. unfold relation, write_relation. simpl.
  destruct (decide (db = caminho)) as [->|Hdb].
  - rewrite lookup_insert_eq. simpl.
    destruct Hne as [Hne|Hne]; [congruence|].
    rewrite lookup_insert_ne by congruence.
    destruct (databases w !! caminho); simpl; [reflexivity|].
    apply lookup_empty.
  - now rewrite lookup_insert_ne by congruence.
Qed.

Lemma relation_close db nome w : relation db nome (close w) = relation db nome w.
Proof. reflexivity. Qed.

Lemma salvar_sqlite_frame df caminho w db nome :
  db <> caminho \/ first_loteria df <> Ok nome ->
  relation db nome (salvar_sqlite df caminho w).2 = relation db nome w.
Proof.
  intros Hne. unfold salvar_sqlite.
  destruct (first_loteria df) as [n0|e] eqn:En; [|reflexivity].
  unfold connect. destruct (existsb _ (unopenable w)); [reflexivity|].
  unfold try_finally, to_sql.
  assert (Hne' : db <> caminho \/ nome <> n0).
  { destruct Hne as [Hne|Hne]; [now left | right; congruence]. }
  destruct (forallb _ (cols df)); simpl;
    rewrite relation_close, relation_write_relation_other by assumption;
    reflexivity.
Qed.

Lemma salvar_no_sqlite_frame
  (df : DataFrame) (caminho : option string) (w : world) (db nome : string) :
  db <> default "loterias.db" caminho \/ stage_relation_name df <> Ok nome ->
  relation db nome (salvar_no_sqlite_etapa3 df caminho w).2 = relation db nome w.
Proof.
  intros Hne. unfold salvar_no_sqlite_etapa3.
  unfold stage_relation_name in Hne.
  destruct (listas_para_json df) as [df_json|e]; [|reflexivity].
  rewrite Ok_bind in Hne. now apply salvar_sqlite_frame.
Qed.

(** X19.  The persistence stage writes to one relation at most: whether it
    returns or raises, every relation of every database other than the
    relation it names in the database it was given holds what it held. *)
Theorem persistence_touches_one_relation
  (df : DataFrame) (caminho : option string) (w : world) (db nome : string) :
  db <> default "loterias.db" caminho \/ stage_relation_name df <> Ok nome ->
  relation db nome (salvar_no_sqlite_etapa3 df caminho w).2 = relation db nome w.
Proof. apply salvar_no_sqlite_frame. Qed.

Lemma listas_para_json_rowless df :
  wf df -> index df = [] -> listas_para_json df = Ok df.
Proof.
  intros Hwf Hi. unfold listas_para_json. apply listas_para_json_fixed.
  intros c Hc. destruct (has_col_get_col c df) as [vs Hv].
  { unfold has_col. apply existsb_exists. exists c.
    split; [exact Hc | apply String.eqb_refl]. }
  exists vs. split; [exact Hv|].
  apply (wf_get_col _ _ _ Hwf) in Hv. unfold n_rows in Hv. rewrite Hi in Hv.
  now destruct vs.
Qed.

(** X20.  Given a batch without rows, the persistence stage raises [IndexError]
    before it connects: the store is as it was, and the relation of the
    lottery keeps its rows. *)
Theorem persistence_raises_on_a_rowless_batch
  (df : DataFrame) (caminho : option string) (w : world) :
  wf df -> index df = [] -> has_col "loteria" df = true ->
  salvar_no_sqlite_etapa3 df caminho w = (Raise IndexError, w).
Proof.
  intros Hwf Hi Hl. unfold salvar_no_sqlite_etapa3.
  rewrite (listas_para_json_rowless df Hwf Hi).
  unfold salvar_sqlite, first_loteria.
  destruct (has_col_get_col _ _ Hl) as [vs Hv]. rewrite Hv, Ok_bind.
  apply (wf_get_col _ _ _ Hwf) in Hv. unfold n_rows in Hv. rewrite Hi in Hv.
  destruct vs; [reflexivity | discriminate].
Qed.

End StoreFrame.

Lemma persistence_touches_one_relation_witness :
  relation "loterias.db" "lotofacil"
    (salvar_no_sqlite_etapa3 (H := Demo.runtime) batch_megasena_cleaned None
       world_after_three).2
  = relation "loterias.db" "lotofacil" world_after_three.
Proof.
  apply (@persistence_touches_one_relation Demo.runtime).
  right. vm_compute. discriminate.
Defined.

Lemma persistence_raises_on_a_rowless_batch_witness :
  salvar_no_sqlite_etapa3 (H := Demo.runtime) empty_batch None world_after_three
  = (Raise IndexError, world_after_three).
Proof.
  apply (@persistence_raises_on_a_rowless_batch Demo.runtime).
  - repeat constructor.
  - reflexivity.
  - reflexivity.
Defined.

(** ** The values [json.dumps] encodes *)

Section JsonDumps.
Context `{PyRuntime}.

Lemma json_key_spec k :
  (json_scalar_key k = true -> exists s, json_key k = Ok s) /\
  (json_scalar_key k = false -> json_key k = Raise TypeError).
Proof. destruct k; simpl; split; intros E; try discriminate; eauto. Qed.

Lemma json_dumps_spec :
  forall v,
    (json_like v = true -> exists s, json_dumps v = Ok s) /\
    (json_like v = false -> json_dumps v = Raise TypeError).
Proof.
  fix IH 1. intros v.
  assert (Hlist : forall l,
            let go := fix go (l : list pyval) : result (list string) :=
                        match l with
                        | [] => Ok []
                        | x :: r => s ← json_dumps x; ss ← go r; Ok (s :: ss)
                        end in
            let ok := fix go (l : list pyval) : bool :=
                        match l with
                        | [] => true
                        | x :: r => json_like x && go r
                        end in
            (ok l = true -> exists ss, go l = Ok ss) /\
            (ok l = false -> go l = Raise TypeError)).
  { induction l as [|x l IHl]; simpl.
    - split; [eauto | discriminate].
    - destruct (IH x) as [Hx1 Hx2].
      destruct (json_like x); simpl.
      + destruct (Hx1 eq_refl) as [s ->]. cbn.
        destruct IHl as [Hl1 Hl2]. split; intros E.
        * destruct (Hl1 E) as [ss ->]. cbn. eauto.
        * rewrite (Hl2 E). reflexivity.
      + rewrite (Hx2 eq_refl). split; [discriminate | reflexivity]. }
  assert (Hdict : forall d,
            let go := fix go (d : list (pyval * pyval)) : result (list string) :=
                        match d with
                        | [] => Ok []
                        | (k, x) :: r =>
                            ks ← json_key k; s ← json_dumps x; ss ← go r;
                            Ok ((ks +:+ ": " +:+ s) :: ss)
                        end in
            let ok := fix go (d : list (pyval * pyval)) : bool :=
                        match d with
                        | [] => true
                        | (k, x) :: r => json_scalar_key k && json_like x && go r
                        end in
            (ok d = true -> exists ss, go d = Ok ss) /\
            (ok d = false -> go d = Raise TypeError)).
  { induction d as [|[k x] d IHd]; simpl.
    - split; [eauto | discriminate].
    - destruct (json_key_spec k) as [Hk1 Hk2].
      destruct (json_scalar_key k); simpl.
      2: { rewrite (Hk2 eq_refl). split; [discriminate | reflexivity]. }
      destruct (Hk1 eq_refl) as [ks ->]. cbn.
      destruct (IH x) as [Hx1 Hx2].
      destruct (json_like x); simpl.
      + destruct (Hx1 eq_refl) as [s ->]. cbn.
        destruct IHd as [Hd1 Hd2]. split; intros E.
        * destruct (Hd1 E) as [ss ->]. cbn. eauto.
        * rewrite (Hd2 E). reflexivity.
      + rewrite (Hx2 eq_refl). split; [discriminate | reflexivity]. }
  destruct v; simpl; try (split; [eauto | discriminate]);
    try (split; [discriminate | reflexivity]).
  - destruct (Hlist l) as [H1 H2]. split; intros E.
    + destruct (H1 E) as [ss Hss]. simpl in Hss. rewrite Hss. cbn. eauto.
    + specialize (H2 E). simpl in H2. rewrite H2. reflexivity.
  - destruct (Hlist l) as [H1 H2]. split; intros E.
    + destruct (H1 E) as [ss Hss]. simpl in Hss. rewrite Hss. cbn. eauto.
    + specialize (H2 E). simpl in H2. rewrite H2. reflexivity.
  - destruct (Hdict d) as [H1 H2]. split; intros E.
    + destruct (H1 E) as [ss Hss]. simpl in Hss. rewrite Hss. cbn. eauto.
    + specialize (H2 E). simpl in H2. rewrite H2. reflexivity.
Qed.

(** X21.  [json.dumps] returns exactly on the values made of [None], booleans,
    numbers, strings, lists, tuples and dicts whose keys are scalars; on
    any other value (one that holds a timestamp, [NaT], [NA], or a dict
    with a tuple as key) it raises [TypeError].  So [listas_para_json]
    raises [TypeError] when a column with a list has such a cell. *)
Theorem json_dumps_returns_exactly_on_json_values :
  (forall v, is_ok (json_dumps v) = json_like v) /\
  (forall v e, json_dumps v = Raise e -> e = TypeError) /\
  (forall df c vs v,
     In c (column_names df) -> get_col c df = Ok vs ->
     existsb is_list vs = true -> In v vs -> json_like v = false ->
     listas_para_json df = Raise TypeError).
Proof.
  split; [|split].
  - intros v. destruct (json_dumps_spec v) as [H1 H2].
    destruct (json_like v).
    + destruct (H1 eq_refl) as [s ->]. reflexivity.
    + now rewrite (H2 eq_refl).
  - intros v e E. destruct (json_dumps_spec v) as [H1 H2].
    destruct (json_like v).
    + destruct (H1 eq_refl) as [s Hs]. congruence.
    + rewrite (H2 eq_refl) in E. now injection E.
  - intros df c vs v Hc Hv Hl Hin Hj.
    destruct (listas_para_json df) as [out|e] eqn:E.
    + exfalso. unfold listas_para_json in E.
      apply listas_para_json_fold in E. destruct E as [_ Hcols].
      specialize (Hcols c vs Hv).
      rewrite (get_col_has_col _ _ _ Hv : existsb _ _ = true) in Hcols.
      destruct Hcols as (vs' & He & _). unfold encode_col in He.
      rewrite Hl in He. apply dumps_column_mapR in He.
      destruct He as (ss & Hss & _).
      assert (Hall : forall l ss, mapR json_dumps l = Ok ss ->
                                  forall x, In x l -> json_like x = true).
      { clear. induction l as [|y l IH]; simpl; intros ss E x Hx; [destruct Hx|].
        inv_bind E. inv_bind E. destruct Hx as [<-|Hx]; [|eauto].
        destruct (json_dumps_spec y) as [_ H2].
        destruct (json_like y); [reflexivity|].
        rewrite (H2 eq_refl) in Ha. discriminate. }
      rewrite (Hall _ _ Hss v Hin) in Hj. discriminate.
    + f_equal. clear - E.
      unfold listas_para_json in E.
      assert (Hgen : forall names acc,
                (forall e', acc = Raise e' -> e' = TypeError) ->
                (forall d, acc = Ok d -> forall c, In c names -> has_col c d = true) ->
                foldl (fun acc col => df ← acc; listas_para_json_col df col)
                      acc names = Raise e -> e = TypeError).
      { induction names as [|c names IH]; simpl; intros acc Hacc Hhas E'.
        - now apply Hacc.
        - apply IH in E'; [assumption| |].
          + intros e' E1. destruct acc as [d|e0]; cbn in E1.
            * unfold listas_para_json_col in E1.
              destruct (has_col_get_col c d) as [vs Hv];
                [eapply Hhas; [reflexivity | now left]|].
              rewrite Hv, Ok_bind in E1.
              destruct (existsb is_list vs); [|discriminate].
              destruct (dumps_column vs) as [ws|e1] eqn:Ed; [discriminate|].
              cbn in E1. injection E1 as <-.
              unfold dumps_column in Ed.
              eapply (mapR_only _ vs TypeError); [|exact Ed].
              intros x e2 Ex. cbn beta in Ex.
              destruct (json_dumps x) as [s|e3] eqn:Ej; [discriminate|].
              cbn in Ex. injection Ex as <-.
              destruct (json_dumps_spec x) as [H1 H2].
              destruct (json_like x).
              -- destruct (H1 eq_refl) as [s Hs]. congruence.
              -- rewrite (H2 eq_refl) in Ej. now injection Ej.
            * injection E1 as <-. now apply Hacc.
          + intros d' E1 c' Hc'. destruct acc as [d|e0]; [|discriminate].
            cbn in E1. apply listas_para_json_col_spec in E1.
            destruct E1 as ([Hn _] & _).
            erewrite has_col_names; [|exact Hn].
            eapply Hhas; [reflexivity | now right]. }
      apply (Hgen (column_names df) (Ok df)); [discriminate| |exact E].
      intros d Ed c Hc. injection Ed as <-.
      unfold has_col. apply existsb_exists. exists c.
      split; [exact Hc | apply String.eqb_refl].
Qed.

End JsonDumps.

Lemma json_dumps_returns_exactly_on_json_values_witness :
  listas_para_json (H := Demo.runtime)
    (mkDF [0; 1] [("sorteio", [VList [VInt 1]; VNaT])])
  = Raise TypeError.
Proof.
  destruct (@json_dumps_returns_exactly_on_json_values Demo.runtime)
    as (_ & _ & Hraise).
  apply (Hraise _ "sorteio" [VList [VInt 1]; VNaT] VNaT).
  - left. reflexivity.
  - reflexivity.
  - reflexivity.
  - right. left. reflexivity.
  - reflexivity.
Defined.

(** ** Names of lotteries, each once *)

Section Unique.

Lemma unique_In x l : In x (unique l) <-> In x l.
Proof.
  induction l as [|y l IH]; simpl; [tauto|].
  rewrite filter_In, IH. split.
  - intros [->|[Hin _]]; auto.
  - intros [->|Hin]; [now left|].
    destruct (String.eqb_spec x y) as [->|Hne]; [now left|].
    right. split; [exact Hin|]. simpl.
    destruct (String.eqb_spec x y); [contradiction | reflexivity].
Qed.

Lemma NoDup_filter' {A} (p : A -> bool) l : List.NoDup l -> List.NoDup (List.filter p l).
Proof.
  induction 1 as [|x l Hx Hl IH]; simpl; [constructor|].
  destruct (p x); [|exact IH]. constructor; [|exact IH].
  rewrite filter_In. tauto.
Qed.

Lemma unique_NoDup l : List.NoDup (unique l).
Proof.
  induction l as [|x l IH]; simpl; constructor.
  - rewrite filter_In. intros [_ E]. now rewrite String.eqb_refl in E.
  - now apply NoDup_filter'.
Qed.

Lemma count_notin c l : ~ In c l -> ocorrencias c l = 0%nat.
Proof.
  unfold ocorrencias. induction l as [|x l IH]; simpl; [reflexivity|].
  intros Hn. destruct (String.eqb_spec x c) as [->|]; [tauto|].
  apply IH. tauto.
Qed.

Lemma sum_counts_filter x l keys :
  List.NoDup keys ->
  list_sum (map (fun c => ocorrencias c l) keys)
  = (list_sum (map (fun c => ocorrencias c l)
                   (List.filter (fun y => negb (String.eqb y x)) keys))
     + (if existsb (String.eqb x) keys then ocorrencias x l else 0))%nat.
Proof.
  induction 1 as [|k keys Hk Hkeys IH]; simpl; [reflexivity|].
  destruct (String.eqb_spec k x) as [->|Hne]; simpl.
  - rewrite String.eqb_refl. simpl. rewrite IH.
    assert (E : existsb (String.eqb x) keys = false).
    { destruct (existsb (String.eqb x) keys) eqn:E; [|reflexivity].
      apply existsb_exists in E. destruct E as (y & Hy & Ey).
      apply String.eqb_eq in Ey. subst y. contradiction. }
    rewrite E. lia.
  - destruct (String.eqb_spec x k) as [->|_]; [contradiction|]. simpl.
    rewrite IH. lia.
Qed.

Lemma sum_counts_ext (f g : string -> nat) keys :
  (forall c, In c keys -> f c = g c) ->
  list_sum (map f keys) = list_sum (map g keys).
Proof.
  induction keys as [|k keys IH]; simpl; intros E; [reflexivity|].
  rewrite (E k) by now left. rewrite IH; [reflexivity|].
  intros c Hc. apply E. now right.
Qed.

Lemma sum_counts_unique l :
  list_sum (map (fun c => ocorrencias c l) (unique l)) = length l.
Proof.
  induction l as [|x l IH]; simpl; [reflexivity|].
  unfold ocorrencias at 1. simpl. rewrite String.eqb_refl. simpl. f_equal.
  fold (ocorrencias x l).
  rewrite (sum_counts_ext _ (fun c => ocorrencias c l)).
  - rewrite <- IH.
    rewrite (sum_counts_filter x l (unique l) (unique_NoDup l)).
    destruct (existsb (String.eqb x) (unique l)) eqn:E; [lia|].
    rewrite count_notin; [lia|].
    intros Hin. apply unique_In in Hin.
    assert (existsb (String.eqb x) (unique l) = true); [|congruence].
    apply existsb_exists. exists x. split; [exact Hin | apply String.eqb_refl].
  - intros c Hc. apply filter_In in Hc. destruct Hc as [_ Hc].
    unfold ocorrencias. simpl.
    destruct (String.eqb_spec x c) as [->|]; [|reflexivity].
    now rewrite String.eqb_refl in Hc.
Qed.

Lemma filter_by_count {A} (p : string -> bool) (l : list string) (idx : list A) :
  length l = length idx ->
  length (filter_by (map p l) idx) = length (List.filter p l).
Proof.
  revert idx. induction l as [|x l IH]; intros [|i idx]; simpl;
    try discriminate; [reflexivity|].
  intros E. injection E as E. destruct (p x); simpl; now rewrite IH.
Qed.

Lemma filter_by_map_filter {A} (p : string -> bool) (f : string -> A) l :
  filter_by (map p l) (map f l) = map f (List.filter p l).
Proof.
  induction l as [|x l IH]; simpl; [reflexivity|].
  destruct (p x); simpl; now rewrite IH.
Qed.

Lemma assoc_set_fresh {A} k (v : A) d :
  ~ In k (map fst d) -> assoc_set k v d = (d ++ [(k, v)])%list.
Proof.
  induction d as [|[k' v'] d IH]; simpl; [reflexivity|]. intros Hn.
  destruct (String.eqb_spec k k') as [->|]; [tauto|].
  rewrite IH by tauto. reflexivity.
Qed.

End Unique.

Section SepararLoop.
Context `{PyRuntime} `{StrMethods}.

Lemma salvar_concursos_failed df lot dir concursos acc d e d' :
  salvar_concursos df lot dir concursos acc d = (Failed e, d') -> e = OSError.
Proof.
  revert acc d. induction concursos as [|c cs IH]; simpl; intros acc d E;
    [discriminate|].
  unfold to_csv in E.
  destruct (existsb _ (unwritable d)).
  - now injection E as <- _.
  - eapply IH. exact E.
Qed.

Lemma salvar_concursos_done df lot dir concursos acc d t d' :
  List.NoDup concursos ->
  (forall c, In c concursos -> ~ In c (map fst acc)) ->
  salvar_concursos df lot dir concursos acc d = (Done t, d') ->
  t = (acc ++ map (fun c => (c, tabela_do_concurso df lot c)) concursos)%list /\
  d' = fold_left (fun d c => gravar (caminho_csv dir c)
                                    (tabela_do_concurso df lot c) d)
                 concursos d.
Proof.
  intros Hnd. revert acc d.
  induction Hnd as [|c cs Hc Hcs IH]; simpl; intros acc d Hfresh E.
  - injection E as <- <-. now rewrite app_nil_r.
  - unfold to_csv in E. fold (caminho_csv dir c) in E.
    destruct (existsb _ (unwritable d)); [discriminate|].
    apply IH in E.
    + destruct E as [-> ->]. split; [|reflexivity].
      rewrite assoc_set_fresh by (apply Hfresh; now left).
      now rewrite <- app_assoc.
    + intros c' Hc' Hin.
      rewrite assoc_set_fresh in Hin by (apply Hfresh; now left).
      rewrite map_app in Hin. apply in_app_or in Hin.
      destruct Hin as [Hin|[<-|[]]].
      * apply (Hfresh c'); [now right | exact Hin].
      * contradiction.
Qed.

Lemma salvar_concursos_writable df lot dir concursos acc d :
  (forall c, In c concursos ->
             existsb (String.eqb (caminho_csv dir c)) (unwritable d) = false) ->
  exists t d', salvar_concursos df lot dir concursos acc d = (Done t, d').
Proof.
  revert acc d. induction concursos as [|c cs IH]; simpl; intros acc d Hw;
    [eauto|].
  unfold to_csv. fold (caminho_csv dir c).
  rewrite (Hw c) by now left. apply IH. intros c' Hc'. simpl. apply Hw. now right.
Qed.

End SepararLoop.

Section Separar.
Context `{PyRuntime} `{StrMethods}.

Lemma wf_dropna_all df : wf df -> wf (reset_index (dropna_all df)).
Proof. intros Hwf. apply wf_reset_index. now apply wf_select_rows. Qed.

(** What [separar_concursos] computes before its loop: the table with its
    [loteria] column standardized, and the names in that column. *)
Lemma separar_concursos_inv origem dir d r d' :
  separar_concursos origem dir d = (r, d') ->
  (exists e, carregar origem d = Failed e /\ r = Failed e /\ d' = d) \/
  (exists df0, carregar origem d = Done df0 /\
               has_col "loteria" df0 = false /\
               r = Failed (PyExn ValueError) /\ d' = d) \/
  (exists df0 col,
     carregar origem d = Done df0 /\
     get_col "loteria" (reset_index (dropna_all df0)) = Ok col /\
     let loteria := map padronizar_loteria col in
     salvar_concursos
       (set_col "loteria" (map VStr loteria) (reset_index (dropna_all df0)))
       loteria (default "raw" dir) (unique loteria) [] d = (r, d')).
Proof.
  unfold separar_concursos. intros E.
  destruct (carregar origem d) as [df0|e] eqn:Ec.
  2: { left. exists e. now injection E as <- <-. }
  right.
  assert (Hn : has_col "loteria" (reset_index (dropna_all df0))
               = has_col "loteria" df0).
  { apply has_col_names. unfold dropna_all.
    change (column_names (reset_index ?x)) with (column_names x).
    apply names_select_rows. }
  rewrite Hn in E.
  destruct (has_col "loteria" df0) eqn:Eh; simpl in E.
  - right. apply has_col_get_col in Hn.
    destruct Hn as [col Hcol]. rewrite Hcol in E.
    exists df0, col. auto.
  - left. exists df0. now injection E as <- <-.
Qed.

End Separar.

(** ** The tables of [separar_concursos] *)

Section Partition.
Context `{PyRuntime} `{StrMethods}.

Lemma n_rows_reset_index df : n_rows (reset_index df) = n_rows df.
Proof. unfold reset_index, n_rows at 1. simpl. apply range_from_length. Qed.

Lemma ocorrencias_pos c l : In c l -> (1 <= ocorrencias c l)%nat.
Proof.
  unfold ocorrencias. induction l as [|x l IH]; simpl; [tauto|].
  intros [->|Hin].
  - rewrite String.eqb_refl. simpl. lia.
  - destruct (String.eqb x c); simpl; [lia | auto].
Qed.

Lemma n_rows_tabela_do_concurso df loteria c :
  length loteria = n_rows df ->
  n_rows (tabela_do_concurso df loteria c) = ocorrencias c loteria.
Proof.
  intros Hlen. unfold tabela_do_concurso. rewrite n_rows_reset_index.
  unfold n_rows, select_rows. simpl.
  now apply (filter_by_count (fun s => String.eqb s c)).
Qed.

Lemma tabelas_do_concurso df col :
  wf df -> get_col "loteria" df = Ok col ->
  let loteria := map padronizar_loteria col in
  let df' := set_col "loteria" (map VStr loteria) df in
  let tabelas := map (fun c => (c, tabela_do_concurso df' loteria c))
                     (unique loteria) in
  List.NoDup (map fst tabelas) /\
  total_rows tabelas = n_rows df /\
  Forall (fun kv =>
            wf (snd kv) /\
            index (snd kv) <> [] /\
            index (snd kv) = range_from 0 (n_rows (snd kv)) /\
            exists vs, get_col "loteria" (snd kv) = Ok vs /\
                       Forall (fun v => v = VStr (fst kv)) vs) tabelas.
Proof.
  intros Hwf Hcol loteria df' tabelas.
  assert (Hlen : length loteria = n_rows df').
  { unfold loteria. rewrite length_map.
    change (n_rows df') with (n_rows df). eapply wf_get_col; eassumption. }
  assert (Hwf' : wf df').
  { apply wf_set_col; [assumption|]. rewrite length_map. exact Hlen. }
  split; [|split].
  - unfold tabelas. rewrite map_map. simpl. rewrite map_id. apply unique_NoDup.
  - unfold total_rows, tabelas. rewrite map_map. simpl.
    rewrite (sum_counts_ext _ (fun c => ocorrencias c loteria)).
    + rewrite sum_counts_unique. exact Hlen.
    + intros c _. now apply n_rows_tabela_do_concurso.
  - unfold tabelas. apply List.Forall_map, List.Forall_forall.
    intros c Hc. simpl. apply (proj1 (unique_In c loteria)) in Hc.
    pose proof (n_rows_tabela_do_concurso df' loteria c Hlen) as Hn.
    pose proof (ocorrencias_pos c loteria Hc) as Hpos.
    split; [|split; [|split]].
    + apply wf_reset_index. now apply wf_select_rows.
    + intros E. apply (f_equal (@length Z)) in E.
      rewrite range_from_length in E. simpl in E.
      unfold tabela_do_concurso in Hn. rewrite n_rows_reset_index in Hn. lia.
    + unfold tabela_do_concurso at 1. simpl. now rewrite n_rows_reset_index.
    + exists (map VStr (List.filter (fun s => String.eqb s c) loteria)).
      split.
      * unfold tabela_do_concurso.
        change (get_col "loteria" (reset_index ?x)) with (get_col "loteria" x).
        erewrite get_col_select_rows
          by (unfold df'; rewrite get_col_set_col; reflexivity).
        now rewrite filter_by_map_filter.
      * apply List.Forall_map, List.Forall_forall. intros s Hs.
        apply filter_In in Hs. destruct Hs as [_ Hs].
        apply String.eqb_eq in Hs. now subst.
Qed.

(** X22.  [separar_concursos] partitions the rows that are not entirely null
    among the lotteries: the keys of the dict it returns are distinct; the
    tables have together as many rows as the dataset has rows with a value;
    and each table has at least one row, the labels 0, 1, 2, ..., and in
    its [loteria] column nothing but its own key. *)
Theorem separar_concursos_partitions_the_rows
  (origem : fonte) (output_dir : option string) (d d' : disk)
  (df0 : DataFrame) (tabelas : list (string * DataFrame)) :
  carregar origem d = Done df0 ->
  wf df0 ->
  separar_concursos origem output_dir d = (Done tabelas, d') ->
  List.NoDup (map fst tabelas) /\
  total_rows tabelas = n_rows (dropna_all df0) /\
  Forall (fun kv =>
            wf (snd kv) /\
            index (snd kv) <> [] /\
            index (snd kv) = range_from 0 (n_rows (snd kv)) /\
            exists vs, get_col "loteria" (snd kv) = Ok vs /\
                       Forall (fun v => v = VStr (fst kv)) vs) tabelas.
Proof.
  intros Hload Hwf E.
  destruct (separar_concursos_inv _ _ _ _ _ E)
    as [(e & Hc & _)|[(df1 & _ & _ & Hr & _)|(df1 & col & Hc & Hcol & Hloop)]];
    try congruence.
  rewrite Hload in Hc. injection Hc as <-.
  apply salvar_concursos_done in Hloop;
    [|apply unique_NoDup | intros c _ []].
  destruct Hloop as [-> _]. simpl app.
  rewrite <- (n_rows_reset_index (dropna_all df0)).
  apply tabelas_do_concurso; [now apply wf_dropna_all | exact Hcol].
Qed.

End Partition.

(** ** The files of [separar_concursos] *)

Section CsvFiles.
Context `{PyRuntime} `{StrMethods}.

Lemma length_append (s t : string) :
  String.length (s +:+ t) = (String.length s + String.length t)%nat.
Proof. induction s as [|a s IH]; simpl; [reflexivity | now rewrite IH]. Qed.

Lemma append_inv_tail (s1 s2 t : string) : s1 +:+ t = s2 +:+ t -> s1 = s2.
Proof.
  revert s2. induction s1 as [|a s1 IH]; intros [|b s2] E; simpl in E.
  - reflexivity.
  - exfalso. apply (f_equal String.length) in E.
    rewrite !length_append in E. simpl in E. lia.
  - exfalso. apply (f_equal String.length) in E.
    rewrite !length_append in E. simpl in E. lia.
  - injection E as -> E. f_equal. now apply IH.
Qed.

Lemma caminho_csv_inj dir c1 c2 :
  caminho_csv dir c1 = caminho_csv dir c2 -> c1 = c2.
Proof.
  unfold caminho_csv. intros E.
  apply (String.app_inj dir) in E. apply (String.app_inj "/") in E.
  now apply append_inv_tail in E.
Qed.

Lemma fold_gravar_frame (tab : string -> DataFrame) dir cs d :
  let d' := fold_left (fun d c => gravar (caminho_csv dir c) (tab c) d) cs d in
  read_json d' = read_json d /\ unwritable d' = unwritable d /\
  forall p, (forall c, In c cs -> p <> caminho_csv dir c) ->
            csv_files d' !! p = csv_files d !! p.
Proof.
  revert d. induction cs as [|c cs IH]; intros d; simpl; [auto|].
  destruct (IH (gravar (caminho_csv dir c) (tab c) d)) as (Hr & Hu & Hf).
  split; [exact Hr|]. split; [exact Hu|].
  intros p Hp. rewrite Hf by (intros c' Hc'; apply Hp; now right).
  simpl. apply lookup_insert_ne. intros E. apply (Hp c); [now left | now symmetry].
Qed.

Lemma fold_gravar_lookup (tab : string -> DataFrame) dir cs d c :
  List.NoDup cs -> In c cs ->
  csv_files (fold_left (fun d c => gravar (caminho_csv dir c) (tab c) d) cs d)
    !! caminho_csv dir c = Some (cols (tab c)).
Proof.
  intros Hnd. revert d. induction Hnd as [|x cs Hx Hcs IH]; intros d Hin;
    [destruct Hin|]. simpl.
  destruct Hin as [->|Hin]; [|now apply IH].
  destruct (fold_gravar_frame tab dir cs (gravar (caminho_csv dir c) (tab c) d))
    as (_ & _ & Hf).
  rewrite Hf.
  - simpl. apply lookup_insert_eq.
  - intros c' Hc' E. apply caminho_csv_inj in E. now subst.
Qed.

(** X23.  When [separar_concursos] returns, the disk holds one CSV file for
    each key of the dict, at [output_dir/key.csv] ([raw] when no directory
    is given), with the columns of the table of that key; every other file
    is as it was. *)
Theorem separar_concursos_writes_one_csv_per_lottery
  (origem : fonte) (output_dir : option string) (d d' : disk)
  (tabelas : list (string * DataFrame)) :
  separar_concursos origem output_dir d = (Done tabelas, d') ->
  read_json d' = read_json d /\
  unwritable d' = unwritable d /\
  (forall nome t,
     In (nome, t) tabelas ->
     csv_files d' !! caminho_csv (default "raw" output_dir) nome
     = Some (cols t)) /\
  (forall p,
     (forall nome, In nome (map fst tabelas) ->
                   p <> caminho_csv (default "raw" output_dir) nome) ->
     csv_files d' !! p = csv_files d !! p).
Proof.
  intros E.
  destruct (separar_concursos_inv _ _ _ _ _ E)
    as [(e & _ & Hr & _)|[(df1 & _ & _ & Hr & _)|(df1 & col & Hc & Hcol & Hloop)]];
    try discriminate.
  apply salvar_concursos_done in Hloop;
    [|apply unique_NoDup | intros c _ []].
  destruct Hloop as [-> ->]. simpl app.
  set (loteria := map padronizar_loteria col).
  set (tab := tabela_do_concurso _ loteria).
  destruct (fold_gravar_frame tab (default "raw" output_dir) (unique loteria) d)
    as (Hr & Hu & Hf).
  split; [exact Hr|]. split; [exact Hu|]. split.
  - intros nome t Hin. apply in_map_iff in Hin.
    destruct Hin as (c & Ec & Hc'). injection Ec as <- <-.
    apply fold_gravar_lookup; [apply unique_NoDup | exact Hc'].
  - intros p Hp. apply Hf. intros c Hc'. apply Hp.
    rewrite map_map. simpl. now rewrite map_id.
Qed.

(** X24.  How [separar_concursos] fails: an exception of the reading is raised
    as it is, and a dataset without a [loteria] column raises
    [ValueError], both with the disk untouched; only [OSError] can leave
    files written before it; and a dataset that is read and has a
    [loteria] column is separated whenever every path can be written. *)
Theorem separar_concursos_failures
  (origem : fonte) (output_dir : option string) (d : disk) :
  (forall e, carregar origem d = Failed e ->
             separar_concursos origem output_dir d = (Failed e, d)) /\
  (forall df0, carregar origem d = Done df0 -> has_col "loteria" df0 = false ->
               separar_concursos origem output_dir d
               = (Failed (PyExn ValueError), d)) /\
  (forall e d', separar_concursos origem output_dir d = (Failed e, d') ->
                e <> OSError -> d' = d) /\
  (forall df0, carregar origem d = Done df0 -> has_col "loteria" df0 = true ->
               unwritable d = [] ->
               exists tabelas d',
                 separar_concursos origem output_dir d = (Done tabelas, d')).
Proof.
  assert (Hn : forall df0, has_col "loteria" (reset_index (dropna_all df0))
                           = has_col "loteria" df0).
  { intros df0. apply has_col_names. unfold dropna_all.
    change (column_names (reset_index ?x)) with (column_names x).
    apply names_select_rows. }
  split; [|split; [|split]].
  - intros e Hc. unfold separar_concursos. now rewrite Hc.
  - intros df0 Hc Hno. unfold separar_concursos.
    now rewrite Hc, Hn, Hno.
  - intros e d' E Hne.
    destruct (separar_concursos_inv _ _ _ _ _ E)
      as [(e' & _ & _ & ->)|[(df1 & _ & _ & _ & ->)|(df1 & col & _ & _ & Hloop)]];
      try reflexivity.
    apply salvar_concursos_failed in Hloop. contradiction.
  - intros df0 Hc Hhas Hw. unfold separar_concursos.
    rewrite Hc, Hn, Hhas. cbn [negb].
    rewrite <- Hn in Hhas. apply has_col_get_col in Hhas.
    destruct Hhas as [col ->].
    apply salvar_concursos_writable. intros c _. now rewrite Hw.
Qed.

Lemma separar_concursos_rowless
  (origem : fonte) (output_dir : option string) (d : disk) (df0 : DataFrame) :
  carregar origem d = Done df0 ->
  wf df0 ->
  has_col "loteria" df0 = true ->
  index (dropna_all df0) = [] ->
  separar_concursos origem output_dir d = (Done [], d).
Proof.
  intros Hc Hwf Hhas Hi. unfold separar_concursos. rewrite Hc.
  assert (Hn : has_col "loteria" (reset_index (dropna_all df0)) = true).
  { erewrite has_col_names; [exact Hhas|]. unfold dropna_all.
    change (column_names (reset_index ?x)) with (column_names x).
    apply names_select_rows. }
  rewrite Hn. cbn [negb].
  apply has_col_get_col in Hn. destruct Hn as [col Hcol]. rewrite Hcol.
  assert (Hnil : col = []).
  { apply (wf_get_col _ _ _ (wf_dropna_all _ Hwf)) in Hcol.
    rewrite n_rows_reset_index in Hcol. unfold n_rows in Hcol.
    rewrite Hi in Hcol. now destruct col. }
  subst col. reflexivity.
Qed.

(** X25.  A dataset with a [loteria] column in which every row is entirely null,
    or that has no row, gives the empty dict, and nothing is written. *)
Theorem separar_concursos_on_an_empty_dataset
  (origem : fonte) (output_dir : option string) (d : disk) (df0 : DataFrame) :
  carregar origem d = Done df0 ->
  wf df0 ->
  has_col "loteria" df0 = true ->
  index (dropna_all df0) = [] ->
  separar_concursos origem output_dir d = (Done [], d).
Proof. apply separar_concursos_rowless. Qed.

End CsvFiles.

Lemma separar_concursos_partitions_the_rows_witness :
  exists tabelas d',
    separar_concursos (H := Demo.runtime) (H0 := Demo.str_methods)
      (Tabela dataset_bruto) None disco_vazio = (Done tabelas, d') /\
    total_rows tabelas = 3%nat.
Proof.
  destruct (separar_concursos (H := Demo.runtime) (H0 := Demo.str_methods)
              (Tabela dataset_bruto) None disco_vazio) as [[t|e] d'] eqn:E;
    [|vm_compute in E; discriminate].
  exists t, d'. split; [reflexivity|].
  destruct (@separar_concursos_partitions_the_rows Demo.runtime Demo.str_methods
              (Tabela dataset_bruto) None disco_vazio d' dataset_bruto t
              eq_refl) as (_ & Ht & _).
  - repeat constructor.
  - exact E.
  - rewrite Ht. reflexivity.
Defined.

Lemma separar_concursos_writes_one_csv_per_lottery_witness :
  exists d',
    (separar_concursos (H := Demo.runtime) (H0 := Demo.str_methods)
       (Tabela dataset_bruto) None disco_vazio).2 = d' /\
    csv_files d' !! "raw/outra.csv" = None.
Proof.
  destruct (separar_concursos (H := Demo.runtime) (H0 := Demo.str_methods)
              (Tabela dataset_bruto) None disco_vazio) as [[t|e] d'] eqn:E;
    [|vm_compute in E; discriminate].
  exists d'. split; [reflexivity|].
  destruct (@separar_concursos_writes_one_csv_per_lottery
              Demo.runtime Demo.str_methods _ _ _ _ _ E) as (_ & _ & _ & Hf).
  rewrite Hf; [reflexivity|].
  assert (Et : (Done t, d')
               = separar_concursos (H := Demo.runtime) (H0 := Demo.str_methods)
                   (Tabela dataset_bruto) None disco_vazio)
    by (now rewrite E).
  vm_compute in Et. injection Et as -> _.
  intros nome Hin. simpl in Hin.
  destruct Hin as [<-|[<-|[]]]; discriminate.
Defined.

Lemma separar_concursos_failures_witness :
  separar_concursos (H := Demo.runtime) (H0 := Demo.str_methods)
    (Caminho "data/raw/dataset.json") None disco_vazio
  = (Failed FileNotFoundError, disco_vazio).
Proof.
  destruct (@separar_concursos_failures Demo.runtime Demo.str_methods
              (Caminho "data/raw/dataset.json") None disco_vazio)
    as (Hread & _).
  apply Hread. reflexivity.
Defined.

Lemma separar_concursos_on_an_empty_dataset_witness :
  separar_concursos (H := Demo.runtime) (H0 := Demo.str_methods)
    (Tabela (mkDF [0] [("loteria", [VNone]); ("concurso", [VNaN])]))
    None disco_vazio
  = (Done [], disco_vazio).
Proof.
  apply (@separar_concursos_on_an_empty_dataset Demo.runtime Demo.str_methods
           _ _ _ (mkDF [0] [("loteria", [VNone]); ("concurso", [VNaN])])).
  - reflexivity.
  - repeat constructor.
  - reflexivity.
  - reflexivity.
Defined.

(** ** The [loteria] column through the stages *)

Section LoteriaColumn.
Context `{PyRuntime}.

Lemma get_col_update_col_other f c n df :
  String.eqb c n = false -> get_col c (update_col f n df) = get_col c df.
Proof.
  intros E. unfold update_col. destruct (assoc n (cols df)); [|reflexivity].
  now rewrite get_col_set_col, E.
Qed.

Lemma get_col_fold_update_col_other f c names df :
  existsb (String.eqb c) names = false ->
  get_col c (fold_left (fun df n => update_col f n df) names df) = get_col c df.
Proof.
  revert df. induction names as [|n names IH]; simpl; intros df E;
    [reflexivity|].
  apply orb_false_iff in E. destruct E as [E1 E2].
  now rewrite IH, get_col_update_col_other.
Qed.

Lemma Forall_filter_by {A} (P : A -> Prop) (mask : list bool) (l : list A) :
  Forall P l -> Forall P (filter_by mask l).
Proof.
  intros Hl. apply List.Forall_forall. intros x Hx.
  rewrite List.Forall_forall in Hl. apply Hl. eapply filter_by_In. eassumption.
Qed.

Lemma converter_tipos_keeps_loteria df out :
  converter_tipos df = Ok out -> get_col "loteria" out = get_col "loteria" df.
Proof.
  unfold converter_tipos. intros Ht.
  inv_bind Ht. inv_bind Ht. inv_bind Ht. inv_bind Ht. inv_bind Ht. inv_bind Ht.
  match type of Ht with
  | context [assoc "acumulou" (cols ?d)] =>
      assert (H4 : get_col "loteria" d = get_col "loteria" df)
        by (rewrite get_col_fold_update_col_other by reflexivity;
            now rewrite !get_col_set_col);
      destruct (assoc "acumulou" (cols d)) as [vs|]
  end.
  - inv_bind Ht. inversion Ht; subst. now rewrite get_col_set_col.
  - now inversion Ht; subst.
Qed.

Lemma drop_colunas_keeps_loteria df out :
  drop_colunas_por_loteria df = Ok out ->
  get_col "loteria" out = get_col "loteria" df.
Proof.
  unfold drop_colunas_por_loteria. intros E. inv_bind E. inversion E; subst.
  apply get_col_drop_cols. apply existsb_filter_absent.
  unfold colunas_drop.
  repeat match goal with
         | |- context [if ?b then _ else _] => destruct b
         end; reflexivity.
Qed.

Lemma cleaning_keeps_loteria_cells (P : pyval -> Prop) df out col vs :
  data_cleaning_etapa1 df = Ok out ->
  get_col "loteria" df = Ok col -> Forall P col ->
  get_col "loteria" out = Ok vs -> Forall P vs.
Proof.
  intros Hc Hcol HP Hvs. unfold data_cleaning_etapa1 in Hc.
  inv_bind Hc. rename a into pruned, Ha into Hp.
  inv_bind Hc. rename a into conv, Ha into Ht.
  inv_bind Hc. rename a into out', Ha into Hv.
  inversion Hc; subst out'. clear Hc.
  unfold tratar_tipos_e_colunas in Ht.
  inv_bind Ht. rename a into dedup, Ha into Hd.
  destruct (validar_dezenas_cols _ _ Hv) as (n & dz & _ & Hcols).
  destruct (Hcols _ _ Hvs) as (vs0 & mask & Hvs0 & ->).
  do 2 apply Forall_filter_by.
  unfold aplicar_normalizacao_listas in Hvs0.
  rewrite get_col_fold_update_col_other in Hvs0 by reflexivity.
  rewrite (converter_tipos_keeps_loteria _ _ Ht) in Hvs0.
  apply drop_colunas_keeps_loteria in Hp. rewrite <- Hp in Hcol.
  unfold remover_duplicatas in Hd. inv_bind Hd.
  destruct (0 <? count_true (duplicated a))%nat; inversion Hd; subst.
  - rewrite (get_col_select_rows _ _ _ _ Hcol) in Hvs0.
    injection Hvs0 as <-. now apply Forall_filter_by.
  - congruence.
Qed.

End LoteriaColumn.

Section LoteriaColumn2.
Context `{PyRuntime}.

Lemma cleaning_output_has_loteria df out :
  data_cleaning_etapa1 df = Ok out -> index out <> [] ->
  exists vs, get_col "loteria" out = Ok vs.
Proof.
  intros Hc Hne. apply has_col_get_col. unfold data_cleaning_etapa1 in Hc.
  inv_bind Hc. rename a into pruned, Ha into Hp.
  inv_bind Hc. rename a into conv, Ha into Ht.
  inv_bind Hc. rename a into out', Ha into Hv.
  inversion Hc; subst out'. clear Hc.
  unfold tratar_tipos_e_colunas in Ht.
  inv_bind Ht. rename a into dedup, Ha into Hd.
  assert (Hlp : has_col "loteria" pruned = true).
  { pose proof (drop_colunas_keeps_loteria _ _ Hp) as Hk.
    unfold drop_colunas_por_loteria, first_loteria in Hp.
    inv_bind Hp. inv_bind Ha. rewrite Ha0 in Hk.
    eapply get_col_has_col. exact Hk. }
  erewrite has_col_names; [exact Hlp|].
  rewrite (validar_dezenas_names _ _ Hv Hne).
  unfold aplicar_normalizacao_listas. rewrite names_fold_update_col.
  rewrite (converter_tipos_names _ _ Ht).
  eapply remover_duplicatas_names. eassumption.
Qed.

End LoteriaColumn2.

Section Driver.
Context `{PyRuntime} `{StrMethods}.

Lemma processar_concurso_inv nome df_raw st r st' :
  processar_concurso nome df_raw st = (r, st') ->
  arquivos st' = arquivos st /\
  match r with
  | Done _ =>
      exists df_limpo df_feat,
        data_cleaning_etapa1 df_raw = Ok df_limpo /\
        feature_engineering_etapa2 df_limpo = Ok df_feat /\
        salvar_no_sqlite_etapa3 df_feat (Some SQLITE_PATH) (banco st)
        = (Ok (), banco st')
  | Failed _ => True
  end /\
  forall nome',
    (forall df_limpo df_feat,
       data_cleaning_etapa1 df_raw = Ok df_limpo ->
       feature_engineering_etapa2 df_limpo = Ok df_feat ->
       stage_relation_name df_feat <> Ok nome') ->
    relation SQLITE_PATH nome' (banco st') = relation SQLITE_PATH nome' (banco st).
Proof.
  unfold processar_concurso. cbv zeta. intros E.
  unfold print in E. cbn [banco arquivos stdout] in E.
  destruct (data_cleaning_etapa1 df_raw) as [df_limpo|e1] eqn:Ec;
    cbv iota in E.
  2: { injection E as <- <-. repeat split; auto. }
  destruct (feature_engineering_etapa2 df_limpo) as [df_feat|e2] eqn:Ef;
    cbv iota in E.
  2: { injection E as <- <-. repeat split; auto. }
  pose proof (salvar_no_sqlite_frame df_feat (Some SQLITE_PATH) (banco st))
    as Hframe.
  destruct (salvar_no_sqlite_etapa3 df_feat (Some SQLITE_PATH) (banco st))
    as [[[]|e3] w] eqn:Es; cbv beta iota zeta in E; injection E as <- <-;
    simpl in *.
  - split; [reflexivity|]. split; [eauto|].
    intros nome' Hne. apply (Hframe SQLITE_PATH nome'). right. eauto.
  - split; [reflexivity|]. split; [exact I|].
    intros nome' Hne. apply (Hframe SQLITE_PATH nome'). right. eauto.
Qed.

Lemma stage_relation_name_of_the_features df_raw df_limpo df_feat nome :
  tabela_de (nome, df_raw) ->
  data_cleaning_etapa1 df_raw = Ok df_limpo ->
  feature_engineering_etapa2 df_limpo = Ok df_feat ->
  (exists e, stage_relation_name df_feat = Raise e) \/
  (stage_relation_name df_feat = Ok (lower nome) /\
   (1 <= n_rows df_feat <= n_rows df_raw)%nat).
Proof.
  intros (Hwf & col & Hcol & Hall) Hc Hf. simpl in *.
  destruct (data_cleaning_shape _ _ Hwf Hc) as (Hwfl & _ & Hle).
  assert (Hrows : index df_limpo <> []).
  { intros Hi. destruct (feature_stage_rowless _ _ Hwf Hc Hi); congruence. }
  destruct (cleaning_output_has_loteria _ _ Hc Hrows) as [vs Hvs].
  pose proof (cleaning_keeps_loteria_cells _ _ _ _ _ Hc Hcol Hall Hvs) as Hvsall.
  pose proof (wf_get_col _ _ _ Hwfl Hvs) as Hlen.
  destruct (feature_engineering_keeps "loteria") with (df := df_limpo)
    (out := df_feat) (vs := vs) as [Hi Hfeat]; try assumption; try reflexivity.
  { repeat constructor. }
  assert (Hn : n_rows df_feat = n_rows df_limpo)
    by (unfold n_rows; now rewrite Hi).
  unfold stage_relation_name.
  destruct (listas_para_json df_feat) as [df_json|e] eqn:Ej; [|left; eauto].
  right. rewrite Ok_bind.
  unfold listas_para_json in Ej. apply listas_para_json_fold in Ej.
  destruct Ej as [_ Hj]. specialize (Hj _ _ Hfeat).
  rewrite (get_col_has_col _ _ _ Hfeat : existsb _ _ = true) in Hj.
  destruct Hj as (vs' & He & Hg).
  assert (Hnl : existsb is_list vs = false).
  { clear - Hvsall. induction Hvsall as [|v l Hv Hl IH]; simpl; [reflexivity|].
    subst v. exact IH. }
  unfold encode_col in He. rewrite Hnl in He. injection He as <-.
  unfold first_loteria. rewrite Hg, Ok_bind.
  destruct vs as [|v vs].
  - simpl in Hlen. unfold n_rows in Hlen. destruct (index df_limpo); [congruence | discriminate].
  - inversion Hvsall; subst. simpl. split; [reflexivity|].
    simpl in Hlen. lia.
Qed.

End Driver.

(** ** The driver *)

Section Pipeline.
Context `{PyRuntime} `{StrMethods}.

Lemma salvar_no_sqlite_named df caminho w w' :
  salvar_no_sqlite_etapa3 df caminho w = (Ok (), w') ->
  exists nome, stage_relation_name df = Ok nome.
Proof.
  unfold salvar_no_sqlite_etapa3, stage_relation_name, salvar_sqlite.
  destruct (listas_para_json df) as [df_json|e]; [|discriminate].
  rewrite Ok_bind.
  destruct (first_loteria df_json) as [nome|e]; [eauto | discriminate].
Qed.

Lemma processar_concurso_stores nome df_raw st st' :
  tabela_de (nome, df_raw) ->
  processar_concurso nome df_raw st = (Done (), st') ->
  arquivos st' = arquivos st /\
  (exists stored,
     relation SQLITE_PATH (lower nome) (banco st') = Some stored /\
     (1 <= n_rows stored <= n_rows df_raw)%nat) /\
  (forall outro, outro <> lower nome ->
     relation SQLITE_PATH outro (banco st') = relation SQLITE_PATH outro (banco st)).
Proof.
  intros Htab E.
  destruct (processar_concurso_inv _ _ _ _ _ E)
    as (Hfiles & (df_limpo & df_feat & Hc & Hf & Hs) & Hframe).
  destruct (salvar_no_sqlite_named _ _ _ _ Hs) as [n Hn].
  destruct (stage_relation_name_of_the_features _ _ _ _ Htab Hc Hf)
    as [[e He]|[Hname Hrows]]; [congruence|].
  split; [exact Hfiles|]. split.
  - destruct (stage_write _ _ _ _ _ Hname Hs) as (stored & Hst & Hr).
    exists stored. split; [exact Hst | lia].
  - intros outro Hne. apply Hframe. intros l f Hl Hf'.
    rewrite Hc in Hl. injection Hl as <-.
    rewrite Hf in Hf'. injection Hf' as <-.
    rewrite Hname. congruence.
Qed.

(** X26.  A lottery that the loop of the driver finishes is in the store: the
    relation named by its lower-cased key holds at least one row and at
    most as many rows as the raw table of the lottery; no other relation
    and no file is touched. *)
Theorem pipeline_stores_a_lottery_under_its_name
  (nome : string) (df_raw : DataFrame) (st st' : sistema) :
  tabela_de (nome, df_raw) ->
  processar_concurso nome df_raw st = (Done (), st') ->
  arquivos st' = arquivos st /\
  (exists stored,
     relation SQLITE_PATH (lower nome) (banco st') = Some stored /\
     (1 <= n_rows stored <= n_rows df_raw)%nat) /\
  (forall outro, outro <> lower nome ->
     relation SQLITE_PATH outro (banco st') = relation SQLITE_PATH outro (banco st)).
Proof. apply processar_concurso_stores. Qed.



Lemma processar_concursos_stores tabelas st st' :
  Forall tabela_de tabelas ->
  processar_concursos tabelas st = (Done (), st') ->
  arquivos st' = arquivos st /\
  (forall n, armazenada n st -> armazenada n st') /\
  (forall nome, In nome (map fst tabelas) -> armazenada (lower nome) st').
Proof.
  intros Hall. revert st. induction Hall as [|[nome df] tabelas Htab Hall IH];
    simpl; intros st E.
  - injection E as <-. repeat split; auto. intros nome [].
  - destruct (processar_concurso nome df st) as [[[]|e1] st1] eqn:E1;
      [|discriminate].
    destruct (processar_concurso_stores _ _ _ _ Htab E1)
      as (Hf1 & (stored & Hst & Hr) & Hframe).
    destruct (IH _ E) as (Hf & Hkeep & Hkeys).
    assert (Hkeep1 : forall n, armazenada n st -> armazenada n st1).
    { intros n (s & Hs & Hn).
      destruct (String.eqb_spec n (lower nome)) as [->|Hne].
      - exists stored. split; [exact Hst | lia].
      - exists s. split; [|exact Hn]. now rewrite (Hframe n Hne). }
    split; [congruence|]. split; [auto|].
    intros n [<-|Hin]; [|auto].
    apply Hkeep. exists stored. split; [exact Hst | lia].
Qed.

Lemma separar_concursos_tabelas origem dir d tabelas d' df0 :
  carregar origem d = Done df0 -> wf df0 ->
  separar_concursos origem dir d = (Done tabelas, d') ->
  Forall tabela_de tabelas.
Proof.
  intros Hload Hwf E.
  destruct (separar_concursos_inv _ _ _ _ _ E)
    as [(e & Hc & _)|[(df1 & _ & _ & Hr & _)|(df1 & col & Hc & Hcol & Hloop)]];
    try congruence.
  rewrite Hload in Hc. injection Hc as <-.
  apply salvar_concursos_done in Hloop;
    [|apply unique_NoDup | intros c _ []].
  destruct Hloop as [-> _]. simpl app.
  destruct (tabelas_do_concurso _ _ (wf_dropna_all _ Hwf) Hcol) as (_ & _ & Hall).
  eapply List.Forall_impl; [|exact Hall].
  intros kv (Hw & _ & _ & Hl). split; assumption.
Qed.

(** X28.  When the driver returns, every lottery of the dataset is in the store:
    for each key of the dict of [separar_concursos], the relation named by
    the lower-cased key holds at least one row; and the last line printed
    is the closing banner. *)
Theorem pipeline_stores_every_lottery
  (st st' : sistema) (df0 : DataFrame) :
  read_json (arquivos st) DATASET_PATH = Done df0 ->
  wf df0 ->
  rodar_pipeline st = (Done (), st') ->
  exists tabelas,
    (separar_concursos (Caminho DATASET_PATH) (Some OUTPUT_DIR) (arquivos st)).1
    = Done tabelas /\
    (forall nome, In nome (map fst tabelas) -> armazenada (lower nome) st') /\
    last (stdout st') = Some (nl +:+ "=== ETL CONCLUÍDO COM SUCESSO ===").
Proof.
  intros Hread Hwf E. unfold rodar_pipeline in E. cbv zeta in E.
  unfold print in E. cbn [banco arquivos stdout] in E.
  destruct (separar_concursos (Caminho DATASET_PATH) (Some OUTPUT_DIR)
              (arquivos st)) as [[tabelas|e] d] eqn:Es; [|discriminate].
  exists tabelas. split; [reflexivity|].
  pose proof (separar_concursos_tabelas (Caminho DATASET_PATH) _ _ _ _ _
                Hread Hwf Es) as Hall.
  match type of E with
  | context [processar_concursos tabelas ?s] =>
      destruct (processar_concursos tabelas s) as [[[]|e] st1] eqn:Ep;
        [|discriminate]
  end.
  injection E as <-.
  destruct (processar_concursos_stores _ _ _ Hall Ep) as (_ & _ & Hkeys).
  split.
  - intros nome Hin. destruct (Hkeys nome Hin) as (s & Hs & Hn).
    exists s. split; assumption.
  - cbn [stdout]. apply last_snoc.
Qed.

(** X29.  On a dataset with a [loteria] column and no row with a value, the
    driver returns with the store and the files as they were, having
    printed that it found 0 lotteries. *)
Theorem pipeline_on_an_empty_dataset (st : sistema) (df0 : DataFrame) :
  read_json (arquivos st) DATASET_PATH = Done df0 ->
  wf df0 ->
  has_col "loteria" df0 = true ->
  index (dropna_all df0) = [] ->
  rodar_pipeline st
  = (Done (),
     mkSistema (arquivos st) (banco st)
       (stdout st ++
        [nl +:+ "=== INICIANDO ETL DAS LOTERIAS ===" +:+ nl;
         "Carregando dataset bruto...";
         "0 concursos identificados: []" +:+ nl;
         nl +:+ "=== ETL CONCLUÍDO COM SUCESSO ==="])%list).
Proof.
  intros Hread Hwf Hhas Hi. unfold rodar_pipeline. cbv zeta.
  unfold print. cbn [banco arquivos stdout].
  rewrite (separar_concursos_rowless (Caminho DATASET_PATH) (Some OUTPUT_DIR)
             (arquivos st) df0 Hread Hwf Hhas Hi).
  cbn [processar_concursos]. unfold repr_keys. simpl.
  rewrite <- !app_assoc. reflexivity.
Qed.

End Pipeline.

Lemma pipeline_stores_a_lottery_under_its_name_witness :
  exists stored,
    relation SQLITE_PATH "megasena"
      (banco (processar_concurso (H := Demo.runtime) "megasena" batch_cleaned
                (sistema_com batch_cleaned)).2) = Some stored /\
    (1 <= n_rows stored <= 2)%nat.
Proof.
  destruct (processar_concurso (H := Demo.runtime) "megasena" batch_cleaned
              (sistema_com batch_cleaned)) as [[[]|e] st'] eqn:E;
    [|vm_compute in E; discriminate].
  destruct (@pipeline_stores_a_lottery_under_its_name Demo.runtime
              "megasena" batch_cleaned (sistema_com batch_cleaned) st')
    as (_ & Hst & _).
  - split; [repeat constructor|].
    exists [VStr "megasena"; VStr "megasena"].
    split; [reflexivity | repeat constructor].
  - exact E.
  - exact Hst.
Defined.


Lemma pipeline_stores_every_lottery_witness :
  armazenada "megasena"
    (rodar_pipeline (H := Demo.runtime) (H0 := Demo.str_methods)
       (sistema_com batch_cleaned)).2.
Proof.
  destruct (rodar_pipeline (H := Demo.runtime) (H0 := Demo.str_methods)
              (sistema_com batch_cleaned)) as [[[]|e] st'] eqn:E;
    [|vm_compute in E; discriminate].
  destruct (@pipeline_stores_every_lottery Demo.runtime Demo.str_methods
              (sistema_com batch_cleaned) st' batch_cleaned eq_refl)
    as (tabelas & Ht & Hkeys & _).
  - repeat constructor.
  - exact E.
  - apply (Hkeys "megasena").
    vm_compute in Ht. injection Ht as <-. left. reflexivity.
Defined.

Lemma pipeline_on_an_empty_dataset_witness :
  (rodar_pipeline (H := Demo.runtime) (H0 := Demo.str_methods)
     (sistema_com (mkDF [0] [("loteria", [VNone]); ("concurso", [VNaN])]))).1
  = Done ().
Proof.
  rewrite (@pipeline_on_an_empty_dataset Demo.runtime Demo.str_methods
             (sistema_com (mkDF [0] [("loteria", [VNone]); ("concurso", [VNaN])]))
             (mkDF [0] [("loteria", [VNone]); ("concurso", [VNaN])])).
  - reflexivity.
  - reflexivity.
  - repeat constructor.
  - reflexivity.
  - reflexivity.
Defined.
